(** * databricks_migrate: the metastore crawl and the cluster filter

    A shallow embedding of [migrations/clusters.py] and [migrations/hive.py]:
    the command executor ([submit_command]), the batch iterator of
    [log_all_databases] / [log_all_tables], the per-table crawl, the retry
    with alternate instance profiles, the import, and the automated-cluster
    filter.  Python integers are [Z], Python [str] values over code points
    below 256 are [string], dictionaries whose keys the code reads are
    records of optional fields, and the export directory is a typed store. *)

From Stdlib Require Import ZArith List String Ascii Lia Bool DecimalString.
From stdpp Require Import base gmap strings list.

Local Open Scope Z_scope.

(* ===================================================================== *)
(** ** Batch iterator (hive.py, lines 22-28 and 41-49) *)
(* ===================================================================== *)

Module Pagination.

(** [batch_size = 100] in both [log_all_databases] and [log_all_tables]. *)
Definition batch_size : Z := 100.

(** [num_of_buckets = (num // batch_size) + 1]; Python's [//] is floor
    division, which is [Z.div] for the positive divisor used here. *)
Definition num_of_buckets (num : Z) : Z := num / batch_size + 1.

(** [range(0, n)]: empty when [n <= 0]. *)
Definition range (n : Z) : list Z := seqZ 0 n.

(** The bounds [batch_size*m, batch_size*(m+1)] formatted into the slice
    statement at iteration [m]. *)
Definition slice_bounds (m : Z) : Z * Z := (batch_size * m, batch_size * (m + 1)).

(** All the index ranges the loop [for m in range(0, num_of_buckets)] asks for. *)
Definition batch_ranges (num : Z) : list (Z * Z) :=
  slice_bounds <$> range (num_of_buckets num).

(** Python's [l[a:b]] for bounds that are not negative: out-of-range bounds
    are clamped, never an error. *)
Definition py_slice {A} (l : list A) (a b : Z) : list A :=
  take (Z.to_nat b - Z.to_nat a)%nat (drop (Z.to_nat a) l).

(** What the remote side prints over the whole loop, concatenated. *)
Definition all_slices {A} (l : list A) : list A :=
  concat ((fun r => py_slice l (fst r) (snd r)) <$>
            batch_ranges (Z.of_nat (length l))).

(** ceil(n/b), the count the specification names. *)
Definition ceil_div (n b : Z) : Z := (n + b - 1) / b.

(** Index [k] lies in the half-open range [r]. *)
Definition in_range (k : Z) (r : Z * Z) : Prop := fst r <= k < snd r.

(** The number of ranges as the specification gives it. *)
Definition spec_count (num : Z) : Prop :=
  Z.of_nat (length (batch_ranges num)) = ceil_div num batch_size.

End Pagination.

(* ===================================================================== *)
(** ** Exceptions and call outcomes *)
(* ===================================================================== *)

(** The Python exceptions the modelled code can raise. *)
Inductive Exn : Type :=
  | KeyError (key : string)
  | IndexError
  | ValueError (msg : string)
  | UnboundLocalError (var : string)
  | FileNotFoundError (path : string)
  | NotADirectoryError (path : string)
  | FileExistsError (path : string)
  | LiteralError (text : string)
  | RemoteSessionError
  | LaunchError.

(** A call returns, raises, or is still polling when the fuel of the model
    runs out (the source loop has no bound). *)
Inductive Outcome (A : Type) : Type :=
  | Returned (a : A)
  | Raised (e : Exn)
  | OutOfFuel.
Arguments Returned {A} a.
Arguments Raised {A} e.
Arguments OutOfFuel {A}.

(* ===================================================================== *)
(** ** Regular expressions as used by [re.compile(...).match] *)
(* ===================================================================== *)

Module Re.

(** One-character matchers: a literal, or [\d].  On code points below 256
    the only decimal digits are [0]..[9]. *)
Inductive atom : Type := Chr (c : ascii) | Digit.

(** Pattern items: an atom, an atom under [+], and the anchor [$]. *)
Inductive item : Type := One (a : atom) | Plus (a : atom) | Dollar.

Definition is_digit (c : ascii) : bool :=
  let n := nat_of_ascii c in (48 <=? n)%nat && (n <=? 57)%nat.

Definition atom_match (a : atom) (c : ascii) : bool :=
  match a with
  | Chr d => Ascii.eqb c d
  | Digit => is_digit c
  end.

(** [$] without MULTILINE: the end of the string, or just before a newline
    that is the last character of the string. *)
Definition at_dollar (s : string) : bool :=
  match s with
  | EmptyString => true
  | String c EmptyString => Ascii.eqb c "010"%char
  | _ => false
  end.

(** Backtracking match of the items at the start of [s]; the pattern need
    not consume the whole string ([match], not [fullmatch]). *)
Fixpoint match_here (p : list item) (s : string) {struct p} : bool :=
  match p with
  | [] => true
  | One a :: p' =>
      match s with
      | String c s' => atom_match a c && match_here p' s'
      | EmptyString => false
      end
  | Plus a :: p' =>
      let more :=
        fix more (s : string) : bool :=
          match_here p' s ||
          match s with
          | String c s' => atom_match a c && more s'
          | EmptyString => false
          end in
      match s with
      | String c s' => atom_match a c && more s'
      | EmptyString => false
      end
  | Dollar :: p' => at_dollar s && match_here p' s
  end.

(** [re_expr.match(s)] is truthy iff there is a match at position 0. *)
Definition re_match (p : list item) (s : string) : bool := match_here p s.

(** A literal run of characters. *)
Fixpoint lit (s : string) : list item :=
  match s with
  | EmptyString => []
  | String c s' => One (Chr c) :: lit s'
  end.

(** [x] is made of characters the atom accepts. *)
Definition run_of (a : atom) (x : string) : Prop :=
  Forall (fun c => atom_match a c = true) (list_ascii_of_string x).

End Re.

(* ===================================================================== *)
(** ** Automated-cluster filter (clusters.py, lines 53-71) *)
(* ===================================================================== *)

Module Clusters.

(** A cluster configuration: the key the filter reads, and the other keys. *)
Record Cluster : Type := mkCluster {
  cluster_name : option string;
  cluster_rest : list (string * string)
}.

(** [ml_model_pattern = "mlflow-model-"]. *)
Definition ml_model_pattern : string := "mlflow-model-".

(** [re_expr = re.compile("job-\d+-run-\d+$")]. *)
Definition re_expr : list Re.item :=
  Re.lit "job-" ++ [Re.Plus Re.Digit] ++ Re.lit "-run-" ++ [Re.Plus Re.Digit; Re.Dollar].

(** [cluster_name.startswith(ml_model_pattern)]. *)
Definition startswith (s p : string) : bool := String.prefix p s.

(** The condition of the [if] at line 67. *)
Definition is_automated (name : string) : bool :=
  Re.re_match re_expr name || startswith name ml_model_pattern.

(** The loop of lines 65-70.  [clean] is [clean_cluster_list], [skipped] the
    lines written so far to [skipped_clusters.log]; a cluster without a
    [cluster_name] key raises [KeyError] and leaves the log as written. *)
Fixpoint filter_loop (cluster_list clean skipped : list Cluster)
  : Outcome (list Cluster) * list Cluster :=
  match cluster_list with
  | [] => (Returned clean, skipped)
  | cluster :: rest =>
      match cluster_name cluster with
      | None => (Raised (KeyError "cluster_name"), skipped)
      | Some name =>
          if is_automated name
          then filter_loop rest clean (skipped ++ [cluster])
          else filter_loop rest (clean ++ [cluster]) skipped
      end
  end.

(** [remove_automated_clusters]: the returned clean list (the input of
    [clusters.log]) and the content of [skipped_clusters.log], opened with
    mode [w] and so started empty. *)
Definition remove_automated_clusters (cluster_list : list Cluster)
  : Outcome (list Cluster) * list Cluster :=
  filter_loop cluster_list [] [].

(** A name of the exact shape job-<digits>-run-<digits>. *)
Definition all_digits (s : string) : Prop :=
  Forall (fun c => Re.is_digit c = true) (list_ascii_of_string s).

Definition job_run_shape (name : string) : Prop :=
  exists a b : string,
    a <> EmptyString /\ b <> EmptyString /\ all_digits a /\ all_digits b /\
    name = String.append "job-" (String.append a (String.append "-run-" b)).

(** The exclusion rule as the specification words it. *)
Definition spec_excluded (name : string) : Prop :=
  job_run_shape name \/ String.prefix "mlflow-model-" name = true.

(** The exclusion rule of the code: the job shape may be followed by one
    final newline. *)
Definition newline : string := String "010"%char EmptyString.

Definition code_excluded (name : string) : Prop :=
  job_run_shape name \/
  (exists n, job_run_shape n /\ name = String.append n newline) \/
  String.prefix "mlflow-model-" name = true.

(** The filter condition on a cluster that has a name. *)
Definition automated (c : Cluster) : bool :=
  match cluster_name c with
  | Some name => is_automated name
  | None => false
  end.

Definition has_name (c : Cluster) : Prop := cluster_name c <> None.

(** The last character of a string. *)
Fixpoint last_char (s : string) : option ascii :=
  match s with
  | EmptyString => None
  | String c EmptyString => Some c
  | String _ s' => last_char s'
  end.

(** Three named clusters of the specification's example, and one more. *)
Definition named (name : string) : Cluster := mkCluster (Some name) [].

End Clusters.

(* ===================================================================== *)
(** ** Data of the remote command channel and of the export directory *)
(* ===================================================================== *)

(** The [results] dictionary of a finished command, by the keys the code
    reads or sets.  [table] is the key [log_all_tables] adds before the
    dictionary becomes a line of [failed_metastore.log]. *)
Record Results : Type := mkResults {
  resultType : option string;
  data : option string;
  summary : option string;
  table : option string
}.

Global Instance Results_eq_dec : EqDecision Results.
Proof. solve_decision. Defined.

(** The answer of [GET /commands/status]. *)
Record StatusResp : Type := mkStatusResp {
  status : option string;
  results : option Results
}.

(** One record of [GET /instance-profiles/list], also a line of
    [instance_profiles.log]. *)
Record Profile : Type := mkProfile {
  instance_profile_arn : option string
}.

(** An entry of the directory [metastore/]: a stray file, or a database
    directory holding one DDL file per table. *)
Inductive Entry : Type :=
  | EFile (content : string)
  | EDir (tables : gmap string string).

(** The local files the crawl opens. *)
Inductive Path : Type :=
  | PFailedLog                        (* failed_metastore.log *)
  | PProfilesLog                      (* instance_profiles.log *)
  | PTable (db_name table_name : string).  (* metastore/<db>/<table> *)

Inductive Mode : Type := ModeR | ModeW | ModeA.

(** What [log.info] and [log.error] print, one constructor per call site. *)
Inductive LogMsg : Type :=
  | ErrNoCommandId                    (* clusters.py 357 *)
  | ErrSummary (s : option string)    (* clusters.py 371 *)
  | InfoCreatingSession               (* clusters.py 333 *)
  | InfoNoSession                     (* clusters.py 341-342 *)
  | InfoResults (r : Results)         (* hive.py 20 *)
  | InfoDatabase (db : string)        (* hive.py 33 *)
  | InfoTable (t : string)            (* hive.py 53 *)
  | InfoClusterCreationTime           (* hive.py 149 *)
  | InfoProfilesExist                 (* hive.py 109 *)
  | InfoFailedDdl (db t role : string) (* hive.py 133 *)
  | InfoFailedAfterRetry (n : nat)    (* hive.py 141 *)
  | InfoNoProfiles                    (* hive.py 143 *)
  | InfoRetrying                      (* hive.py 162 *)
  | InfoFailedBeforeRetry (n : nat)   (* hive.py 164 *)
  | InfoFailedCount (n : nat)         (* hive.py 167 *)
  | InfoTotalDatabases (n : nat)      (* hive.py 165, 168 *)
  | InfoImportingTable (db x : string) (* hive.py 205 *)
  | InfoImportResult (r : Results)    (* hive.py 208 *)
  | ErrNotADatabase (db : string).    (* hive.py 210 *)

(** Ghost record of what a run did, in order. *)
Inductive Event : Type :=
  | EvSubmit (cid ec_id cmd : string)             (* POST /commands/execute *)
  | EvPoll (com_id : option string)               (* GET /commands/status *)
  | EvEdit (cid role : string)                    (* edit_cluster *)
  | EvExtract (db t : string) (r : Results)       (* answer to a crawl DDL statement *)
  | EvRetry (role : string) (line r : Results)    (* answer to a retried DDL statement *)
  | EvOpen (p : Path) (m : Mode).                 (* open() *)

(** The retry attempts recorded in a trace: role, line of the failure log,
    and the answer. *)
Fixpoint retries (t : list Event) : list (string * Results * Results) :=
  match t with
  | [] => []
  | EvRetry role line r :: t' => (role, line, r) :: retries t'
  | _ :: t' => retries t'
  end.

(** The crawl answers recorded in a trace: database, table, answer. *)
Fixpoint extracts (t : list Event) : list (string * string * Results) :=
  match t with
  | [] => []
  | EvExtract db tb r :: t' => (db, tb, r) :: extracts t'
  | _ :: t' => extracts t'
  end.

(** Events other than the answers to DDL statements. *)
Definition quiet_event (ev : Event) : Prop :=
  match ev with
  | EvRetry _ _ _ | EvExtract _ _ _ => False
  | _ => True
  end.

(** The answer is a text result. *)
Definition is_text (r : Results) : Prop := resultType r = Some "text".

(** A retry of the line got a text result, under some role. *)
Definition extracted_by_retry (t : list Event) (line : Results) : Prop :=
  exists role r, In (role, line, r) (retries t) /\ is_text r.

(** The failure-log invariant of a retry pass: [pre] and [post] are the
    lines of the log before and after, [t] the events of the pass. *)
Definition failure_log_invariant (pre post : list Results) (t : list Event) : Prop :=
  (forall line, In line post -> In line pre /\ ~ extracted_by_retry t line) /\
  (forall line, ~ In line post -> ~ In line pre \/ extracted_by_retry t line).

(** What holds of the failing list [l] in the middle of a pass that began
    with the duplicate-free log [pre] and has made the attempts [att]. *)
Definition pass_ok (pre l : list Results) (att : list (string * Results * Results)) : Prop :=
  (forall x, In x l -> In x pre) /\
  List.NoDup l /\
  (forall x, In x l -> ~ exists role r, In (role, x, r) att /\ is_text r) /\
  (forall x, In x pre -> ~ In x l -> exists role r, In (role, x, r) att /\ is_text r).

(** The statements submitted, as recorded in a trace. *)
Fixpoint submitted (t : list Event) : list string :=
  match t with
  | [] => []
  | EvSubmit _ _ cmd :: t' => cmd :: submitted t'
  | _ :: t' => submitted t'
  end.

(** The remote service as the client reaches it through [perform_query] and
    the cluster service.  [launch_cluster_op] and [edit_cluster_op] stand for
    the cluster-service part of [launch_cluster] and [edit_cluster]
    (create or edit, then [wait_for_cluster]). *)
Class RemoteApi (World : Type) : Type := {
  commands_execute : string -> string -> string -> World -> option string * World;
  commands_status : string -> string -> option string -> World -> StatusResp * World;
  contexts_create : string -> World -> option string * World;
  instance_profiles_list : World -> option (list Profile) * World;
  launch_cluster_op : World -> Outcome string * World;
  edit_cluster_op : string -> string -> World -> Outcome unit * World
}.

(** [ast.literal_eval] at the two types the crawl expects; [None] when the
    text is no literal of that type. *)
Class PyLib : Type := {
  literal_eval_int : string -> option Z;
  literal_eval_names : string -> option (list string)
}.

(** The flags behind [is_aws()] and [is_skip_failed()]. *)
Record Config : Type := mkConfig {
  is_aws : bool;
  is_skip_failed : bool
}.

(** Python truthiness of an optional string: [None] and [''] are falsy. *)
Definition truthy (o : option string) : bool :=
  match o with
  | Some (String _ _) => true
  | _ => false
  end.

(** [o == s] for the value [o] of [dict.get(key, None)]. *)
Definition opt_is (o : option string) (s : string) : bool :=
  match o with
  | Some x => String.eqb x s
  | None => false
  end.

(** The double quote character, and string concatenation. *)
Definition dq : string := String "034"%char EmptyString.
Infix "+++" := String.append (at level 60, right associativity).

(** [str(n)] for an integer. *)
Definition str_of_Z (n : Z) : string := NilZero.string_of_int (Z.to_int n).

(** [s.split(sep)] for a one-character separator. *)
Fixpoint split_on (sep : ascii) (s : string) : list string :=
  match s with
  | EmptyString => [EmptyString]
  | String c s' =>
      let r := split_on sep s' in
      if Ascii.eqb c sep then EmptyString :: r
      else match r with
           | h :: t => String c h :: t
           | [] => [String c EmptyString]
           end
  end.

(** [s.replace('\n', '')]. *)
Fixpoint remove_newlines (s : string) : string :=
  match s with
  | EmptyString => EmptyString
  | String c s' =>
      if Ascii.eqb c "010"%char then remove_newlines s'
      else String c (remove_newlines s')
  end.

(** [l.remove(x)]: drops the first element equal to [x]. *)
Fixpoint remove_first {A} `{EqDecision A} (x : A) (l : list A) : list A :=
  match l with
  | [] => []
  | y :: l' => if decide (x = y) then l' else y :: remove_first x l'
  end.

(* ===================================================================== *)
(** ** Statements sent to the cluster *)
(* ===================================================================== *)

Module Stmt.

(** hive.py 17 *)
Definition all_dbs_cmd : string :=
  "all_dbs = [x.databaseName for x in spark.sql(" +++ dq +++ "show databases" +++ dq
  +++ ").collect()]; print(len(all_dbs))".

(** hive.py 28 *)
Definition db_slice (lo hi : Z) : string :=
  "print(all_dbs[" +++ str_of_Z lo +++ ":" +++ str_of_Z hi +++ "])".

(** hive.py 38 *)
Definition all_tables_cmd (db_name : string) : string :=
  "all_tables = [x.tableName for x in spark.sql(" +++ dq +++ "show tables in " +++ db_name
  +++ dq +++ ").collect()]".

(** hive.py 40 *)
Definition len_tables_cmd : string := "print(len(all_tables))".

(** hive.py 49 *)
Definition tables_slice (lo hi : Z) : string :=
  "print(all_tables[" +++ str_of_Z lo +++ ":" +++ str_of_Z hi +++ "])".

(** hive.py 54 and 125 *)
Definition ddl_stmt (db_name table_name : string) : string :=
  "print(spark.sql(" +++ dq +++ "show create table " +++ db_name +++ "." +++ table_name
  +++ dq +++ ").collect()[0][0])".

(** hive.py 171 *)
Definition create_db_statement (db_name : string) : string :=
  "spark.sql(" +++ dq +++ "CREATE DATABASE IF NOT EXISTS " +++ remove_newlines db_name
  +++ dq +++ ")".

(** hive.py 177, [get_spark_ddl] *)
Definition get_spark_ddl (table_ddl : string) : string :=
  "spark.sql(" +++ dq +++ dq +++ dq +++ " " +++ table_ddl +++ " " +++ dq +++ dq +++ dq +++ ")".

End Stmt.

(* ===================================================================== *)
(** ** The client: state, effects, and the translated methods *)
(* ===================================================================== *)

Section Client.

Context {World : Type} {remote : RemoteApi World} {py : PyLib}.

(** The remote service, the export directory ([metastore/], the two logs;
    [None] for a log that does not exist), the process log, and the ghost
    trace. *)
Record State : Type := mkState {
  world : World;
  metastore : gmap string Entry;
  failed_log : option (list Results);
  profiles_log : option (list Profile);
  log : list LogMsg;
  trace : list Event
}.

Definition set_world (w : World) (st : State) : State :=
  mkState w (metastore st) (failed_log st) (profiles_log st) (log st) (trace st).
Definition set_metastore (m : gmap string Entry) (st : State) : State :=
  mkState (world st) m (failed_log st) (profiles_log st) (log st) (trace st).
Definition set_failed_log (f : option (list Results)) (st : State) : State :=
  mkState (world st) (metastore st) f (profiles_log st) (log st) (trace st).
Definition set_profiles_log (p : option (list Profile)) (st : State) : State :=
  mkState (world st) (metastore st) (failed_log st) p (log st) (trace st).

(** Computations over the state that return, raise or run out of fuel. *)
Definition M (A : Type) : Type := State -> Outcome A * State.

Definition ret {A} (a : A) : M A := fun st => (Returned a, st).

Definition bind {A B} (m : M A) (k : A -> M B) : M B :=
  fun st =>
    match m st with
    | (Returned a, st') => k a st'
    | (Raised e, st') => (Raised e, st')
    | (OutOfFuel, st') => (OutOfFuel, st')
    end.

Definition raise {A} (e : Exn) : M A := fun st => (Raised e, st).
Definition out_of_fuel {A} : M A := fun st => (OutOfFuel, st).

Notation "x <- m ;; k" := (bind m (fun x => k))
  (at level 100, m at level 99, right associativity).
Notation "m ;;; k" := (bind m (fun _ => k))
  (at level 100, right associativity).

(** [log.info(...)] / [log.error(...)]. *)
Definition log_msg (m : LogMsg) : M unit :=
  fun st => (Returned tt,
             mkState (world st) (metastore st) (failed_log st) (profiles_log st)
                     (log st ++ [m]) (trace st)).

(** Ghost: append an event to the trace. *)
Definition emit (ev : Event) : M unit :=
  fun st => (Returned tt,
             mkState (world st) (metastore st) (failed_log st) (profiles_log st)
                     (log st) (trace st ++ [ev])).

(** A call of the remote service. *)
Definition call {A} (op : World -> A * World) : M A :=
  fun st => let '(a, w) := op (world st) in (Returned a, set_world w st).

(** A call of the cluster service that can itself fail. *)
Definition call_out {A} (op : World -> Outcome A * World) : M A :=
  fun st => let '(a, w) := op (world st) in (a, set_world w st).

(** [d[key]] on a dictionary modelled by optional fields. *)
Definition get_key {A} (key : string) (o : option A) : M A :=
  match o with
  | Some a => ret a
  | None => raise (KeyError key)
  end.

Definition when (b : bool) (m : M unit) : M unit := if b then m else ret tt.

(** [for x in l: body x], on a list the body does not mutate. *)
Fixpoint for_each {A} (l : list A) (body : A -> M unit) : M unit :=
  match l with
  | [] => ret tt
  | x :: l' => body x ;;; for_each l' body
  end.

(* --------------------------------------------------------------------- *)
(** *** clusters.py: [get_execution_context], [submit_command], [edit_cluster] *)

(** clusters.py 332-344. *)
Definition get_execution_context (cid : string) : M string :=
  log_msg InfoCreatingSession ;;;
  ec <- call (contexts_create cid) ;;
  if truthy ec
  then get_key "id" ec
  else log_msg InfoNoSession ;;; raise RemoteSessionError.

(** The condition of the [while] at clusters.py 365. *)
Definition still_running (is_running : string) : bool :=
  String.eqb is_running "Running" || String.eqb is_running "Queued".

(** clusters.py 365-368: the polling loop, at most [fuel] further polls. *)
Fixpoint poll_status (fuel : nat) (cid ec_id : string) (com_id : option string)
    (resp : StatusResp) (is_running : string) : M StatusResp :=
  if still_running is_running then
    match fuel with
    | O => out_of_fuel
    | S fuel' =>
        emit (EvPoll com_id) ;;;
        resp' <- call (commands_status cid ec_id com_id) ;;
        is_running' <- get_key "status" (status resp') ;;
        poll_status fuel' cid ec_id com_id resp' is_running'
    end
  else ret resp.

(** clusters.py 359-372: the first status request, the polling loop and
    the return of the results. *)
Definition await_results (fuel : nat) (cid ec_id : string) (com_id : option string)
  : M Results :=
  emit (EvPoll com_id) ;;;
  resp <- call (commands_status cid ec_id com_id) ;;
  is_running <- get_key "status" (status resp) ;;
  resp <- poll_status fuel cid ec_id com_id resp is_running ;;
  end_results <- get_key "results" (results resp) ;;
  when (opt_is (resultType end_results) "error") (log_msg (ErrSummary (summary end_results))) ;;;
  ret end_results.

(** clusters.py 346-372. *)
Definition submit_command (fuel : nat) (cid ec_id cmd : string) : M Results :=
  emit (EvSubmit cid ec_id cmd) ;;;
  com_id <- call (commands_execute cid ec_id cmd) ;;
  when (negb (truthy com_id)) (log_msg ErrNoCommandId) ;;;
  await_results fuel cid ec_id com_id.

(** clusters.py 312-330; the value returned is not used by the callers. *)
Definition edit_cluster (cfg : Config) (cid iam_role : string) : M unit :=
  if is_aws cfg
  then emit (EvEdit cid iam_role) ;;; call_out (edit_cluster_op cid iam_role)
  else ret tt.

(** clusters.py 281-310, through the cluster service. *)
Definition launch_cluster : M string := call_out launch_cluster_op.

(* --------------------------------------------------------------------- *)
(** *** Local files *)

(** [os.makedirs(export_dir + ms_dir + db, exist_ok=True)]. *)
Definition makedirs (db : string) : M unit :=
  fun st =>
    match metastore st !! db with
    | None => (Returned tt, set_metastore (<[db := EDir ∅]> (metastore st)) st)
    | Some (EDir _) => (Returned tt, st)
    | Some (EFile _) => (Raised (FileExistsError db), st)
    end.

(** [open(export_dir + ms_dir + db + '/' + t, "w")]: the file is created, or
    truncated, as soon as it is opened. *)
Definition open_table_w (db t : string) : M unit :=
  emit (EvOpen (PTable db t) ModeW) ;;;
  fun st =>
    match metastore st !! db with
    | Some (EDir files) =>
        (Returned tt, set_metastore (<[db := EDir (<[t := EmptyString]> files)]> (metastore st)) st)
    | Some (EFile _) => (Raised (NotADirectoryError db), st)
    | None => (Raised (FileNotFoundError db), st)
    end.

(** [fp.write(text)] on the file just opened with mode [w]. *)
Definition write_table (db t text : string) : M unit :=
  fun st =>
    match metastore st !! db with
    | Some (EDir files) =>
        (Returned tt, set_metastore (<[db := EDir (<[t := text]> files)]> (metastore st)) st)
    | _ => (Returned tt, st)
    end.

(** [open(local_table_dir, "r")] followed by [fp.read()]. *)
Definition read_table (db t : string) : M string :=
  emit (EvOpen (PTable db t) ModeR) ;;;
  fun st =>
    match metastore st !! db with
    | Some (EDir files) =>
        match files !! t with
        | Some text => (Returned text, st)
        | None => (Raised (FileNotFoundError t), st)
        end
    | Some (EFile _) => (Raised (NotADirectoryError db), st)
    | None => (Raised (FileNotFoundError db), st)
    end.

(** [open(err_log_path, 'a')]: creates the log when it does not exist. *)
Definition open_failed_log_a : M unit :=
  emit (EvOpen PFailedLog ModeA) ;;;
  fun st => (Returned tt, set_failed_log (Some (default [] (failed_log st))) st).

(** [err_log.write(json.dumps(results) + '\n')]. *)
Definition append_failed_log (line : Results) : M unit :=
  fun st => (Returned tt, set_failed_log (Some (default [] (failed_log st) ++ [line])) st).

(** [open(failed_metastore_log_path, 'r')] and the lines read from it. *)
Definition read_failed_log : M (list Results) :=
  emit (EvOpen PFailedLog ModeR) ;;;
  fun st =>
    match failed_log st with
    | Some lines => (Returned lines, st)
    | None => (Raised (FileNotFoundError "failed_metastore.log"), st)
    end.

(** [open(instance_profile_log_path, 'r')] and the lines read from it. *)
Definition read_profiles_log : M (list Profile) :=
  emit (EvOpen PProfilesLog ModeR) ;;;
  fun st =>
    match profiles_log st with
    | Some lines => (Returned lines, st)
    | None => (Raised (FileNotFoundError "instance_profiles.log"), st)
    end.

(** [os.remove(path)] then [open(path, 'w')] and one [write] per line
    (hive.py 136-139). *)
Definition rewrite_failed_log (lines : list Results) : M unit :=
  (fun st =>
     match failed_log st with
     | Some _ => (Returned tt, set_failed_log None st)
     | None => (Raised (FileNotFoundError "failed_metastore.log"), st)
     end) ;;;
  emit (EvOpen PFailedLog ModeW) ;;;
  fun st => (Returned tt, set_failed_log (Some lines) st).

(** [if os.path.exists(path): os.remove(path)] (hive.py 154-155). *)
Definition remove_failed_log_if_exists : M unit :=
  fun st => (Returned tt, set_failed_log None st).

(** hive.py 75-84, [get_num_of_lines], on the failure log. *)
Definition get_num_of_lines : M nat :=
  fun st =>
    match failed_log st with
    | None => (Returned O, st)
    | Some lines => (emit (EvOpen PFailedLog ModeR) ;;; ret (length lines)) st
    end.

(** [ast.literal_eval(results['data'])] at the expected type. *)
Definition eval_int (r : Results) : M Z :=
  d <- get_key "data" (data r) ;;
  match literal_eval_int d with
  | Some n => ret n
  | None => raise (LiteralError d)
  end.

Definition eval_names (r : Results) : M (list string) :=
  d <- get_key "data" (data r) ;;
  match literal_eval_names d with
  | Some l => ret l
  | None => raise (LiteralError d)
  end.

(** [l[i]] on a Python list. *)
Definition index {A} (l : list A) (i : nat) : M A :=
  match l !! i with
  | Some a => ret a
  | None => raise IndexError
  end.

(* --------------------------------------------------------------------- *)
(** *** hive.py: the crawl *)

(** hive.py 27-34: one bucket of [log_all_databases]; returns [all_dbs]
    extended. *)
Definition db_bucket (fuel : nat) (cid ec_id : string) (all_dbs : list string) (m : Z)
  : M (list string) :=
  let '(lo, hi) := Pagination.slice_bounds m in
  results <- submit_command fuel cid ec_id (Stmt.db_slice lo hi) ;;
  db_names <- eval_names results ;;
  for_each db_names (fun db => log_msg (InfoDatabase db) ;;; makedirs db) ;;;
  ret (all_dbs ++ db_names).

Fixpoint db_buckets (fuel : nat) (cid ec_id : string) (all_dbs : list string) (ms : list Z)
  : M (list string) :=
  match ms with
  | [] => ret all_dbs
  | m :: ms' =>
      all_dbs' <- db_bucket fuel cid ec_id all_dbs m ;;
      db_buckets fuel cid ec_id all_dbs' ms'
  end.

(** hive.py 14-35. *)
Definition log_all_databases (fuel : nat) (cid ec_id : string) : M (list string) :=
  results <- submit_command fuel cid ec_id Stmt.all_dbs_cmd ;;
  rt <- get_key "resultType" (resultType results) ;;
  if negb (String.eqb rt "text")
  then log_msg (InfoResults results) ;;;
       raise (ValueError "Cannot identify number of databases due to the above error")
  else
    num_of_dbs <- eval_int results ;;
    db_buckets fuel cid ec_id []
      (Pagination.range (Pagination.num_of_buckets num_of_dbs)).

(** [results['table'] = '{0}.{1}'.format(db_name, table_name)]. *)
Definition with_table (r : Results) (db_name table_name : string) : Results :=
  mkResults (resultType r) (data r) (summary r) (Some (db_name +++ "." +++ table_name)).

(** hive.py 53-62: the body of the loop over the tables of one slice. *)
Definition extract_table (fuel : nat) (db_name cid ec_id table_name : string) : M unit :=
  log_msg (InfoTable table_name) ;;;
  results <- submit_command fuel cid ec_id (Stmt.ddl_stmt db_name table_name) ;;
  emit (EvExtract db_name table_name results) ;;;
  open_table_w db_name table_name ;;;
  rt <- get_key "resultType" (resultType results) ;;
  if String.eqb rt "text"
  then d <- get_key "data" (data results) ;;
       write_table db_name table_name d
  else append_failed_log (with_table results db_name table_name).

(** hive.py 48-62: one bucket of [log_all_tables]. *)
Definition table_bucket (fuel : nat) (db_name cid ec_id : string) (m : Z) : M unit :=
  let '(lo, hi) := Pagination.slice_bounds m in
  results <- submit_command fuel cid ec_id (Stmt.tables_slice lo hi) ;;
  table_names <- eval_names results ;;
  for_each table_names (extract_table fuel db_name cid ec_id).

(** hive.py 37-63. *)
Definition log_all_tables (fuel : nat) (db_name cid ec_id : string) : M bool :=
  _ <- submit_command fuel cid ec_id (Stmt.all_tables_cmd db_name) ;;
  results <- submit_command fuel cid ec_id Stmt.len_tables_cmd ;;
  num_of_tables <- eval_int results ;;
  open_failed_log_a ;;;
  for_each (Pagination.range (Pagination.num_of_buckets num_of_tables))
           (table_bucket fuel db_name cid ec_id) ;;;
  ret true.

(** hive.py 65-73. *)
Definition check_if_instance_profiles_exists : M bool :=
  ips <- call instance_profiles_list ;;
  match ips with
  | Some (x :: l) =>
      emit (EvOpen PProfilesLog ModeW) ;;;
      (fun st => (Returned true, set_profiles_log (Some (x :: l)) st))
  | _ => ret false
  end.

(* --------------------------------------------------------------------- *)
(** *** hive.py: the retry with the registered instance profiles *)

(** hive.py 122-134: the body of [for table in err_log_list]; returns the
    list as the body leaves it. *)
Definition retry_table (fuel : nat) (cid ec_id iam_role : string)
    (table_line : Results) (err_log_list : list Results) : M (list Results) :=
  name <- get_key "table" (table table_line) ;;
  db_name <- index (split_on "." name) 0 ;;
  table_name <- index (split_on "." name) 1 ;;
  results <- submit_command fuel cid ec_id (Stmt.ddl_stmt db_name table_name) ;;
  emit (EvRetry iam_role table_line results) ;;;
  rt <- get_key "resultType" (resultType results) ;;
  if String.eqb rt "text"
  then open_table_w db_name table_name ;;;
       d <- get_key "data" (data results) ;;
       write_table db_name table_name d ;;;
       ret (remove_first table_line err_log_list)
  else log_msg (InfoFailedDdl db_name table_name iam_role) ;;;
       ret err_log_list.

(** hive.py 121: [for table in err_log_list] while the body removes from
    that same list.  The list iterator keeps an index [i]: at each step it
    stops if [i] is past the end of the list as it is now, else it yields
    element [i] and moves to [i + 1].  [n] bounds the steps. *)
Fixpoint retry_tables (n fuel : nat) (cid ec_id iam_role : string)
    (i : nat) (err_log_list : list Results) : M (list Results) :=
  match err_log_list !! i with
  | None => ret err_log_list
  | Some table_line =>
      match n with
      | O => out_of_fuel
      | S n' =>
          l' <- retry_table fuel cid ec_id iam_role table_line err_log_list ;;
          retry_tables n' fuel cid ec_id iam_role (S i) l'
      end
  end.

(** hive.py 116-134: the loop over the lines of [instance_profiles.log]. *)
Fixpoint retry_roles (fuel : nat) (cfg : Config) (cid : string)
    (roles : list Profile) (err_log_list : list Results) : M (list Results) :=
  match roles with
  | [] => ret err_log_list
  | role :: roles' =>
      iam_role <- get_key "instance_profile_arn" (instance_profile_arn role) ;;
      edit_cluster cfg cid iam_role ;;;
      ec_id <- get_execution_context cid ;;
      l' <- retry_tables (length err_log_list) fuel cid ec_id iam_role 0 err_log_list ;;
      retry_roles fuel cfg cid roles' l'
  end.

(** hive.py 101-143.  [do_instance_profile_exist] is assigned only under
    [is_aws()]: [None] is the unassigned local. *)
Definition retry_failed_metastore_export (fuel : nat) (cfg : Config) (cid : string) : M unit :=
  do_instance_profile_exist <-
    (if is_aws cfg
     then b <- check_if_instance_profiles_exists ;; ret (Some b)
     else ret None) ;;
  total_failed_entries <- get_num_of_lines ;;
  match do_instance_profile_exist with
  | None => raise (UnboundLocalError "do_instance_profile_exist")
  | Some true =>
      log_msg InfoProfilesExist ;;;
      err_log_list <- read_failed_log ;;
      roles <- read_profiles_log ;;
      l' <- retry_roles fuel cfg cid roles err_log_list ;;
      rewrite_failed_log l' ;;;
      failed_count_after_retry <- get_num_of_lines ;;
      log_msg (InfoFailedAfterRetry failed_count_after_retry)
  | Some false => log_msg InfoNoProfiles
  end.

(** hive.py 160-168: the end of [export_hive_metastore]. *)
Definition export_finish (fuel : nat) (cfg : Config) (cid : string) (all_dbs : list string)
  : M unit :=
  total_failed_entries <- get_num_of_lines ;;
  if negb (is_skip_failed cfg) && is_aws cfg
  then log_msg InfoRetrying ;;;
       retry_failed_metastore_export fuel cfg cid ;;;
       log_msg (InfoFailedBeforeRetry total_failed_entries) ;;;
       log_msg (InfoTotalDatabases (length all_dbs))
  else log_msg (InfoFailedCount total_failed_entries) ;;;
       log_msg (InfoTotalDatabases (length all_dbs)).

(** hive.py 145-168. *)
Definition export_hive_metastore (fuel : nat) (cfg : Config) : M unit :=
  cid <- launch_cluster ;;
  log_msg InfoClusterCreationTime ;;;
  ec_id <- get_execution_context cid ;;
  remove_failed_log_if_exists ;;;
  all_dbs <- log_all_databases fuel cid ec_id ;;
  for_each all_dbs (fun db_name => _ <- log_all_tables fuel db_name cid ec_id ;; ret tt) ;;;
  export_finish fuel cfg cid all_dbs.

(* --------------------------------------------------------------------- *)
(** *** hive.py: the import *)

(** hive.py 170-173. *)
Definition create_database_db (fuel : nat) (db_name ec_id cid : string) : M Results :=
  submit_command fuel cid ec_id (Stmt.create_db_statement db_name).

(** hive.py 180-185. *)
Definition apply_table_ddl (fuel : nat) (db x ec_id cid : string) : M Results :=
  ddl_statement <- read_table db x ;;
  submit_command fuel cid ec_id (Stmt.get_spark_ddl ddl_statement).

(** [os.listdir]: the names in a directory, in the order the map lists them. *)
Definition listdir {A} (d : gmap string A) : list string := (map_to_list d).*1.

(** hive.py 195-210: the body of [for db in db_list]. *)
Definition import_entry (fuel : nat) (ec_id cid db : string) : M unit :=
  _ <- create_database_db fuel db ec_id cid ;;
  fun st =>
    match metastore st !! db with
    | Some (EDir files) =>
        for_each (listdir files)
          (fun x => log_msg (InfoImportingTable db x) ;;;
                    is_successful <- apply_table_ddl fuel db x ec_id cid ;;
                    log_msg (InfoImportResult is_successful)) st
    | _ => log_msg (ErrNotADatabase db) st
    end.

(** hive.py 187-210. *)
Definition import_hive_metastore (fuel : nat) : M unit :=
  cid <- launch_cluster ;;
  ec_id <- get_execution_context cid ;;
  db_list <- (fun st => (Returned (listdir (metastore st)), st)) ;;
  for_each db_list (import_entry fuel ec_id cid).

(* --------------------------------------------------------------------- *)
(** *** Vocabulary of the properties *)

(** The status of a command is asked again and again; the answer is
    terminal (neither [Running] nor [Queued]) at the poll after [k] answers
    that were not, and carries the results [r]. *)
Inductive terminal_in (cid ec_id : string) (com_id : option string)
  : nat -> World -> Results -> World -> Prop :=
  | terminal_now w resp s r w' :
      commands_status cid ec_id com_id w = (resp, w') ->
      status resp = Some s -> still_running s = false ->
      results resp = Some r ->
      terminal_in cid ec_id com_id O w r w'
  | terminal_later k w resp s w1 r w' :
      commands_status cid ec_id com_id w = (resp, w1) ->
      status resp = Some s -> still_running s = true ->
      terminal_in cid ec_id com_id k w1 r w' ->
      terminal_in cid ec_id com_id (S k) w r w'.

(** The log lines [submit_command] adds for a command id and its results. *)
Definition submit_logs (com_id : option string) (r : Results) : list LogMsg :=
  (if truthy com_id then [] else [ErrNoCommandId]) ++
  (if opt_is (resultType r) "error" then [ErrSummary (summary r)] else []).

(** The events of the polling loop. *)
Definition is_poll (ev : Event) : Prop :=
  match ev with
  | EvPoll _ => True
  | _ => False
  end.

(** The events that only open a local file. *)
Definition is_open (ev : Event) : Prop :=
  match ev with
  | EvOpen _ _ => True
  | _ => False
  end.

(** What [get_num_of_lines] adds to the trace: it opens the failure log
    only when the log exists. *)
Definition count_opens (st : State) : list Event :=
  match failed_log st with
  | Some _ => [EvOpen PFailedLog ModeR]
  | None => []
  end.

(** The state after ghost events [t] and log lines [l]. *)
Definition after (st : State) (l : list LogMsg) (t : list Event) : State :=
  mkState (world st) (metastore st) (failed_log st) (profiles_log st)
          (log st ++ l) (trace st ++ t).

(** The listing of instance profiles is missing or empty. *)
Definition no_profiles (ips : option (list Profile)) : Prop :=
  match ips with
  | Some (_ :: _) => False
  | _ => True
  end.

(** What the crawl of database [db] has left behind for the tables whose
    statement got an answer that is not text, after the events [t]: the
    table's file exists, it is empty unless another answer for the same
    table was text, and the answer is a line of the failure log. *)
Definition crawl_ok (db : string) (st : State) (t : list Event) : Prop :=
  forall tb r, In (db, tb, r) (extracts t) -> ~ is_text r ->
    (exists files,
       metastore st !! db = Some (EDir files) /\
       (exists content, files !! tb = Some content) /\
       ((forall r', In (db, tb, r') (extracts t) -> ~ is_text r') ->
        files !! tb = Some EmptyString)) /\
    (exists lines, failed_log st = Some lines /\ In (with_table r db tb) lines).

(** The property of the whole crawl of one database, relative to the state
    [st0] it started from. *)
Definition crawled (db : string) (st0 st : State) : Prop :=
  exists t, trace st = trace st0 ++ t /\ crawl_ok db st t.

(** The local files are the same in two states. *)
Definition same_files (st st' : State) : Prop :=
  metastore st' = metastore st /\ failed_log st' = failed_log st /\
  profiles_log st' = profiles_log st.

End Client.

Arguments State World : clear implicits.
Arguments M World A : clear implicits.

(* ===================================================================== *)
(** ** A scripted remote service, for running the client on examples *)
(* ===================================================================== *)

Module Script.

(** The scripted service remembers the role the cluster runs under, the
    last statement submitted and how often its status was asked. *)
Record World : Type := mkWorld {
  cur_role : string;
  last_cmd : string;
  polls : nat
}.

(** A script: whether [execute] hands out command ids, the status answer
    for (role, statement, poll number), and the registered profiles. *)
Record Script : Type := mkScript {
  gives_ids : bool;
  answer : string -> string -> nat -> StatusResp;
  profiles : option (list Profile)
}.

Definition api (s : Script) : RemoteApi World := {|
  commands_execute := fun _ _ cmd w =>
    (if gives_ids s then Some "cmd-1" else None, mkWorld (cur_role w) cmd O);
  commands_status := fun _ _ _ w =>
    (answer s (cur_role w) (last_cmd w) (polls w),
     mkWorld (cur_role w) (last_cmd w) (S (polls w)));
  contexts_create := fun _ w => (Some "ctx-1", w);
  instance_profiles_list := fun w => (profiles s, w);
  launch_cluster_op := fun w => (Returned "cid-1", w);
  edit_cluster_op := fun _ role w => (Returned tt, mkWorld role (last_cmd w) (polls w))
|}.

(** Status answers. *)
Definition finished (r : Results) : StatusResp := mkStatusResp (Some "Finished") (Some r).
Definition queued : StatusResp := mkStatusResp (Some "Queued") None.
Definition running : StatusResp := mkStatusResp (Some "Running") None.
Definition text (d : string) : Results := mkResults (Some "text") (Some d) None None.
Definition error (s : string) : Results := mkResults (Some "error") None (Some s) None.

(** The names between single quotes in the printed form of a list of
    strings, e.g. ['a', 'b']. *)
Fixpoint quoted (s : string) (inside : bool) (cur : string) : list string :=
  match s with
  | EmptyString => []
  | String c s' =>
      if Ascii.eqb c "039"%char
      then if inside then cur :: quoted s' false EmptyString
           else quoted s' true EmptyString
      else if inside then quoted s' true (cur +++ String c EmptyString)
           else quoted s' false cur
  end.

(** A small [ast.literal_eval]: decimal integers, and lists of quoted names. *)
Definition pylib : PyLib := {|
  literal_eval_int := fun s =>
    match s with
    | EmptyString => None
    | _ => option_map Z.of_int (NilZero.int_of_string s)
    end;
  literal_eval_names := fun s =>
    match s with
    | String "["%char _ => Some (quoted s false EmptyString)
    | _ => None
    end
|}.

(** The start of a run: nothing logged, nothing traced, default role. *)
Definition start (m : gmap string Entry) (f : option (list Results))
    (p : option (list Profile)) : State World :=
  mkState (mkWorld "default" EmptyString O) m f p [] [].

End Script.

(** Scripts and inputs of the examples. *)
Module Examples.

Import Script.

(** [execute] hands out no command id; the status is [Running] once, then
    [Finished] with a text result. *)
Definition no_id : Script :=
  mkScript false
    (fun _ _ n => match n with O => running | _ => finished (text "1") end)
    None.

(** Every statement is queued once and then ends in an error result. *)
Definition denied : Script :=
  mkScript true
    (fun _ _ n => match n with O => queued | _ => finished (error "denied") end)
    None.

(** An export directory with the empty database directory [d]. *)
Definition one_db : gmap string Entry := {["d" := EDir ∅]}.

(** A line of the failure log: the error answer for a table. *)
Definition failed_line (name : string) : Results :=
  mkResults (Some "error") None (Some "denied") (Some name).

(** One registered instance profile. *)
Definition etl_role : string := "arn:aws:iam::111:role/etl".
Definition etl_profiles : option (list Profile) := Some [mkProfile (Some etl_role)].

(** What the cluster prints for the statements of a crawl that finds one
    database [d] with one table [t1]. *)
Definition crawl_reply (cmd : string) : string :=
  if String.eqb cmd Stmt.all_dbs_cmd then "1"
  else if String.eqb cmd (Stmt.db_slice 0 100) then "['d']"
  else if String.eqb cmd Stmt.len_tables_cmd then "1"
  else if String.eqb cmd (Stmt.tables_slice 0 100) then "['t1']"
  else "CREATE TABLE d.t1 (x INT)".

(** An export directory with a stray file next to the database directory
    [d], which holds the DDL of one table. *)
Definition with_stray_file : gmap string Entry :=
  {[ "README" := EFile "notes";
     "d" := EDir {[ "t1" := "CREATE TABLE d.t1 (x INT)" ]} ]}.

(** The listings succeed, the DDL statement of [d.t1] ends in an error. *)
Definition ddl_denied : Script :=
  mkScript true
    (fun _ cmd _ =>
       if String.eqb cmd (Stmt.ddl_stmt "d" "t1") then finished (error "denied")
       else finished (text (crawl_reply cmd)))
    None.

(** Every statement succeeds at once; one profile is registered. *)
Definition all_ok : Script :=
  mkScript true (fun _ cmd _ => finished (text (crawl_reply cmd))) etl_profiles.

End Examples.

(* ===================================================================== *)
(** ** Vocabulary of the further properties *)
(* ===================================================================== *)

(** Every run of [m], whatever its outcome, relates the state before to
    the state after by [R]. *)
Definition frames {World A : Type} (R : State World -> State World -> Prop)
    (m : M World A) : Prop :=
  forall st, R st (snd (m st)).

(** The failure log is the same in two states. *)
Definition keeps_failed_log {World : Type} (st st' : State World) : Prop :=
  failed_log st' = failed_log st.

(** [results['resultType'] == 'text'] as a test. *)
Definition is_text_b (r : Results) : bool := opt_is (resultType r) "text".

(** The number of attempts that got a text result. *)
Definition count_text (att : list (string * Results * Results)) : nat :=
  length (List.filter (fun a => is_text_b (snd a)) att).

(** The lines the crawl writes to the failure log for a sequence of
    answers: one per answer that is not text, with the table's name. *)
Definition failed_lines (es : list (string * string * Results)) : list Results :=
  List.map (fun e => with_table (snd e) (fst (fst e)) (snd (fst e)))
           (List.filter (fun e => negb (is_text_b (snd e))) es).

Module MoreExamples.

Import Script.

(** The status answer carries no [status] key. *)
Definition no_status : Script :=
  mkScript true (fun _ _ _ => mkStatusResp None None) None.

(** The status is [Running] twice, then [Cancelled] with a text result. *)
Definition cancelled : Script :=
  mkScript true
    (fun _ _ n => match n with
                  | O | S O => running
                  | _ => mkStatusResp (Some "Cancelled") (Some (text "partial"))
                  end)
    None.

End MoreExamples.

(** A run of [m] either returns or relates the state before to the state
    after by [R]. *)
Definition returns_or {World A : Type} (R : State World -> State World -> Prop)
    (m : M World A) : Prop :=
  forall st, (exists a, fst (m st) = Returned a) \/ R st (snd (m st)).

Module MoreExamples2.

Import Script.

(** Every statement succeeds; the one registered profile has no
    [instance_profile_arn]. *)
Definition profile_without_arn : Script :=
  mkScript true (fun _ cmd _ => finished (text (Examples.crawl_reply cmd)))
    (Some [mkProfile None]).

End MoreExamples2.

(** The failure log holds [base] and then one line per answer that is not
    text among the events since [st0], and every such answer is for
    database [db]. *)
Definition logged {World : Type} (db : string) (st0 : State World) (base : list Results)
    (st : State World) : Prop :=
  exists t, trace st = trace st0 ++ t /\
            failed_log st = Some (base ++ failed_lines (extracts t)) /\
            Forall (fun e => fst (fst e) = db) (extracts t).

(** The statements the import submits for one entry of [metastore/]: the
    database statement, then one wrapped DDL per file of a directory. *)
Definition entry_statements (m : gmap string Entry) (db : string) : list string :=
  Stmt.create_db_statement db ::
  match m !! db with
  | Some (EDir files) =>
      List.map (fun x => Stmt.get_spark_ddl (default EmptyString (files !! x))) (listdir files)
  | _ => []
  end.

(** The statements of a whole import, entry after entry. *)
Definition import_statements (m : gmap string Entry) : list string :=
  concat (List.map (entry_statements m) (listdir m)).

(** The string holds no dot. *)
Definition no_dot (s : string) : Prop :=
  Forall (fun c => c <> "."%char) (list_ascii_of_string s).

(** The trace of the second state extends the trace of the first. *)
Definition grows {World : Type} (st st' : State World) : Prop :=
  exists t, trace st' = trace st ++ t.

Module MoreExamples3.

Import Script.

(** Every statement ends at once in an error result. *)
Definition all_denied : Script :=
  mkScript true (fun _ _ _ => finished (error "denied")) None.

End MoreExamples3.

(** No stray file of [metastore/] has the name of one of the databases. *)
Definition no_file_named {World : Type} (dbs : list string) (st : State World) : Prop :=
  forall db c, In db dbs -> metastore st !! db <> Some (EFile c).

(** Every one of the databases has its directory in [metastore/]. *)
Definition has_dirs {World : Type} (dbs : list string) (st : State World) : Prop :=
  forall db, In db dbs -> exists files, metastore st !! db = Some (EDir files).

(** The cluster answers the slice statement of bucket [m] with the
    matching slice of the list [dbs], in whatever state it is asked. *)
Definition honest_slices {World : Type} {remote : RemoteApi World} {py : PyLib}
    (fuel : nat) (cid ec_id : string) (dbs : list string) : Prop :=
  forall (m : Z) (s : State World),
    In m (Pagination.range (Pagination.num_of_buckets (Z.of_nat (length dbs)))) ->
    exists r s1,
      submit_command fuel cid ec_id
        (Stmt.db_slice (fst (Pagination.slice_bounds m)) (snd (Pagination.slice_bounds m))) s
      = (Returned r, s1) /\
      eval_names r s1
      = (Returned (Pagination.py_slice dbs (fst (Pagination.slice_bounds m))
                                        (snd (Pagination.slice_bounds m))), s1).

(* ===================================================================== *)
(** ** Cluster configurations as JSON dictionaries (clusters.py 73-137,
       236-254) *)
(* ===================================================================== *)

Module Configs.

(** JSON values as [json.loads] and the REST client deliver them. *)
#[warnings="-register-all"]
Inductive Json : Type :=
  | JNull
  | JBool (b : bool)
  | JNum (n : Z)
  | JStr (s : string)
  | JObj (fields : list (string * Json))
  | JArr (items : list Json).

(** A Python [dict] with string keys, in insertion order.  Dictionaries
    that come from JSON have no key twice, and the operations below keep it
    so. *)
Definition Dict : Type := list (string * Json).

(** The exceptions of this part of the code. *)
Inductive PyError : Type :=
  | PyKeyError (key : Json)
  | PyUnboundLocalError (var : string)
  | PyTypeError (what : string)
  | PyAttributeError (what : string)
  | PyFileNotFoundError (path : string).

Inductive Result (A : Type) : Type :=
  | Ok (a : A)
  | Err (e : PyError).
Arguments Ok {A} a.
Arguments Err {A} e.

(** [d.get(k, None)], with [None] for a missing key. *)
Fixpoint get (k : string) (d : Dict) : option Json :=
  match d with
  | [] => None
  | (k', v) :: d' => if String.eqb k k' then Some v else get k d'
  end.

(** [k in d]. *)
Definition has (k : string) (d : Dict) : bool :=
  match get k d with
  | Some _ => true
  | None => false
  end.

(** [d[k] = v]: a key that is there keeps its place, a new key goes last. *)
Fixpoint set (k : string) (v : Json) (d : Dict) : Dict :=
  match d with
  | [] => [(k, v)]
  | (k', v') :: d' => if String.eqb k k' then (k, v) :: d' else (k', v') :: set k v d'
  end.

(** What [del d[k]] and [d.pop(k)] leave of [d] when the key is there. *)
Definition del (k : string) (d : Dict) : Dict :=
  List.filter (fun kv => negb (String.eqb k (fst kv))) d.

(** [d.pop(k)]: the value and the rest, [KeyError] for a missing key. *)
Definition pop (k : string) (d : Dict) : Result (Json * Dict) :=
  match get k d with
  | Some v => Ok (v, del k d)
  | None => Err (PyKeyError (JStr k))
  end.

(** [d[k]]. *)
Definition item (k : string) (d : Dict) : Result Json :=
  match get k d with
  | Some v => Ok v
  | None => Err (PyKeyError (JStr k))
  end.

Definition rbind {A B : Type} (m : Result A) (k : A -> Result B) : Result B :=
  match m with
  | Ok a => k a
  | Err e => Err e
  end.

Definition keys (d : Dict) : list string := List.map fst d.

(** Python truthiness of a JSON value. *)
Definition truthy_json (v : Json) : bool :=
  match v with
  | JNull => false
  | JBool b => b
  | JNum n => negb (Z.eqb n 0)
  | JStr s => negb (String.eqb s EmptyString)
  | JObj f => match f with [] => false | _ => true end
  | JArr l => match l with [] => false | _ => true end
  end.

(** [create_configs] (clusters.py 11-29). *)
Definition create_configs : list string :=
  ["num_workers"; "autoscale"; "cluster_name"; "spark_version"; "spark_conf";
   "aws_attributes"; "node_type_id"; "driver_node_type_id"; "ssh_public_keys";
   "custom_tags"; "cluster_log_conf"; "init_scripts"; "spark_env_vars";
   "autotermination_minutes"; "enable_elastic_disk"; "instance_pool_id";
   "pinned_by_user_name"; "creator_user_name"; "cluster_id"].

Definition in_list (k : string) (l : list string) : bool :=
  existsb (String.eqb k) l.

(** clusters.py 84-88: [ip_list] is assigned only when the listing of
    instance profiles is truthy; [None] is the unassigned local. *)
Definition ip_list_of (ips : option (list Dict)) : option (list Json) :=
  match ips with
  | Some (x :: l) =>
      Some (List.filter truthy_json
              (List.map (fun p => default JNull (get "instance_profile_arn" p)) (x :: l)))
  | _ => None
  end.

(** [iam_role in ip_list] for a role that is a string. *)
Definition role_in (role : string) (ip_list : list Json) : bool :=
  existsb (fun v => match v with JStr s => String.eqb role s | _ => false end) ip_list.

(** clusters.py 94-96: the keys of [x] that are no creation property, and
    their deletion one by one. *)
Definition run_properties (x : Dict) : list string :=
  List.filter (fun k => negb (in_list k create_configs)) (keys x).

Definition drop_run_properties (x : Dict) : Dict :=
  fold_left (fun d p => del p d) (run_properties x) x.

(** clusters.py 94-107, the body of the loop over the clusters: the
    dictionary written to [clusters.log] and the roles reported as skipped.
    The ARN is a string in the API; the comparison of a truthy ARN of another
    type with the registered ones is outside the model and shown as a type
    error. *)
Definition clean_cluster (ip_list : option (list Json)) (x : Dict)
  : Result (Dict * list string) :=
  let cluster_json := drop_run_properties x in
  match get "aws_attributes" cluster_json with
  | None => Ok (cluster_json, [])
  | Some aws =>
      let popped := del "aws_attributes" cluster_json in
      match aws with
      | JObj aws_conf =>
          let iam_role := default JNull (get "instance_profile_arn" aws_conf) in
          if truthy_json iam_role then
            match ip_list with
            | None => Err (PyUnboundLocalError "ip_list")
            | Some l =>
                match iam_role with
                | JStr role =>
                    if role_in role l
                    then Ok (set "aws_attributes" (JObj aws_conf) popped, [])
                    else Ok (set "aws_attributes"
                               (JObj (del "instance_profile_arn" aws_conf)) popped,
                             [role])
                | _ => Err (PyTypeError "instance_profile_arn")
                end
            end
          else Ok (set "aws_attributes" (JObj aws_conf) popped, [])
      | _ => Err (PyAttributeError "get")
      end
  end.

(** clusters.py 92-107: the loop; the lines written to [clusters.log], the
    skipped roles logged, and the error that ended the loop, if any. *)
Fixpoint write_clusters (ip_list : option (list Json)) (cl : list Dict)
  : list Dict * list string * option PyError :=
  match cl with
  | [] => ([], [], None)
  | x :: cl' =>
      match clean_cluster ip_list x with
      | Err e => ([], [], Some e)
      | Ok (line, skipped) =>
          let '(lines, logs, e) := write_clusters ip_list cl' in
          (line :: lines, skipped ++ logs, e)
      end
  end.

(** An instance pool record, by the two keys the code reads. *)
Record Pool : Type := mkPool {
  instance_pool_name : option string;
  instance_pool_id : option string
}.

(** clusters.py 241-244: the dictionary from pool name to pool id.  In
    [new_pools[p[name]] = p[id]] Python evaluates the right-hand side
    first. *)
Fixpoint new_pools_of (current : list Pool) (new_pools : gmap string string)
  : Result (gmap string string) :=
  match current with
  | [] => Ok new_pools
  | p :: current' =>
      match instance_pool_id p, instance_pool_name p with
      | None, _ => Err (PyKeyError (JStr "instance_pool_id"))
      | Some _, None => Err (PyKeyError (JStr "instance_pool_name"))
      | Some id, Some name => new_pools_of current' (<[name := id]> new_pools)
      end
  end.

(** clusters.py 246-253: the loop over the lines of [instance_pools.log]. *)
Fixpoint pool_mapping (new_pools : gmap string string) (pool_log : list Pool)
    (pool_mapping_dict : gmap string string) : Result (gmap string string) :=
  match pool_log with
  | [] => Ok pool_mapping_dict
  | pool_conf :: pool_log' =>
      match instance_pool_id pool_conf with
      | None => Err (PyKeyError (JStr "instance_pool_id"))
      | Some old_pool_id =>
          match instance_pool_name pool_conf with
          | None => Err (PyKeyError (JStr "instance_pool_name"))
          | Some pool_name =>
              match new_pools !! pool_name with
              | None => Err (PyKeyError (JStr pool_name))
              | Some new_pool_id =>
                  pool_mapping new_pools pool_log'
                    (<[old_pool_id := new_pool_id]> pool_mapping_dict)
              end
          end
      end
  end.

(** clusters.py 236-254.  [current] is the listing of the pools of the
    workspace, [pool_log] the lines of [instance_pools.log] ([None] when the
    file does not exist). *)
Definition get_instance_pool_id_mapping (current : option (list Pool))
    (pool_log : option (list Pool)) : Result (option (gmap string string)) :=
  match current with
  | Some (p :: ps) =>
      match new_pools_of (p :: ps) ∅ with
      | Err e => Err e
      | Ok new_pools =>
          match pool_log with
          | None => Err (PyFileNotFoundError "instance_pools.log")
          | Some lines =>
              match pool_mapping new_pools lines ∅ with
              | Err e => Err e
              | Ok m => Ok (Some m)
              end
          end
      end
  | _ => Ok None
  end.

(** clusters.py 122-127 and, word for word, 165-170: the tag with the
    original creator.  [tags[...] = ...] needs [tags] to be a dictionary. *)
Definition tag_creator (cluster_json : Dict) (cluster_creator : Json) : Result Dict :=
  match get "custom_tags" cluster_json with
  | Some (JObj tags) =>
      Ok (set "custom_tags" (JObj (set "OriginalCreator" cluster_creator tags)) cluster_json)
  | Some _ => Err (PyTypeError "item assignment")
  | None => Ok (set "custom_tags" (JObj [("OriginalCreator", cluster_creator)]) cluster_json)
  end.

(** clusters.py 129-133. *)
Definition pool_aws_attributes (cluster_json : Dict) : Result Dict :=
  match get "aws_attributes" cluster_json with
  | None => Ok cluster_json
  | Some (JObj aws_conf) =>
      let popped := del "aws_attributes" cluster_json in
      let iam_role := default JNull (get "instance_profile_arn" aws_conf) in
      if negb (truthy_json iam_role)
      then Ok (set "aws_attributes" (JObj [("instance_profile_arn", iam_role)]) popped)
      else Ok popped
  | Some _ => Err (PyAttributeError "get")
  end.

(** [pool_id_dict[old_pool_id]] (clusters.py 136); the keys of the
    dictionary are strings. *)
Definition lookup_pool (pool_id_dict : option (gmap string string)) (old_pool_id : Json)
  : Result string :=
  match pool_id_dict with
  | None => Err (PyTypeError "not subscriptable")
  | Some m =>
      match old_pool_id with
      | JStr s =>
          match m !! s with
          | Some new_pool_id => Ok new_pool_id
          | None => Err (PyKeyError (JStr s))
          end
      | JObj _ | JArr _ => Err (PyTypeError "unhashable")
      | v => Err (PyKeyError v)
      end
  end.

(** clusters.py 109-137.  [mapping] is what the call of
    [get_instance_pool_id_mapping] on line 116 gives. *)
Definition cleanup_cluster_pool_configs (mapping : Result (option (gmap string string)))
    (cluster_json : Dict) (cluster_creator : Json) : Result Dict :=
  rbind mapping (fun pool_id_dict =>
  rbind (pop "node_type_id" cluster_json) (fun '(_, cluster_json) =>
  rbind (pop "driver_node_type_id" cluster_json) (fun '(_, cluster_json) =>
  rbind (pop "enable_elastic_disk" cluster_json) (fun '(_, cluster_json) =>
  rbind (tag_creator cluster_json cluster_creator) (fun cluster_json =>
  rbind (pool_aws_attributes cluster_json) (fun cluster_json =>
  rbind (item "instance_pool_id" cluster_json) (fun old_pool_id =>
  rbind (lookup_pool pool_id_dict old_pool_id) (fun new_pool_id =>
  Ok (set "instance_pool_id" (JStr new_pool_id) cluster_json))))))))).

(** [cluster_name in current_cluster_names] (clusters.py 155): the set
    holds the names of the clusters of the workspace, [None] for a cluster
    without one. *)
Definition name_in (cluster_name : Json) (current_cluster_names : list (option string))
  : Result bool :=
  match cluster_name with
  | JStr s => Ok (existsb (fun n => opt_is n s) current_cluster_names)
  | JNull => Ok (existsb (fun n => match n with None => true | Some _ => false end)
                   current_cluster_names)
  | JObj _ | JArr _ => Err (PyTypeError "unhashable")
  | _ => Ok false
  end.

(** clusters.py 153-171, one line of [clusters.log]: [None] for a cluster
    that is skipped, else the configuration passed to [create_cluster]. *)
Definition new_cluster_conf (mapping : Result (option (gmap string string)))
    (current_cluster_names : list (option string)) (cluster_conf : Dict)
  : Result (option Dict) :=
  rbind (item "cluster_name" cluster_conf) (fun cluster_name =>
  rbind (name_in cluster_name current_cluster_names) (fun exists_already =>
  if exists_already then Ok None
  else
    rbind (pop "creator_user_name" cluster_conf) (fun '(cluster_creator, cluster_conf) =>
    if has "instance_pool_id" cluster_conf
    then rbind (cleanup_cluster_pool_configs mapping cluster_conf cluster_creator)
           (fun c => Ok (Some c))
    else rbind (tag_creator cluster_conf cluster_creator) (fun c => Ok (Some c))))).

End Configs.

(** A pool record with both keys. *)
Definition pool_complete (p : Configs.Pool) : Prop :=
  Configs.instance_pool_name p <> None /\ Configs.instance_pool_id p <> None.

(** Cluster configurations and instance pools for the examples. *)
Module ConfigExamples.
Import Configs.

(** An interactive cluster with a run-time property and an instance
    profile. *)
Definition with_role : Dict :=
  [("cluster_id", JStr "0101-a"); ("cluster_name", JStr "etl");
   ("state", JStr "RUNNING"); ("creator_user_name", JStr "ann@example.com");
   ("aws_attributes",
    JObj [("zone_id", JStr "us-west-2a");
          ("instance_profile_arn", JStr "arn:aws:iam::1:instance-profile/etl")])].

(** A cluster without AWS attributes. *)
Definition plain : Dict :=
  [("cluster_name", JStr "adhoc"); ("num_workers", JNum 2);
   ("start_time", JNum 1600000000); ("creator_user_name", JStr "bob@example.com")].

Definition registered : list Dict :=
  [[("instance_profile_arn", JStr "arn:aws:iam::1:instance-profile/etl")]].

(** A cluster on an instance pool, as a line of [clusters.log]. *)
Definition pooled : Dict :=
  [("cluster_name", JStr "pooled"); ("node_type_id", JStr "i3.xlarge");
   ("driver_node_type_id", JStr "i3.xlarge"); ("enable_elastic_disk", JBool false);
   ("custom_tags", JObj [("team", JStr "data")]);
   ("aws_attributes",
    JObj [("zone_id", JStr "us-west-2a");
          ("instance_profile_arn", JStr "arn:aws:iam::1:instance-profile/etl")]);
   ("instance_pool_id", JStr "old-1"); ("creator_user_name", JStr "ann@example.com")].

Definition logged_pools : list Pool :=
  [mkPool (Some "small") (Some "old-1"); mkPool (Some "large") (Some "old-2")].

Definition current_pools : list Pool :=
  [mkPool (Some "large") (Some "new-7"); mkPool (Some "small") (Some "new-8")].

End ConfigExamples.

(* ===================================================================== *)
(** * Properties *)
(* ===================================================================== *)

(** ** The batch iterator *)

Lemma range_lookup (n : Z) (i : nat) (m : Z) :
  Pagination.range n !! i = Some m <-> m = Z.of_nat i /\ Z.of_nat i < n.
Proof.
  unfold Pagination.range. rewrite lookup_seqZ. lia.
Qed.

Lemma batch_ranges_length (num : Z) :
  length (Pagination.batch_ranges num) = Z.to_nat (num / 100 + 1).
Proof.
  unfold Pagination.batch_ranges, Pagination.range, Pagination.num_of_buckets,
    Pagination.batch_size.
  now rewrite length_fmap, length_seqZ.
Qed.

Lemma batch_ranges_lookup (num : Z) (i : nat) (r : Z * Z) :
  Pagination.batch_ranges num !! i = Some r <->
  r = (100 * Z.of_nat i, 100 * (Z.of_nat i + 1)) /\ Z.of_nat i < num / 100 + 1.
Proof.
  unfold Pagination.batch_ranges. rewrite list_lookup_fmap.
  destruct (Pagination.range _ !! i) as [m|] eqn:E; simpl.
  - apply range_lookup in E as [-> E].
    unfold Pagination.slice_bounds, Pagination.batch_size, Pagination.num_of_buckets in *.
    split; [intros [= <-]; auto | intros [-> _]; reflexivity].
  - split; [discriminate|]. intros [_ Hlt].
    assert (Pagination.range (Pagination.num_of_buckets num) !! i = Some (Z.of_nat i)) as E'
      by (apply range_lookup; auto).
    congruence.
Qed.

(** The slices of the first [c] buckets, concatenated, are the first
    [100 * c] elements. *)
Lemma slices_take {A} (l : list A) (c : nat) :
  concat ((fun m : nat => take 100 (drop (100 * m) l)) <$> seq 0 c) = take (100 * c) l.
Proof.
  induction c as [|c IH].
  - reflexivity.
  - rewrite seq_S, fmap_app, concat_app, IH. simpl concat. rewrite app_nil_r.
    rewrite take_take_drop. f_equal. lia.
Qed.

Lemma all_slices_id {A} (l : list A) : Pagination.all_slices l = l.
Proof.
  unfold Pagination.all_slices, Pagination.batch_ranges, Pagination.range,
    Pagination.num_of_buckets, Pagination.batch_size, seqZ.
  rewrite <- !list_fmap_compose.
  set (c := Z.to_nat (Z.of_nat (length l) / 100 + 1)).
  transitivity (concat ((fun m : nat => take 100 (drop (100 * m) l)) <$> seq 0 c)).
  - f_equal. apply list_fmap_ext. intros i m _. simpl.
    unfold Pagination.py_slice, Pagination.slice_bounds, Pagination.batch_size.
    simpl fst; simpl snd. f_equal; [lia | f_equal; lia].
  - rewrite slices_take. apply take_ge.
    assert (Z.of_nat (length l) < 100 * (Z.of_nat (length l) / 100 + 1)).
    { pose proof (Z.mod_pos_bound (Z.of_nat (length l)) 100 ltac:(lia)).
      pose proof (Z.div_mod (Z.of_nat (length l)) 100 ltac:(lia)). lia. }
    assert (0 <= Z.of_nat (length l) / 100) by (apply Z.div_pos; lia).
    subst c. lia.
Qed.

(** C1, the count as claimed fails: for 100 names the loop asks for two
    ranges, [0,100) and [100,200), where ceil(100/100) is one (and for no
    name at all it still asks for one). *)
Lemma C1_count_counterexample :
  ~ Pagination.spec_count 100 /\ ~ Pagination.spec_count 0.
Proof.
  split; intros H; vm_compute in H; discriminate H.
Qed.

(** C1, amended: for a count [num >= 0] and batch size 100 the loops of
    [log_all_databases] and [log_all_tables] ask for exactly
    [num // 100 + 1] ranges, the i-th being [100*i, 100*(i+1)); the ranges
    do not overlap and cover [0, num) without gap, and the slices they cut
    from a list of [num] names put together give that list back.  The count
    is ceil(num/100) when 100 does not divide [num], and one more (a last
    range wholly past the end, whose slice is empty) when it does. *)
Theorem C1_pagination (num : Z) (Hnum : 0 <= num) :
  Z.of_nat (length (Pagination.batch_ranges num)) = num / 100 + 1 /\
  (forall (i : nat) r, Pagination.batch_ranges num !! i = Some r ->
     r = (100 * Z.of_nat i, 100 * (Z.of_nat i + 1))) /\
  (forall k, 0 <= k < num ->
     exists (i : nat) r, Pagination.batch_ranges num !! i = Some r /\ Pagination.in_range k r) /\
  (forall (i j : nat) r r' k,
     Pagination.batch_ranges num !! i = Some r ->
     Pagination.batch_ranges num !! j = Some r' ->
     Pagination.in_range k r -> Pagination.in_range k r' -> i = j) /\
  (num mod 100 <> 0 ->
     Z.of_nat (length (Pagination.batch_ranges num)) = Pagination.ceil_div num 100) /\
  (num mod 100 = 0 ->
     Z.of_nat (length (Pagination.batch_ranges num)) = Pagination.ceil_div num 100 + 1) /\
  (forall (A : Type) (l : list A), Z.of_nat (length l) = num -> Pagination.all_slices l = l).
Proof.
  assert (Hq : 0 <= num / 100) by (apply Z.div_pos; lia).
  assert (Hlen : Z.of_nat (length (Pagination.batch_ranges num)) = num / 100 + 1)
    by (rewrite batch_ranges_length; lia).
  repeat split.
  - exact Hlen.
  - intros i r Hr. apply batch_ranges_lookup in Hr. tauto.
  - intros k Hk.
    assert (0 <= k / 100) by (apply Z.div_pos; lia).
    exists (Z.to_nat (k / 100)), (100 * (k / 100), 100 * (k / 100 + 1)). split.
    + apply batch_ranges_lookup. rewrite Z2Nat.id by lia. split; [reflexivity|].
      assert (k / 100 <= num / 100) by (apply Z.div_le_mono; lia). lia.
    + unfold Pagination.in_range; simpl.
      pose proof (Z.mod_pos_bound k 100 ltac:(lia)).
      pose proof (Z.div_mod k 100 ltac:(lia)). lia.
  - intros i j r r' k Hi Hj Hr Hr'.
    apply batch_ranges_lookup in Hi as [-> _]. apply batch_ranges_lookup in Hj as [-> _].
    unfold Pagination.in_range in *; simpl in *. lia.
  - intros Hm. rewrite Hlen. unfold Pagination.ceil_div.
    pose proof (Z.mod_pos_bound num 100 ltac:(lia)).
    pose proof (Z.div_mod num 100 ltac:(lia)).
    apply (Z.div_unique _ _ _ (num mod 100 - 1)); lia.
  - intros Hm. rewrite Hlen. unfold Pagination.ceil_div.
    pose proof (Z.div_mod num 100 ltac:(lia)).
    assert ((num + 100 - 1) / 100 = num / 100); [|lia].
    symmetry. apply (Z.div_unique _ _ _ 99); lia.
  - intros A l _. apply all_slices_id.
Qed.

(** C1 at 250 names: three ranges. *)
Lemma C1_pagination_witness :
  Z.of_nat (length (Pagination.batch_ranges 250)) = 250 / 100 + 1.
Proof.
  exact (proj1 (C1_pagination 250 ltac:(lia))).
Defined.

(** ** The automated-cluster filter *)

Section RegexFacts.

Import Re.

Local Arguments String.append !s1 s2 : simpl nomatch.

Lemma append_assoc (x y z : string) : (x +++ y) +++ z = x +++ (y +++ z).
Proof. induction x; simpl; congruence. Qed.

Lemma append_empty_r (x : string) : x +++ EmptyString = x.
Proof. induction x; simpl; congruence. Qed.

Lemma match_lit (p : string) (q : list item) (s : string) :
  match_here (lit p ++ q) s = true <->
  exists s', s = p +++ s' /\ match_here q s' = true.
Proof.
  revert s; induction p as [|c p IH]; intros s; simpl.
  - split; [intros H; exists s; auto | intros (s' & -> & H); exact H].
  - destruct s as [|d s]; simpl.
    + split; [discriminate | intros (s' & [=] & _)].
    + rewrite andb_true_iff, IH. split.
      * intros [Hc (s' & -> & H)]. apply Ascii.eqb_eq in Hc as ->. eauto.
      * intros (s' & [= -> ->] & H). split; [apply Ascii.eqb_refl | eauto].
Qed.

Lemma match_more (a : atom) (q : list item) (s : string) :
  (fix more (s : string) : bool :=
     match_here q s ||
     match s with
     | String c s' => atom_match a c && more s'
     | EmptyString => false
     end) s = true <->
  exists x s', run_of a x /\ s = x +++ s' /\ match_here q s' = true.
Proof.
  induction s as [|c s IH].
  - rewrite orb_false_r. split.
    + intros H. exists EmptyString, EmptyString. repeat split; [constructor | exact H].
    + intros (x & s' & _ & E & H). destruct x; [simpl in E; subst s'; exact H | discriminate E].
  - rewrite orb_true_iff, andb_true_iff, IH. split.
    + intros [H | [Hc (x & s' & Hx & -> & H)]].
      * exists EmptyString, (String c s). repeat split; [constructor | exact H].
      * exists (String c x), s'. repeat split; [constructor; assumption | exact H].
    + intros (x & s' & Hx & E & H). destruct x as [|d x]; simpl in E.
      * left. subst s'. exact H.
      * injection E as -> ->. inversion Hx; subst. right. split; [assumption | eauto].
Qed.

Lemma match_plus (a : atom) (q : list item) (s : string) :
  match_here (Plus a :: q) s = true <->
  exists x s', x <> EmptyString /\ run_of a x /\ s = x +++ s' /\ match_here q s' = true.
Proof.
  destruct s as [|c s].
  - simpl. split; [discriminate|].
    intros (x & s' & Hne & _ & E & _). destruct x; [congruence | discriminate E].
  - change (match_here (Plus a :: q) (String c s)) with
      (atom_match a c &&
       (fix more (s : string) : bool :=
          match_here q s ||
          match s with
          | String c s' => atom_match a c && more s'
          | EmptyString => false
          end) s).
    rewrite andb_true_iff, match_more. split.
    + intros [Hc (x & s' & Hx & -> & H)].
      exists (String c x), s'. repeat split; [discriminate | constructor; assumption | exact H].
    + intros (x & s' & Hne & Hx & E & H). destruct x as [|d x]; [congruence|].
      simpl in E. injection E as -> ->. inversion Hx; subst. split; [assumption | eauto].
Qed.

Lemma match_dollar (s : string) :
  match_here [Dollar] s = true <-> s = EmptyString \/ s = Clusters.newline.
Proof.
  simpl. rewrite andb_true_r. unfold at_dollar, Clusters.newline.
  destruct s as [|c [|d s]].
  - tauto.
  - split.
    + intros H. apply Ascii.eqb_eq in H as ->. auto.
    + intros [[=] | [= ->]]. reflexivity.
  - split; [discriminate | intros [[=] | [=]]].
Qed.

(** What the compiled expression accepts at the start of a name. *)
Lemma re_expr_spec (name : string) :
  re_match Clusters.re_expr name = true <->
  Clusters.job_run_shape name \/
  exists n, Clusters.job_run_shape n /\ name = n +++ Clusters.newline.
Proof.
  unfold re_match, Clusters.re_expr. rewrite match_lit.
  set (q1 := lit "-run-" ++ [Plus Digit; Dollar]).
  split.
  - intros (s1 & -> & H).
    apply (match_plus Digit q1) in H as (a & s2 & Ha & Da & -> & H).
    apply (match_lit "-run-" [Plus Digit; Dollar]) in H as (s3 & -> & H).
    apply (match_plus Digit [Dollar]) in H as (b & s4 & Hb & Db & -> & H).
    apply match_dollar in H as [-> | ->].
    + left. exists a, b. rewrite append_empty_r. auto.
    + right. exists ("job-" +++ a +++ "-run-" +++ b). split.
      * exists a, b. auto.
      * rewrite !append_assoc. reflexivity.
  - intros [(a & b & Ha & Hb & Da & Db & ->) | (n & (a & b & Ha & Hb & Da & Db & ->) & ->)].
    + exists (a +++ "-run-" +++ b). split; [reflexivity|].
      apply (match_plus Digit q1). exists a, ("-run-" +++ b). repeat split; auto.
      apply (match_lit "-run-" [Plus Digit; Dollar]). exists b. split; [reflexivity|].
      apply (match_plus Digit [Dollar]). exists b, EmptyString. repeat split; auto.
      now rewrite append_empty_r.
    + exists (a +++ "-run-" +++ b +++ Clusters.newline). split.
      * rewrite !append_assoc. reflexivity.
      * apply (match_plus Digit q1).
        exists a, ("-run-" +++ b +++ Clusters.newline). repeat split; auto.
        apply (match_lit "-run-" [Plus Digit; Dollar]).
        exists (b +++ Clusters.newline). split; [reflexivity|].
        apply (match_plus Digit [Dollar]). exists b, Clusters.newline. repeat split; auto.
Qed.

End RegexFacts.

Section FilterFacts.

Import Clusters.

Local Arguments String.append !s1 s2 : simpl nomatch.

Lemma is_automated_spec (name : string) :
  is_automated name = true <-> code_excluded name.
Proof.
  unfold is_automated, code_excluded, startswith, ml_model_pattern.
  rewrite orb_true_iff, re_expr_spec. tauto.
Qed.

Lemma filter_loop_spec (l clean skipped : list Cluster) :
  Forall has_name l ->
  filter_loop l clean skipped =
    (Returned (clean ++ List.filter (fun c => negb (automated c)) l),
     skipped ++ List.filter automated l).
Proof.
  intros Hl. revert clean skipped.
  induction Hl as [|c l Hc Hl IH]; intros clean skipped; simpl.
  - now rewrite !app_nil_r.
  - unfold has_name in Hc.
    destruct (cluster_name c) as [name|] eqn:E; [|congruence].
    assert (automated c = is_automated name) as -> by (unfold automated; now rewrite E).
    destruct (is_automated name); simpl; rewrite IH, <- ?app_assoc; reflexivity.
Qed.

Lemma last_char_append (x y : string) :
  y <> EmptyString -> last_char (x +++ y) = last_char y.
Proof.
  intros Hy. induction x as [|c x IH]; [reflexivity|].
  simpl. rewrite IH. destruct (x +++ y) eqn:E; [|reflexivity].
  destruct x; simpl in E; [congruence | discriminate E].
Qed.

Lemma last_char_digits (b : string) :
  b <> EmptyString -> all_digits b -> exists c, last_char b = Some c /\ Re.is_digit c = true.
Proof.
  induction b as [|c b IH]; [congruence|]. intros _ Hb.
  inversion Hb as [|? ? Hc Hb']; subst.
  destruct b as [|d b].
  - exists c. auto.
  - destruct IH as (e & He & De); [discriminate | exact Hb' |].
    exists e. split; [exact He | exact De].
Qed.

(** A name of the job shape ends in a digit. *)
Lemma job_run_shape_last (name : string) :
  job_run_shape name -> exists c, last_char name = Some c /\ Re.is_digit c = true.
Proof.
  intros (a & b & Ha & Hb & Da & Db & ->).
  rewrite <- !append_assoc. rewrite last_char_append by exact Hb.
  apply last_char_digits; assumption.
Qed.

End FilterFacts.




(** ** The command executor *)

Section ExecutorFacts.

Context {World : Type} {remote : RemoteApi World}.

Lemma same_files_refl (st : State World) : same_files st st.
Proof. repeat split. Qed.

Lemma same_files_trans (st1 st2 st3 : State World) :
  same_files st1 st2 -> same_files st2 st3 -> same_files st1 st3.
Proof. unfold same_files. intuition congruence. Qed.

(** The polling loop runs to the terminal answer when it has the fuel. *)
Lemma poll_status_returns cid ec_id com_id k :
  forall fuel (st : State World) resp s r w2,
    terminal_in cid ec_id com_id k (world st) r w2 ->
    (S k <= fuel)%nat -> still_running s = true ->
    exists resp' st',
      poll_status fuel cid ec_id com_id resp s st = (Returned resp', st') /\
      results resp' = Some r /\ world st' = w2 /\ same_files st st' /\
      log st' = log st /\
      trace st' = trace st ++ repeat (EvPoll com_id) (S k).
Proof.
  induction k as [|k IH]; intros fuel st resp s r w2 Hterm Hfuel Hs;
    (destruct fuel as [|fuel]; [lia|]); inversion Hterm; subst; simpl;
    rewrite Hs; unfold bind, emit, call, get_key, ret; simpl;
    match goal with H : commands_status _ _ _ _ = _ |- _ => rewrite H end; simpl;
    match goal with H : status _ = Some _ |- _ => rewrite H end; simpl.
  - destruct fuel; simpl;
      match goal with H : still_running _ = false |- _ => rewrite H end;
      eexists _, _; repeat split; eauto.
  - match goal with
    | Hk : terminal_in _ _ _ k _ _ _ |- context [poll_status fuel _ _ _ ?rp ?s' ?stx] =>
        destruct (IH fuel stx rp s' r w2) as (resp' & st' & Hrun & Hres & Hw & Hf & Hl & Ht);
          [exact Hk | lia | assumption |]
    end.
    rewrite Hrun. exists resp', st'. repeat split; try apply Hf; auto.
    rewrite Ht. simpl. now rewrite <- app_assoc.
Qed.

(** [submit_command] returns the results of the terminal answer, whatever
    the command id and whatever the result type. *)
Lemma submit_command_returns fuel k cid ec_id cmd (st : State World) com_id w1 r w2 :
  commands_execute cid ec_id cmd (world st) = (com_id, w1) ->
  terminal_in cid ec_id com_id k w1 r w2 ->
  (k <= fuel)%nat ->
  exists st',
    submit_command fuel cid ec_id cmd st = (Returned r, st') /\
    world st' = w2 /\ same_files st st' /\
    log st' = log st ++ submit_logs com_id r /\
    trace st' = trace st ++ EvSubmit cid ec_id cmd :: repeat (EvPoll com_id) (S k).
Proof.
  intros Hexec Hterm Hfuel.
  unfold submit_command, await_results, submit_logs, bind, emit, call, when, log_msg, ret;
    simpl.
  rewrite Hexec; simpl.
  inversion Hterm; subst.
  - destruct (truthy com_id); simpl;
      match goal with H : commands_status _ _ _ _ = _ |- _ => rewrite H end; simpl;
      match goal with H : status _ = Some _ |- _ => rewrite H end; simpl;
      (destruct fuel; simpl;
       match goal with H : still_running _ = false |- _ => rewrite H end; simpl;
       match goal with H : results _ = Some _ |- _ => rewrite H end; simpl;
       destruct (opt_is (resultType r) "error"); simpl;
       eexists; repeat split; simpl; rewrite <- ?app_assoc, ?app_nil_r; reflexivity).
  - destruct (truthy com_id); simpl;
      match goal with H : commands_status _ _ _ w1 = _ |- _ => rewrite H end; simpl;
      match goal with H : status _ = Some _ |- _ => rewrite H end; simpl;
      match goal with
      | Hk : terminal_in _ _ _ ?kk _ _ _ |- context [poll_status fuel _ _ _ ?rp ?s' ?stx] =>
          destruct (poll_status_returns cid ec_id com_id kk fuel stx rp s' r w2)
            as (resp' & st' & Hrun & Hres & Hw & Hf & Hl & Ht);
            [exact Hk | lia | assumption |]
      end; rewrite Hrun; simpl; rewrite Hres; simpl;
      unfold set_world in Hl, Ht; simpl in Hl, Ht;
      (destruct (opt_is (resultType r) "error"); simpl;
       eexists; repeat split; simpl; try apply Hf; try exact Hw;
       rewrite ?Hl, ?Ht; simpl; rewrite <- ?app_assoc; simpl; rewrite ?app_nil_r;
       reflexivity).
Qed.

(** Whatever the answers, the polling loop leaves the files and the log
    alone and only adds polls to the trace. *)
Lemma poll_status_frame cid ec_id com_id fuel :
  forall (st : State World) resp s,
    let st' := snd (poll_status fuel cid ec_id com_id resp s st) in
    same_files st st' /\ log st' = log st /\
    exists t, trace st' = trace st ++ t /\ Forall is_poll t.
Proof.
  induction fuel as [|fuel IH]; intros st resp s; simpl.
  - destruct (still_running s); simpl; repeat split; exists []; now rewrite app_nil_r.
  - destruct (still_running s); simpl;
      [| repeat split; exists []; now rewrite app_nil_r].
    unfold bind, emit, call, get_key, ret, raise; simpl.
    destruct (commands_status cid ec_id com_id (world st)) as [resp' w1]; simpl.
    destruct (status resp') as [s'|]; simpl.
    + match goal with |- context [poll_status fuel _ _ _ ?rp ?sx ?stx] =>
        destruct (IH stx rp sx) as (Hf & Hl & t & Ht & Hp);
        destruct (poll_status fuel cid ec_id com_id rp sx stx) as [[a|e|] st1]
      end; simpl in *; (repeat split; [apply Hf | apply Hf | apply Hf | exact Hl |]);
      exists (EvPoll com_id :: t); (split; [rewrite Ht, <- app_assoc; reflexivity |]);
      constructor; simpl; auto.
    + repeat split. exists [EvPoll com_id]. split; [reflexivity|]. repeat constructor.
Qed.

Lemma await_results_frame fuel cid ec_id com_id (st : State World) :
  let st' := snd (await_results fuel cid ec_id com_id st) in
  same_files st st' /\ (exists l, log st' = log st ++ l) /\
  exists t, trace st' = trace st ++ EvPoll com_id :: t /\ Forall is_poll t.
Proof.
  unfold await_results, bind, emit, call, when, log_msg, get_key, ret, raise; simpl.
  destruct (commands_status cid ec_id com_id (world st)) as [resp w2]; simpl.
  destruct (status resp) as [s|]; simpl;
    [| repeat split; [exists [] | exists []]; rewrite ?app_nil_r; auto].
  match goal with |- context [poll_status fuel _ _ _ ?rp ?sx ?sty] =>
    destruct (poll_status_frame cid ec_id com_id fuel sty rp sx) as (Hf & Hl & t & Ht & Hp);
    destruct (poll_status fuel cid ec_id com_id rp sx sty) as [[a|e|] st1]
  end; simpl in *;
    try (repeat split; try apply Hf;
         [exists []; now rewrite app_nil_r, Hl
         | exists t; split; [now rewrite Ht, <- app_assoc | exact Hp]]).
  destruct (results a) as [r|]; simpl;
    [| repeat split; try apply Hf;
       [exists []; now rewrite app_nil_r, Hl
       | exists t; split; [now rewrite Ht, <- app_assoc | exact Hp]]].
  destruct (opt_is (resultType r) "error"); simpl;
    (repeat split; try apply Hf;
     [eexists; rewrite Hl; try reflexivity
     | exists t; split; [now rewrite Ht, <- app_assoc | exact Hp]]).
  now rewrite app_nil_r.
Qed.

(** Whatever the answers, [submit_command] leaves the files alone, logs
    the missing command id first if there is none, and starts the trace
    with the submission and a first poll carrying the id it got. *)
Lemma submit_command_frame fuel cid ec_id cmd (st : State World) :
  let com_id := fst (commands_execute cid ec_id cmd (world st)) in
  let st' := snd (submit_command fuel cid ec_id cmd st) in
  same_files st st' /\
  (exists l, log st' = log st ++ (if truthy com_id then [] else [ErrNoCommandId]) ++ l) /\
  exists t, trace st' = trace st ++ EvSubmit cid ec_id cmd :: EvPoll com_id :: t /\
            Forall is_poll t.
Proof.
  unfold submit_command, bind, emit, call, when, log_msg, ret; simpl.
  destruct (commands_execute cid ec_id cmd (world st)) as [com_id w1]; simpl.
  destruct (truthy com_id); simpl;
    match goal with |- context [await_results _ _ _ _ ?stx] =>
      destruct (await_results_frame fuel cid ec_id com_id stx) as (Hf & (l & Hl) & t & Ht & Hp);
      destruct (await_results fuel cid ec_id com_id stx) as [o st1]
    end; simpl in *.
  - repeat split; try apply Hf; [exists l; exact Hl |].
    exists t. split; [|exact Hp]. rewrite Ht, <- app_assoc. reflexivity.
  - repeat split; try apply Hf; [exists l; rewrite Hl, <- app_assoc; reflexivity |].
    exists t. split; [|exact Hp]. rewrite Ht, <- app_assoc. reflexivity.
Qed.

End ExecutorFacts.

(** C4, the claim fails: when [execute] hands out no command id,
    [submit_command] logs the error, polls the status with the missing id
    until the answer is terminal, and returns the results; nothing is raised. *)
Lemma C4_no_id_counterexample :
  let st := Script.start ∅ None None in
  let run := submit_command (remote := Script.api Examples.no_id) 3
               "cid-1" "ctx-1" "print(1)" st in
  fst (commands_execute (RemoteApi := Script.api Examples.no_id)
         "cid-1" "ctx-1" "print(1)" (world st)) = None /\
  fst run = Returned (Script.text "1") /\
  log (snd run) = [ErrNoCommandId] /\
  trace (snd run) = [EvSubmit "cid-1" "ctx-1" "print(1)"; EvPoll None; EvPoll None].
Proof.
  repeat split.
Qed.

(** C4, amended: when the remote execute call returns no command
    identifier, [submit_command] logs an error and goes on to ask for the
    command status with the missing identifier; it raises no exception for
    the missing identifier, and when the status answers reach a terminal
    one within the polls it makes, it returns that answer's results. *)
Theorem C4_no_command_id {World : Type} {remote : RemoteApi World}
    (fuel : nat) (cid ec_id cmd : string) (st : State World)
    (com_id : option string) (w1 : World)
    (Hexec : commands_execute cid ec_id cmd (world st) = (com_id, w1))
    (Hnone : truthy com_id = false) :
  (exists l t,
     log (snd (submit_command fuel cid ec_id cmd st)) = log st ++ ErrNoCommandId :: l /\
     trace (snd (submit_command fuel cid ec_id cmd st))
       = trace st ++ EvSubmit cid ec_id cmd :: EvPoll com_id :: t) /\
  (forall k r w2,
     terminal_in cid ec_id com_id k w1 r w2 -> (k <= fuel)%nat ->
     fst (submit_command fuel cid ec_id cmd st) = Returned r).
Proof.
  split.
  - destruct (submit_command_frame fuel cid ec_id cmd st) as (_ & (l & Hl) & t & Ht & _).
    rewrite Hexec in Hl, Ht. simpl in Hl, Ht. rewrite Hnone in Hl.
    exists l, t. split; [exact Hl | exact Ht].
  - intros k r w2 Hterm Hk.
    destruct (submit_command_returns fuel k cid ec_id cmd st com_id w1 r w2 Hexec Hterm Hk)
      as (st' & Hrun & _).
    now rewrite Hrun.
Qed.

(** C4 on the scripted service that hands out no command id. *)
Lemma C4_no_command_id_witness :
  fst (submit_command (remote := Script.api Examples.no_id) 3
         "cid-1" "ctx-1" "print(1)" (Script.start ∅ None None))
  = Returned (Script.text "1").
Proof.
  apply (proj2 (C4_no_command_id (remote := Script.api Examples.no_id) 3
                  "cid-1" "ctx-1" "print(1)" (Script.start ∅ None None)
                  None (Script.mkWorld "default" "print(1)" 0) eq_refl eq_refl)
               1%nat (Script.text "1") (Script.mkWorld "default" "print(1)" 2)).
  - eapply terminal_later; [reflexivity | reflexivity | reflexivity |].
    eapply terminal_now; reflexivity.
  - lia.
Defined.

(** ** Running the client step by step *)

Section MonadFacts.

Context {World : Type}.

Lemma bind_run {A B} (m : M World A) (k : A -> M World B) st a st1 :
  m st = (Returned a, st1) -> bind m k st = k a st1.
Proof. intros H. unfold bind. now rewrite H. Qed.

Lemma bind_returned {A B} (m : M World A) (k : A -> M World B) st b st' :
  bind m k st = (Returned b, st') ->
  exists a st1, m st = (Returned a, st1) /\ k a st1 = (Returned b, st').
Proof.
  unfold bind. destruct (m st) as [[a|e|] st1]; intros H; try discriminate H. eauto.
Qed.

Lemma get_key_returned {A} key (o : option A) (st : State World) a st' :
  get_key key o st = (Returned a, st') -> o = Some a /\ st' = st.
Proof.
  destruct o; simpl; unfold ret, raise; intros [= <- <-]; auto.
Qed.

(** A property kept by every returning run of the body is kept by the loop. *)
Lemma for_each_invariant {A} (I : State World -> Prop) (body : A -> M World unit) l :
  (forall x st st', In x l -> I st -> body x st = (Returned tt, st') -> I st') ->
  forall st st', I st -> for_each l body st = (Returned tt, st') -> I st'.
Proof.
  induction l as [|x l IH]; intros Hbody st st' HI Hrun; simpl in Hrun.
  - injection Hrun as <-. exact HI.
  - apply bind_returned in Hrun as ([] & st1 & Hx & Hrest).
    eapply IH; [| | exact Hrest].
    + intros y s s' Hy. apply Hbody. now right.
    + eapply Hbody; [now left | exact HI | exact Hx].
Qed.

End MonadFacts.

(** ** The crawl of one table *)

Section ExtractFacts.

Context {World : Type} {remote : RemoteApi World}.

Lemma open_table_w_run db t (st : State World) files :
  metastore st !! db = Some (EDir files) ->
  open_table_w db t st =
    (Returned tt,
     mkState (world st) (<[db := EDir (<[t := EmptyString]> files)]> (metastore st))
             (failed_log st) (profiles_log st) (log st)
             (trace st ++ [EvOpen (PTable db t) ModeW])).
Proof.
  intros H. unfold open_table_w, bind, emit; simpl. now rewrite H.
Qed.

(** A statement whose answer is not a text result: the table's file is
    created empty, the answer becomes a line of the failure log, and the
    body returns. *)
Lemma extract_table_failed fuel k db cid ec_id t (st : State World) com_id w1 r w2 files rt :
  commands_execute cid ec_id (Stmt.ddl_stmt db t) (world st) = (com_id, w1) ->
  terminal_in cid ec_id com_id k w1 r w2 -> (k <= fuel)%nat ->
  resultType r = Some rt -> String.eqb rt "text" = false ->
  metastore st !! db = Some (EDir files) ->
  exists st2,
    extract_table fuel db cid ec_id t st = (Returned tt, st2) /\
    metastore st2 = <[db := EDir (<[t := EmptyString]> files)]> (metastore st) /\
    failed_log st2 = Some (default [] (failed_log st) ++ [with_table r db t]) /\
    log st2 = log st ++ InfoTable t :: submit_logs com_id r.
Proof.
  intros Hexec Hterm Hk Hrt Hne Hdir. unfold extract_table.
  rewrite (bind_run (log_msg (InfoTable t)) _ st tt _ eq_refl).
  match goal with |- context [bind (submit_command _ _ _ _) _ ?stx] =>
    destruct (submit_command_returns fuel k cid ec_id (Stmt.ddl_stmt db t) stx com_id w1 r w2
                Hexec Hterm Hk) as (st1 & Hrun & Hw & (Hm & Hfl & Hpl) & Hl & Ht)
  end.
  simpl in Hm, Hfl, Hpl, Hl, Ht.
  rewrite (bind_run _ _ _ _ _ Hrun).
  rewrite (bind_run (emit _) _ st1 tt _ eq_refl).
  erewrite (bind_run (open_table_w db t));
    [| apply open_table_w_run; simpl; rewrite Hm; exact Hdir].
  unfold get_key. rewrite Hrt. rewrite (bind_run (ret rt) _ _ rt _ eq_refl). rewrite Hne.
  unfold append_failed_log, set_failed_log; simpl.
  eexists. split; [reflexivity|]. simpl in *.
  rewrite Hm, Hfl, Hl, <- app_assoc. auto.
Qed.

End ExtractFacts.



(** ** The gate of the retry pass *)

(** C3, the claim fails on condition (a): a crawl of one database whose
    only table is extracted at once leaves an empty failure log, and on an
    AWS deployment without skip-failed and with one registered profile the
    retry pass still runs: the cluster is edited to the profile's role. *)
Lemma C3_no_failures_counterexample :
  let run := export_hive_metastore (remote := Script.api Examples.all_ok)
               (py := Script.pylib) 3 (mkConfig true false)
               (Script.start ∅ None None) in
  fst run = Returned tt /\
  log (snd run) =
    [InfoClusterCreationTime; InfoCreatingSession; InfoDatabase "d"; InfoTable "t1";
     InfoRetrying; InfoProfilesExist; InfoCreatingSession; InfoFailedAfterRetry 0;
     InfoFailedBeforeRetry 0; InfoTotalDatabases 1] /\
  In (EvEdit "cid-1" Examples.etl_role) (trace (snd run)).
Proof.
  split; [vm_compute; reflexivity|].
  split; [vm_compute; reflexivity|].
  vm_compute. repeat (first [left; reflexivity | right]).
Qed.

(** C3, amended: the retry pass is triggered only when the deployment is
    AWS, skip-failed is not set, and the listing of instance profiles is not
    empty; whether failed extractions exist plays no part.  When skip-failed
    is set, or the deployment is not AWS, or no profile is registered, the
    end of [export_hive_metastore] returns without a retry pass: the pass is
    not announced, only local files are opened (no cluster edit, no
    statement, no retried table), and the local files stay as they are. *)
Theorem C3_retry_gate {World : Type} {remote : RemoteApi World}
    (fuel : nat) (cfg : Config) (cid : string) (all_dbs : list string) (st : State World)
    (Hgate : is_skip_failed cfg = true \/ is_aws cfg = false \/
             no_profiles (fst (instance_profiles_list (world st)))) :
  let run := export_finish fuel cfg cid all_dbs st in
  fst run = Returned tt /\
  same_files st (snd run) /\
  exists l t,
    log (snd run) = log st ++ l /\ ~ In InfoProfilesExist l /\
    trace (snd run) = trace st ++ t /\ Forall is_open t.
Proof.
  assert (Hcnt : Forall is_open (count_opens st)).
  { unfold count_opens. destruct (failed_log st); repeat constructor. }
  set (n := length (default [] (failed_log st))).
  set (m := length all_dbs).
  assert (Helse : export_finish fuel cfg cid all_dbs st
                  = (Returned tt, after st [InfoFailedCount n; InfoTotalDatabases m]
                                    (count_opens st)) ->
          let run := export_finish fuel cfg cid all_dbs st in
          fst run = Returned tt /\ same_files st (snd run) /\
          exists l t, log (snd run) = log st ++ l /\ ~ In InfoProfilesExist l /\
                      trace (snd run) = trace st ++ t /\ Forall is_open t).
  { intros ->. simpl. split; [reflexivity|]. split; [repeat split|].
    eexists _, _. repeat split; [| exact Hcnt].
    intros [H|[H|H]]; (discriminate H || exact H). }
  assert (Hrun_else : negb (is_skip_failed cfg) && is_aws cfg = false ->
            export_finish fuel cfg cid all_dbs st
            = (Returned tt, after st [InfoFailedCount n; InfoTotalDatabases m]
                              (count_opens st))).
  { intros Hg. unfold export_finish, get_num_of_lines, bind, log_msg, emit, ret, after,
      count_opens; subst n. rewrite Hg.
    destruct st as [w ms f p l t]; simpl. destruct f; simpl;
      rewrite <- ?app_assoc, ?app_nil_r; reflexivity. }
  destruct (negb (is_skip_failed cfg) && is_aws cfg) eqn:Hg;
    [| apply Helse, Hrun_else; reflexivity].
  apply andb_true_iff in Hg as [Hskip Haws]. apply negb_true_iff in Hskip.
  destruct Hgate as [H|[H|H]]; [congruence | congruence |].
  assert (Hrun : export_finish fuel cfg cid all_dbs st
                 = (Returned tt,
                    set_world (snd (instance_profiles_list (world st)))
                      (after st [InfoRetrying; InfoNoProfiles; InfoFailedBeforeRetry n;
                                 InfoTotalDatabases m]
                         (count_opens st ++ count_opens st)))).
  { unfold export_finish, retry_failed_metastore_export, check_if_instance_profiles_exists,
      get_num_of_lines, bind, log_msg, emit, call, ret, after, set_world, count_opens;
      subst n. rewrite Hskip, Haws. clear Helse Hrun_else Hcnt.
    destruct st as [w ms f p l t]; destruct f; simpl in *;
      (destruct (instance_profiles_list w) as [ips w1]; simpl in H;
       destruct ips as [[|? ?]|]; try contradiction; simpl;
       rewrite <- ?app_assoc, ?app_nil_r; reflexivity). }
  rewrite Hrun. simpl. split; [reflexivity|]. split; [repeat split|].
  eexists _, _. repeat split; [| apply Forall_app; split; exact Hcnt].
  intros H'; repeat (destruct H' as [H'|H']; [discriminate H'|]); exact H'.
Qed.

(** C3 with skip-failed set, on an AWS deployment with a registered
    profile and one failed table: no retry pass. *)
Lemma C3_retry_gate_witness :
  fst (export_finish (remote := Script.api Examples.all_ok) 3 (mkConfig true true) "cid-1"
         ["d"] (Script.start Examples.one_db (Some [Examples.failed_line "d.t1"]) None))
  = Returned tt.
Proof.
  exact (proj1 (C3_retry_gate (remote := Script.api Examples.all_ok) 3 (mkConfig true true)
                  "cid-1" ["d"]
                  (Script.start Examples.one_db (Some [Examples.failed_line "d.t1"]) None)
                  (or_introl eq_refl))).
Defined.

(** ** The retry on a deployment that is not AWS *)

(** C10, the claim fails on one point: on a deployment that is not AWS the
    call does raise the error of the unassigned local, but only after
    [get_num_of_lines] has opened and read the failure log. *)
Lemma C10_reads_log_counterexample :
  let run := retry_failed_metastore_export (remote := Script.api Examples.denied) 5
               (mkConfig false false) "cid-1"
               (Script.start Examples.one_db (Some [Examples.failed_line "d.t1"]) None) in
  fst run = Raised (UnboundLocalError "do_instance_profile_exist") /\
  In (EvOpen PFailedLog ModeR) (trace (snd run)).
Proof.
  split; [reflexivity | now left].
Qed.

(** C10, amended: when [is_aws()] is false, [retry_failed_metastore_export]
    raises the error of the local [do_instance_profile_exist] that was never
    assigned.  Before that it has only counted the lines of the failure log
    (opening it if it exists); it has not loaded the failure records, edited
    the cluster, submitted a statement or retried a table, and the remote
    service, the local files and the process log are as before. *)
Theorem C10_unbound_local {World : Type} {remote : RemoteApi World}
    (fuel : nat) (cfg : Config) (cid : string) (st : State World)
    (Haws : is_aws cfg = false) :
  retry_failed_metastore_export fuel cfg cid st
  = (Raised (UnboundLocalError "do_instance_profile_exist"),
     after st [] (count_opens st)).
Proof.
  unfold retry_failed_metastore_export, get_num_of_lines, bind, emit, ret, raise, after,
    count_opens. rewrite Haws.
  destruct st as [w ms f p l t]; destruct f; simpl; rewrite ?app_nil_r; reflexivity.
Qed.

(** C10 on a deployment that is not AWS, with one failed table logged. *)
Lemma C10_unbound_local_witness :
  fst (retry_failed_metastore_export (remote := Script.api Examples.denied) 5
         (mkConfig false false) "cid-1"
         (Script.start Examples.one_db (Some [Examples.failed_line "d.t1"]) None))
  = Raised (UnboundLocalError "do_instance_profile_exist").
Proof.
  rewrite (C10_unbound_local (remote := Script.api Examples.denied) 5
             (mkConfig false false) "cid-1"
             (Script.start Examples.one_db (Some [Examples.failed_line "d.t1"]) None)
             eq_refl).
  reflexivity.
Defined.

(** ** The retry loop on a failing input *)

(** C2, the code at a failing input: two tables are in the failure log and
    the registered role can extract both.  The attempt on the first succeeds
    and removes it from the list being iterated, the iterator moves on to
    index 1 of a list that now has one element, and the loop ends: the
    second table, still in the failing list, is never attempted with the
    role and stays in the rewritten log, although the scripted cluster
    answers its statement with a text result under that role too. *)
Theorem C2_retry_skips_next_table :
  let run := retry_failed_metastore_export (remote := Script.api Examples.all_ok) 3
               (mkConfig true false) "cid-1"
               (Script.start Examples.one_db
                  (Some [Examples.failed_line "d.t1"; Examples.failed_line "d.t2"]) None) in
  fst run = Returned tt /\
  retries (trace (snd run))
    = [(Examples.etl_role, Examples.failed_line "d.t1",
        Script.text "CREATE TABLE d.t1 (x INT)")] /\
  failed_log (snd run) = Some [Examples.failed_line "d.t2"] /\
  Script.answer Examples.all_ok Examples.etl_role (Stmt.ddl_stmt "d" "t2") 0
    = Script.finished (Script.text "CREATE TABLE d.t1 (x INT)").
Proof.
  split; [vm_compute; reflexivity|].
  split; [vm_compute; reflexivity|].
  split; vm_compute; reflexivity.
Qed.

(** ** The import on a failing input *)

(** C6, the code at a failing input: the export directory holds the stray
    file README next to the database directory d.  The import submits
    CREATE DATABASE IF NOT EXISTS README before it looks whether README is a
    directory, then reports the entry and goes on. *)
Theorem C6_create_database_for_file :
  let run := import_hive_metastore (remote := Script.api Examples.all_ok) 3
               (Script.start Examples.with_stray_file None None) in
  fst run = Returned tt /\
  In (Stmt.create_db_statement "README") (submitted (trace (snd run))) /\
  In (ErrNotADatabase "README") (log (snd run)) /\
  In (Stmt.get_spark_ddl "CREATE TABLE d.t1 (x INT)") (submitted (trace (snd run))).
Proof.
  split; [vm_compute; reflexivity|].
  split; [vm_compute; now left|].
  split; [vm_compute; right; now left|].
  vm_compute. right. right. now left.
Qed.

(** ** Traces of the retry pass *)

Section TraceFacts.

Context {World : Type} {remote : RemoteApi World}.

Lemma retries_app (t1 t2 : list Event) : retries (t1 ++ t2) = retries t1 ++ retries t2.
Proof.
  induction t1 as [|[] t1 IH]; simpl; rewrite ?IH; reflexivity.
Qed.

Lemma extracts_app (t1 t2 : list Event) : extracts (t1 ++ t2) = extracts t1 ++ extracts t2.
Proof.
  induction t1 as [|[] t1 IH]; simpl; rewrite ?IH; reflexivity.
Qed.

Lemma quiet_retries (t : list Event) : Forall quiet_event t -> retries t = [].
Proof.
  induction 1 as [|[] t Hq _ IH]; simpl in *; auto; contradiction.
Qed.

Lemma quiet_extracts (t : list Event) : Forall quiet_event t -> extracts t = [].
Proof.
  induction 1 as [|[] t Hq _ IH]; simpl in *; auto; contradiction.
Qed.

Lemma polls_quiet (t : list Event) : Forall is_poll t -> Forall quiet_event t.
Proof.
  intros H. induction H as [|ev t Hev _ IH]; constructor; [|exact IH].
  destruct ev; simpl in *; auto.
Qed.

(** A run of [submit_command], whatever its outcome, leaves the files
    alone and adds no answer event. *)
Lemma submit_command_quiet fuel cid ec_id cmd (st : State World) o st' :
  submit_command fuel cid ec_id cmd st = (o, st') ->
  same_files st st' /\ exists t, trace st' = trace st ++ t /\ Forall quiet_event t.
Proof.
  intros Hrun.
  destruct (submit_command_frame fuel cid ec_id cmd st) as (Hf & _ & t & Ht & Hp).
  rewrite Hrun in Hf, Ht. simpl in Hf, Ht.
  split; [exact Hf|]. eexists. split; [exact Ht|].
  repeat constructor. now apply polls_quiet.
Qed.

Lemma get_execution_context_quiet cid (st : State World) o st' :
  get_execution_context cid st = (o, st') ->
  same_files st st' /\ trace st' = trace st.
Proof.
  unfold get_execution_context, bind, log_msg, call, get_key, ret, raise. simpl.
  destruct (contexts_create cid (world st)) as [ec w1]. simpl.
  destruct ec as [[|c s]|]; simpl; intros [= <- <-]; repeat split.
Qed.

Lemma edit_cluster_quiet cfg cid role (st : State World) o st' :
  edit_cluster cfg cid role st = (o, st') ->
  same_files st st' /\ exists t, trace st' = trace st ++ t /\ Forall quiet_event t.
Proof.
  unfold edit_cluster, bind, emit, call_out, ret. destruct (is_aws cfg); simpl.
  - destruct (edit_cluster_op cid role (world st)) as [[[]|e|] w1]; simpl;
      intros [= <- <-]; (split; [repeat split|]);
      exists [EvEdit cid role]; (split; [reflexivity | repeat constructor]).
  - intros [= <- <-]. split; [repeat split|].
    exists []. split; [now rewrite app_nil_r | constructor].
Qed.

Lemma open_table_w_returned db t (st : State World) st' :
  open_table_w db t st = (Returned tt, st') ->
  exists files,
    metastore st !! db = Some (EDir files) /\
    metastore st' = <[db := EDir (<[t := EmptyString]> files)]> (metastore st) /\
    failed_log st' = failed_log st /\ profiles_log st' = profiles_log st /\
    trace st' = trace st ++ [EvOpen (PTable db t) ModeW].
Proof.
  unfold open_table_w, bind, emit. simpl.
  destruct (metastore st !! db) as [[c|files]|] eqn:E; simpl; intros H; try discriminate H.
  injection H as <-. exists files. repeat split.
Qed.

Lemma write_table_returned db t d (st : State World) st' files :
  metastore st !! db = Some (EDir files) ->
  write_table db t d st = (Returned tt, st') ->
  metastore st' = <[db := EDir (<[t := d]> files)]> (metastore st) /\
  failed_log st' = failed_log st /\ profiles_log st' = profiles_log st /\
  trace st' = trace st.
Proof.
  unfold write_table. intros ->. intros [= <-]. repeat split.
Qed.

End TraceFacts.

Section RetryFacts.

Context {World : Type} {remote : RemoteApi World}.

Lemma index_returned {A} (l : list A) i (st : State World) a st' :
  index l i st = (Returned a, st') -> l !! i = Some a /\ st' = st.
Proof.
  unfold index. destruct (l !! i); simpl; unfold ret, raise; intros [= <- <-]; auto.
Qed.

(** A returning run of the loop body made exactly one attempt, on the line
    it was given, and removed that line exactly when the answer was text. *)
Lemma retry_table_returned fuel cid ec_id role line l (st : State World) l' st' :
  retry_table fuel cid ec_id role line l st = (Returned l', st') ->
  exists r t,
    trace st' = trace st ++ t /\ retries t = [(role, line, r)] /\
    ((is_text r /\ l' = remove_first line l) \/ (~ is_text r /\ l' = l)).
Proof.
  unfold retry_table. intros H.
  apply bind_returned in H as (name & s1 & H1 & H). apply get_key_returned in H1 as [_ ->].
  apply bind_returned in H as (db & s2 & H2 & H). apply index_returned in H2 as [_ ->].
  apply bind_returned in H as (tb & s3 & H3 & H). apply index_returned in H3 as [_ ->].
  apply bind_returned in H as (r & s4 & Hsub & H).
  apply submit_command_quiet in Hsub as (Hf & t1 & Ht1 & Hq1).
  apply bind_returned in H as ([] & s5 & He & H). unfold emit in He. injection He as <-.
  apply bind_returned in H as (rt & s6 & Hrt & H). apply get_key_returned in Hrt as [Hrt ->].
  exists r. destruct (String.eqb rt "text") eqn:E.
  - apply String.eqb_eq in E. subst rt.
    apply bind_returned in H as ([] & s7 & Ho & H).
    apply open_table_w_returned in Ho as (files & Hdir & Hm & _ & _ & Ht7).
    apply bind_returned in H as (d & s8 & Hd & H). apply get_key_returned in Hd as [_ ->].
    apply bind_returned in H as ([] & s9 & Hw & H).
    eapply write_table_returned in Hw as (_ & _ & _ & Ht9);
      [| rewrite Hm; apply lookup_insert_eq].
    injection H as <- <-.
    exists (t1 ++ [EvRetry role line r; EvOpen (PTable db tb) ModeW]).
    rewrite Ht9, Ht7. simpl. rewrite Ht1, <- !app_assoc. split; [reflexivity|].
    rewrite retries_app, (quiet_retries _ Hq1). split; [reflexivity|]. left. auto.
  - apply bind_returned in H as ([] & s7 & Hl & H). unfold log_msg in Hl. injection Hl as <-.
    injection H as <- <-.
    exists (t1 ++ [EvRetry role line r]). simpl. rewrite Ht1, <- !app_assoc.
    split; [reflexivity|]. rewrite retries_app, (quiet_retries _ Hq1).
    split; [reflexivity|]. right. split; [|reflexivity].
    unfold is_text. rewrite Hrt. intros [= ->]. discriminate E.
Qed.

Lemma remove_first_In (x y : Results) l : In x (remove_first y l) -> In x l.
Proof.
  induction l as [|z l IH]; simpl; [auto|].
  destruct (decide (y = z)); simpl; intuition.
Qed.

Lemma remove_first_other (x y : Results) l : In x l -> x <> y -> In x (remove_first y l).
Proof.
  induction l as [|z l IH]; simpl; [auto|]. intros [-> | Hx] Hne.
  - destruct (decide (y = x)); [congruence | now left].
  - destruct (decide (y = z)); [exact Hx | right; auto].
Qed.

Lemma remove_first_NoDup (y : Results) l : List.NoDup l -> List.NoDup (remove_first y l).
Proof.
  induction 1 as [|z l Hz Hl IH]; simpl; [constructor|].
  destruct (decide (y = z)); [exact Hl|].
  constructor; [|exact IH]. intros H. apply Hz. eapply remove_first_In, H.
Qed.

Lemma remove_first_gone (y : Results) l : List.NoDup l -> ~ In y (remove_first y l).
Proof.
  induction 1 as [|z l Hz Hl IH]; simpl; [auto|].
  destruct (decide (y = z)) as [->|Hne]; [exact Hz|].
  intros [H|H]; [congruence | auto].
Qed.

(** One attempt keeps the invariant of the pass. *)
Lemma pass_ok_step pre l att role line r l' :
  pass_ok pre l att -> In line l ->
  (is_text r /\ l' = remove_first line l) \/ (~ is_text r /\ l' = l) ->
  pass_ok pre l' (att ++ [(role, line, r)]).
Proof.
  intros (Ha & Hb & Hc & Hd) Hin [[Ht ->] | [Ht ->]]; repeat split.
  - intros x Hx. apply Ha. eapply remove_first_In, Hx.
  - now apply remove_first_NoDup.
  - intros x Hx (ro & r' & Hatt & Hr'). apply in_app_iff in Hatt as [Hatt | [[= <- <- <-] | []]].
    + apply (Hc x); [eapply remove_first_In, Hx | eauto].
    + now apply (remove_first_gone line l).
  - intros x Hx Hnx. destruct (decide (x = line)) as [-> | Hne].
    + exists role, r. split; [apply in_app_iff; right; now left | exact Ht].
    + destruct (Hd x Hx) as (ro & r' & Hatt & Hr').
      * intros H. apply Hnx. now apply remove_first_other.
      * exists ro, r'. split; [apply in_app_iff; now left | exact Hr'].
  - exact Ha.
  - exact Hb.
  - intros x Hx (ro & r' & Hatt & Hr'). apply in_app_iff in Hatt as [Hatt | [[= <- <- <-] | []]].
    + apply (Hc x); eauto.
    + contradiction.
  - intros x Hx Hnx. destruct (Hd x Hx Hnx) as (ro & r' & Hatt & Hr').
    exists ro, r'. split; [apply in_app_iff; now left | exact Hr'].
Qed.

(** The loop over the failing list keeps the invariant, wherever the
    iterator stands. *)
Lemma retry_tables_returned fuel cid ec_id role pre n :
  forall i l (st : State World) l' st' att,
    retry_tables n fuel cid ec_id role i l st = (Returned l', st') ->
    pass_ok pre l att ->
    exists t, trace st' = trace st ++ t /\ pass_ok pre l' (att ++ retries t).
Proof.
  induction n as [|n IH]; intros i l st l' st' att Hrun Hok; simpl in Hrun;
    destruct (l !! i) as [line|] eqn:Ei.
  - discriminate Hrun.
  - injection Hrun as <- <-. exists []. now rewrite !app_nil_r.
  - apply bind_returned in Hrun as (l1 & s1 & Hbody & Hrun).
    apply retry_table_returned in Hbody as (r & t1 & Ht1 & Hr1 & Hcase).
    assert (Hin : In line l) by (apply list_elem_of_In; eapply list_elem_of_lookup_2, Ei).
    pose proof (pass_ok_step pre l att role line r l1 Hok Hin Hcase) as Hok1.
    destruct (IH _ _ _ _ _ _ Hrun Hok1) as (t2 & Ht2 & Hok2).
    exists (t1 ++ t2). rewrite Ht2, Ht1, <- app_assoc. split; [reflexivity|].
    now rewrite retries_app, Hr1, app_assoc.
  - injection Hrun as <- <-. exists []. now rewrite !app_nil_r.
Qed.

(** The loop over the roles keeps the invariant. *)
Lemma retry_roles_returned fuel cfg cid pre roles :
  forall l (st : State World) l' st' att,
    retry_roles fuel cfg cid roles l st = (Returned l', st') ->
    pass_ok pre l att ->
    exists t, trace st' = trace st ++ t /\ pass_ok pre l' (att ++ retries t).
Proof.
  induction roles as [|role roles IH]; intros l st l' st' att Hrun Hok; simpl in Hrun.
  - injection Hrun as <- <-. exists []. now rewrite !app_nil_r.
  - apply bind_returned in Hrun as (iam & s1 & H1 & Hrun).
    apply get_key_returned in H1 as [_ ->].
    apply bind_returned in Hrun as ([] & s2 & He & Hrun).
    apply edit_cluster_quiet in He as (_ & t1 & Ht1 & Hq1).
    apply bind_returned in Hrun as (ec & s3 & Hc & Hrun).
    apply get_execution_context_quiet in Hc as (_ & Ht3).
    apply bind_returned in Hrun as (l1 & s4 & Hloop & Hrun).
    destruct (retry_tables_returned _ _ _ _ pre _ _ _ _ _ _ att Hloop Hok) as (t2 & Ht2 & Hok2).
    destruct (IH _ _ _ _ _ Hrun Hok2) as (t3 & Ht4 & Hok3).
    exists (t1 ++ t2 ++ t3). rewrite Ht4, Ht2, Ht3, Ht1, <- !app_assoc.
    split; [reflexivity|].
    rewrite !retries_app, (quiet_retries _ Hq1). simpl. now rewrite app_assoc.
Qed.

End RetryFacts.

(** ** The failure log after a retry pass *)

Section PassFacts.

Context {World : Type} {remote : RemoteApi World}.

Lemma count_opens_quiet (st : State World) : Forall quiet_event (count_opens st).
Proof. unfold count_opens. destruct (failed_log st); repeat constructor. Qed.

Lemma get_num_of_lines_run (st : State World) :
  get_num_of_lines st
  = (Returned (length (default [] (failed_log st))), after st [] (count_opens st)).
Proof.
  unfold get_num_of_lines, after, count_opens, bind, emit, ret.
  destruct st as [w m f p l t]; simpl. destruct f; simpl; now rewrite !app_nil_r.
Qed.

Lemma check_profiles_returned (st : State World) b st' :
  check_if_instance_profiles_exists st = (Returned b, st') ->
  failed_log st' = failed_log st /\
  exists t, trace st' = trace st ++ t /\ Forall quiet_event t.
Proof.
  unfold check_if_instance_profiles_exists, bind, call, emit, ret. simpl.
  destruct (instance_profiles_list (world st)) as [[[|p ps]|] w1]; simpl;
    intros [= <- <-]; (split; [reflexivity|]).
  - exists []. split; [now rewrite app_nil_r | constructor].
  - exists [EvOpen PProfilesLog ModeW]. split; [reflexivity | repeat constructor].
  - exists []. split; [now rewrite app_nil_r | constructor].
Qed.

Lemma read_failed_log_returned (st : State World) lines st' :
  read_failed_log st = (Returned lines, st') ->
  failed_log st = Some lines /\ trace st' = trace st ++ [EvOpen PFailedLog ModeR].
Proof.
  unfold read_failed_log, bind, emit. simpl.
  destruct (failed_log st); intros [= <- <-]; auto.
Qed.

Lemma read_profiles_log_returned (st : State World) lines st' :
  read_profiles_log st = (Returned lines, st') ->
  trace st' = trace st ++ [EvOpen PProfilesLog ModeR].
Proof.
  unfold read_profiles_log, bind, emit. simpl.
  destruct (profiles_log st); intros [= <- <-]; auto.
Qed.

Lemma rewrite_failed_log_returned lines (st : State World) st' :
  rewrite_failed_log lines st = (Returned tt, st') ->
  failed_log st' = Some lines /\ trace st' = trace st ++ [EvOpen PFailedLog ModeW].
Proof.
  unfold rewrite_failed_log, bind, emit. simpl.
  destruct (failed_log st); intros [= <-]; auto.
Qed.

(** The invariant of the pass gives the invariant of the log. *)
Lemma pass_ok_invariant pre post (t : list Event) :
  pass_ok pre post (retries t) -> failure_log_invariant pre post t.
Proof.
  intros (Ha & _ & Hc & Hd). split.
  - intros line Hin. split; [now apply Ha | now apply Hc].
  - intros line Hn. destruct (In_dec Results_eq_dec line pre) as [Hin | Hout].
    + right. now apply Hd.
    + now left.
Qed.

Lemma pass_ok_start pre : List.NoDup pre -> pass_ok pre pre [].
Proof.
  intros Hnd. repeat split; auto.
  - intros x _ (ro & r & [] & _).
  - intros x Hx Hn. contradiction.
Qed.

End PassFacts.




Section RetryFuel.

Context {World : Type} {remote : RemoteApi World}.

Lemma remove_first_length (y : Results) l : (length (remove_first y l) <= length l)%nat.
Proof.
  induction l as [|z l IH]; simpl; [lia|]. destruct (decide (y = z)); simpl; lia.
Qed.

(** The bound [length err_log_list] on the steps of the loop over the
    failing list is never the reason the loop stops: any larger bound gives
    the same run. *)
Lemma retry_tables_fuel_enough fuel cid ec_id role n :
  forall m i l (st : State World),
    (length l <= n + i)%nat -> (n <= m)%nat ->
    retry_tables m fuel cid ec_id role i l st = retry_tables n fuel cid ec_id role i l st.
Proof.
  induction n as [|n IH]; intros m i l st Hlen Hm.
  - destruct m; simpl; destruct (l !! i) eqn:Ei; try reflexivity;
      apply lookup_lt_Some in Ei; lia.
  - destruct m as [|m]; [lia|]. simpl. destruct (l !! i) as [line|] eqn:Ei; [|reflexivity].
    unfold bind.
    destruct (retry_table fuel cid ec_id role line l st) as [[l1|e|] s1] eqn:Eb;
      try reflexivity.
    apply IH; [|lia].
    apply retry_table_returned in Eb as (r & t & _ & _ & [[_ ->] | [_ ->]]).
    + pose proof (remove_first_length line l).
      assert (In line l) as Hin by (apply list_elem_of_In; eapply list_elem_of_lookup_2, Ei).
      assert (length (remove_first line l) < length l)%nat; [|lia].
      clear -Hin. induction l as [|z l IHl]; simpl in *; [contradiction|].
      destruct (decide (line = z)); simpl; [lia|].
      destruct Hin as [->|Hin]; [congruence|]. specialize (IHl Hin). lia.
    + lia.
Qed.

End RetryFuel.

(** ** The files a crawl leaves behind *)

Section CrawlFacts.

Context {World : Type} {remote : RemoteApi World} {py : PyLib}.

Lemma eval_names_returned r (st : State World) names st' :
  eval_names r st = (Returned names, st') -> st' = st.
Proof.
  unfold eval_names. intros H. apply bind_returned in H as (d & s1 & Hd & H).
  apply get_key_returned in Hd as [_ ->].
  destruct (literal_eval_names d); [|discriminate H]. now injection H as <- <-.
Qed.

Lemma eval_int_returned r (st : State World) n st' :
  eval_int r st = (Returned n, st') -> st' = st.
Proof.
  unfold eval_int. intros H. apply bind_returned in H as (d & s1 & Hd & H).
  apply get_key_returned in Hd as [_ ->].
  destruct (literal_eval_int d); [|discriminate H]. now injection H as <- <-.
Qed.

(** Steps that add no answer, keep [metastore/] and keep the lines of the
    failure log keep what the crawl has left behind. *)
Lemma crawl_ok_quiet db (st st' : State World) t t1 :
  crawl_ok db st t ->
  metastore st' = metastore st ->
  (forall lines, failed_log st = Some lines -> failed_log st' = Some lines) ->
  Forall quiet_event t1 ->
  crawl_ok db st' (t ++ t1).
Proof.
  intros Hok Hm Hfl Hq tb r Hin Hr.
  rewrite extracts_app, (quiet_extracts _ Hq), app_nil_r in Hin.
  destruct (Hok tb r Hin Hr) as ((files & Hdir & Hex & Hempty) & (lines & Hl & Hline)).
  split.
  - exists files. rewrite Hm. repeat split; auto.
    intros Hall. apply Hempty. intros r' Hr'. apply Hall.
    now rewrite extracts_app, (quiet_extracts _ Hq), app_nil_r.
  - exists lines. auto.
Qed.

(** What a returning run of the loop body did. *)
Lemma extract_table_returned fuel db cid ec_id tb (st : State World) st' :
  extract_table fuel db cid ec_id tb st = (Returned tt, st') ->
  exists r t1 files files',
    trace st' = trace st ++ t1 /\ extracts t1 = [(db, tb, r)] /\
    metastore st !! db = Some (EDir files) /\
    metastore st' !! db = Some (EDir files') /\
    (forall x, x <> tb -> files' !! x = files !! x) /\
    ((is_text r /\ (exists d, files' !! tb = Some d) /\ failed_log st' = failed_log st) \/
     (~ is_text r /\ files' !! tb = Some EmptyString /\
      failed_log st' = Some (default [] (failed_log st) ++ [with_table r db tb]))).
Proof.
  unfold extract_table. intros H.
  apply bind_returned in H as ([] & s1 & Hl & H). unfold log_msg in Hl. injection Hl as <-.
  apply bind_returned in H as (r & s2 & Hsub & H).
  apply submit_command_quiet in Hsub as ((Hm2 & Hf2 & _) & t2 & Ht2 & Hq2).
  simpl in Hm2, Hf2, Ht2.
  apply bind_returned in H as ([] & s3 & He & H). unfold emit in He. injection He as <-.
  apply bind_returned in H as ([] & s4 & Ho & H).
  apply open_table_w_returned in Ho as (files & Hdir & Hm4 & Hf4 & _ & Ht4).
  simpl in Hdir, Hm4, Hf4, Ht4. rewrite Hm2 in Hdir, Hm4.
  apply bind_returned in H as (rt & s5 & Hrt & H). apply get_key_returned in Hrt as [Hrt ->].
  exists r, (t2 ++ [EvExtract db tb r; EvOpen (PTable db tb) ModeW]), files.
  destruct (String.eqb rt "text") eqn:E.
  - apply String.eqb_eq in E. subst rt.
    apply bind_returned in H as (d & s6 & Hd & H). apply get_key_returned in Hd as [_ ->].
    eapply write_table_returned in H as (Hm7 & Hf7 & _ & Ht7);
      [| rewrite Hm4; apply lookup_insert_eq].
    exists (<[tb := d]> (<[tb := EmptyString]> files)).
    rewrite Ht7, Ht4, Ht2, <- !app_assoc. split; [reflexivity|].
    rewrite extracts_app, (quiet_extracts _ Hq2). split; [reflexivity|].
    split; [exact Hdir|]. rewrite Hm7. split; [apply lookup_insert_eq|].
    split; [intros x Hx; now rewrite !lookup_insert_ne by congruence|].
    left. repeat split; [exact Hrt | eexists; apply lookup_insert_eq | congruence].
  - unfold append_failed_log in H. injection H as <-. simpl.
    exists (<[tb := EmptyString]> files).
    rewrite Ht4, Ht2, <- !app_assoc. split; [reflexivity|].
    rewrite extracts_app, (quiet_extracts _ Hq2). split; [reflexivity|].
    split; [exact Hdir|]. rewrite Hm4. split; [apply lookup_insert_eq|].
    split; [intros x Hx; now rewrite lookup_insert_ne by congruence|].
    right. repeat split; [| apply lookup_insert_eq | now rewrite Hf4, Hf2].
    unfold is_text. rewrite Hrt. intros [= ->]. discriminate E.
Qed.

End CrawlFacts.

Section CrawlLoop.

Context {World : Type} {remote : RemoteApi World} {py : PyLib}.

(** The loop body keeps what the crawl has left behind, and adds its own. *)
Lemma crawl_ok_extract fuel db cid ec_id tb (st st' : State World) t :
  crawl_ok db st t ->
  extract_table fuel db cid ec_id tb st = (Returned tt, st') ->
  exists t1, trace st' = trace st ++ t1 /\ crawl_ok db st' (t ++ t1).
Proof.
  intros Hok Hrun.
  apply extract_table_returned in Hrun
    as (r0 & t1 & files & files' & Ht & Hex & Hdir & Hdir' & Hother & Hcase).
  exists t1. split; [exact Ht|].
  assert (Hfl : forall lines, failed_log st = Some lines ->
                  exists lines', failed_log st' = Some lines' /\ incl lines lines').
  { intros lines Hl. destruct Hcase as [(_ & _ & Hf) | (_ & _ & Hf)].
    - exists lines. split; [congruence | apply incl_refl].
    - rewrite Hl in Hf. simpl in Hf. eexists. split; [exact Hf | now apply incl_appl]. }
  assert (Hhere : exists content, files' !! tb = Some content).
  { destruct Hcase as [(_ & Hd & _) | (_ & He & _)]; eauto. }
  intros tb1 r Hin Hr. rewrite extracts_app, Hex in Hin.
  apply in_app_iff in Hin as [Hin | [[= <- <-] | []]].
  - destruct (Hok tb1 r Hin Hr) as ((fs & Hd & Hc & Hempty) & (lines & Hl & Hline)).
    assert (fs = files) as -> by congruence.
    split.
    + exists files'. split; [exact Hdir'|]. split.
      * destruct (decide (tb1 = tb)) as [-> | Hne]; [exact Hhere|].
        now rewrite Hother.
      * intros Hall. destruct (decide (tb1 = tb)) as [-> | Hne].
        -- destruct Hcase as [(Htext & _) | (_ & He & _)]; [|exact He].
           exfalso. apply (Hall r0); [|exact Htext].
           rewrite extracts_app, Hex. apply in_app_iff. right. now left.
        -- rewrite Hother by exact Hne. apply Hempty. intros r' Hr'. apply Hall.
           rewrite extracts_app. apply in_app_iff. now left.
    + destruct (Hfl lines Hl) as (lines' & Hl' & Hincl). exists lines'. auto.
  - destruct Hcase as [(Htext & _) | (_ & He & Hf)]; [contradiction|].
    split.
    + exists files'. repeat split; eauto.
    + eexists. split; [exact Hf|]. apply in_app_iff. right. now left.
Qed.

Lemma crawled_quiet db (st0 st st' : State World) t1 :
  crawled db st0 st ->
  metastore st' = metastore st ->
  (forall lines, failed_log st = Some lines -> failed_log st' = Some lines) ->
  trace st' = trace st ++ t1 -> Forall quiet_event t1 ->
  crawled db st0 st'.
Proof.
  intros (t & Ht & Hok) Hm Hf Ht1 Hq. exists (t ++ t1).
  split; [now rewrite Ht1, Ht, app_assoc|].
  eapply crawl_ok_quiet; eauto.
Qed.

Lemma crawled_bucket fuel db cid ec_id (st0 : State World) m st st' :
  crawled db st0 st ->
  table_bucket fuel db cid ec_id m st = (Returned tt, st') ->
  crawled db st0 st'.
Proof.
  intros Hc Hrun. unfold table_bucket in Hrun.
  destruct (Pagination.slice_bounds m) as [lo hi].
  apply bind_returned in Hrun as (r & s1 & Hsub & Hrun).
  apply submit_command_quiet in Hsub as ((Hm1 & Hf1 & _) & t1 & Ht1 & Hq1).
  apply bind_returned in Hrun as (names & s2 & Hn & Hrun).
  apply eval_names_returned in Hn as ->.
  eapply (for_each_invariant (crawled db st0)); [| | exact Hrun].
  - intros tb s s' _ (t & Ht & Hok) Hbody.
    destruct (crawl_ok_extract _ _ _ _ _ _ _ _ Hok Hbody) as (t2 & Ht2 & Hok2).
    exists (t ++ t2). split; [now rewrite Ht2, Ht, app_assoc | exact Hok2].
  - eapply crawled_quiet; eauto. intros lines Hl. congruence.
Qed.

End CrawlLoop.


(** The crawl of the database [d] whose only table cannot be extracted:
    the file of the table is there and empty, and the failure log has the
    answer with the table's name. *)
Example crawl_of_denied_table :
  let run := log_all_tables (remote := Script.api Examples.ddl_denied) (py := Script.pylib)
               3 "d" "cid-1" "ctx-1" (Script.start Examples.one_db None None) in
  fst run = Returned true /\
  metastore (snd run) !! "d" = Some (EDir {[ "t1" := EmptyString ]}) /\
  failed_log (snd run) = Some [with_table (Script.error "denied") "d" "t1"].
Proof.
  split; [vm_compute; reflexivity|].
  split; vm_compute; reflexivity.
Qed.


(* ===================================================================== *)
(** * Further properties *)
(* ===================================================================== *)

(** ** The command executor *)

(** X1: [submit_command] asks for the status once more after every answer
    that is [Running] or [Queued] and stops at the first answer with any
    other status, whatever it is called; it returns the results of that
    answer, leaves the local files alone, logs only a missing command id and
    an error summary, and has then asked exactly [k + 1] times. *)
Theorem X1_submit_polls_until_terminal {World : Type} {remote : RemoteApi World}
    (fuel k : nat) (cid ec_id cmd : string) (st : State World)
    (com_id : option string) (w1 : World) (r : Results) (w2 : World)
    (Hexec : commands_execute cid ec_id cmd (world st) = (com_id, w1))
    (Hterm : terminal_in cid ec_id com_id k w1 r w2)
    (Hfuel : (k <= fuel)%nat) :
  exists st',
    submit_command fuel cid ec_id cmd st = (Returned r, st') /\
    world st' = w2 /\ same_files st st' /\
    log st' = log st ++ submit_logs com_id r /\
    trace st' = trace st ++ EvSubmit cid ec_id cmd :: repeat (EvPoll com_id) (S k).
Proof.
  exact (submit_command_returns fuel k cid ec_id cmd st com_id w1 r w2 Hexec Hterm Hfuel).
Qed.

(** X1 on a statement that runs for two polls and is then cancelled. *)
Lemma X1_submit_polls_until_terminal_witness :
  exists st',
    submit_command (remote := Script.api MoreExamples.cancelled) 4 "cid-1" "ctx-1" "print(1)"
      (Script.start ∅ None None) = (Returned (Script.text "partial"), st') /\
    trace st' = [EvSubmit "cid-1" "ctx-1" "print(1)";
                 EvPoll (Some "cmd-1"); EvPoll (Some "cmd-1"); EvPoll (Some "cmd-1")].
Proof.
  edestruct (X1_submit_polls_until_terminal (remote := Script.api MoreExamples.cancelled)
               4 2 "cid-1" "ctx-1" "print(1)" (Script.start ∅ None None)
               (Some "cmd-1") (Script.mkWorld "default" "print(1)" 0)
               (Script.text "partial") (Script.mkWorld "default" "print(1)" 3))
    as (st' & Hrun & _ & _ & _ & Ht).
  - reflexivity.
  - eapply terminal_later; [reflexivity | reflexivity | reflexivity |].
    eapply terminal_later; [reflexivity | reflexivity | reflexivity |].
    eapply terminal_now; reflexivity.
  - lia.
  - exists st'. split; [exact Hrun | exact Ht].
Defined.

(** X2: a first status answer without the key [status] makes
    [submit_command] raise [KeyError('status')] after that one request; a
    first answer whose status is terminal but which has no [results] makes
    it raise [KeyError('results')].  In both cases the local files are
    untouched. *)
Theorem X2_submit_missing_key {World : Type} {remote : RemoteApi World}
    (fuel : nat) (cid ec_id cmd : string) (st : State World)
    (com_id : option string) (w1 : World) (resp : StatusResp) (w2 : World)
    (Hexec : commands_execute cid ec_id cmd (world st) = (com_id, w1))
    (Hstat : commands_status cid ec_id com_id w1 = (resp, w2))
    (Hbad : status resp = None \/
            exists s, status resp = Some s /\ still_running s = false /\
                      results resp = None) :
  exists st',
    submit_command fuel cid ec_id cmd st
    = (Raised (KeyError (match status resp with None => "status" | Some _ => "results" end)),
       st') /\
    world st' = w2 /\ same_files st st' /\
    trace st' = trace st ++ [EvSubmit cid ec_id cmd; EvPoll com_id].
Proof.
  unfold submit_command, await_results, bind, emit, call, when, log_msg, get_key, ret, raise.
  simpl. rewrite Hexec. simpl.
  destruct Hbad as [Hs | (s & Hs & Hr & Hres)].
  - destruct (truthy com_id); simpl; rewrite Hstat; simpl; rewrite Hs; simpl;
      eexists; (split; [reflexivity|]); repeat split; simpl;
      rewrite <- ?app_assoc; reflexivity.
  - destruct (truthy com_id); simpl; rewrite Hstat; simpl; rewrite Hs; simpl;
      (destruct fuel; simpl; rewrite Hr; simpl; rewrite Hres; simpl;
       eexists; (split; [reflexivity|]); repeat split; simpl;
       rewrite <- ?app_assoc; reflexivity).
Qed.

(** X2 on a service whose status answers carry no status. *)
Lemma X2_submit_missing_key_witness :
  fst (submit_command (remote := Script.api MoreExamples.no_status) 4 "cid-1" "ctx-1"
         "print(1)" (Script.start ∅ None None))
  = Raised (KeyError "status").
Proof.
  edestruct (X2_submit_missing_key (remote := Script.api MoreExamples.no_status)
               4 "cid-1" "ctx-1" "print(1)" (Script.start ∅ None None)
               (Some "cmd-1") (Script.mkWorld "default" "print(1)" 0)
               (mkStatusResp None None) (Script.mkWorld "default" "print(1)" 1))
    as (st' & Hrun & _).
  - reflexivity.
  - reflexivity.
  - left. reflexivity.
  - rewrite Hrun. reflexivity.
Defined.

(** X3: whatever the service answers and however the call ends (return,
    exception, or still polling), [submit_command] changes no local file,
    only adds lines to the process log, and its part of the trace is the
    submission, a first status request with the command id the service
    handed out, and further status requests. *)
Theorem X3_submit_touches_no_file {World : Type} {remote : RemoteApi World}
    (fuel : nat) (cid ec_id cmd : string) (st : State World) :
  let com_id := fst (commands_execute cid ec_id cmd (world st)) in
  let st' := snd (submit_command fuel cid ec_id cmd st) in
  same_files st st' /\
  (exists l, log st' = log st ++ l) /\
  exists t, trace st' = trace st ++ EvSubmit cid ec_id cmd :: EvPoll com_id :: t /\
            Forall is_poll t.
Proof.
  intros com_id st'.
  destruct (submit_command_frame fuel cid ec_id cmd st) as (Hf & (l & Hl) & Ht).
  split; [exact Hf|]. split; [|exact Ht].
  eexists. exact Hl.
Qed.

(** ** What a run leaves untouched *)

Section FrameFacts.

Context {World : Type} {remote : RemoteApi World}.

Variable R : State World -> State World -> Prop.
Hypothesis R_refl : forall st, R st st.
Hypothesis R_trans : forall s1 s2 s3, R s1 s2 -> R s2 s3 -> R s1 s3.

Lemma frames_bind {A B} (m : M World A) (k : A -> M World B) :
  frames R m -> (forall a, frames R (k a)) -> frames R (bind m k).
Proof.
  intros Hm Hk st. unfold bind. specialize (Hm st).
  destruct (m st) as [[a|e|] s1]; simpl in *; auto.
  eapply R_trans; [exact Hm | apply Hk].
Qed.

Lemma frames_ret {A} (a : A) : frames R (ret a).
Proof. intros st. apply R_refl. Qed.

Lemma frames_raise {A} e : frames R (@raise World A e).
Proof. intros st. apply R_refl. Qed.

Lemma frames_get_key {A} key (o : option A) : frames R (get_key key o).
Proof. destruct o; [apply frames_ret | apply frames_raise]. Qed.

Lemma frames_index {A} (l : list A) i : frames R (index l i).
Proof. unfold index. destruct (l !! i); [apply frames_ret | apply frames_raise]. Qed.

Lemma frames_for_each {A} (l : list A) (body : A -> M World unit) :
  (forall x, frames R (body x)) -> frames R (for_each l body).
Proof.
  intros Hb. induction l as [|x l IH]; simpl; [apply frames_ret|].
  apply frames_bind; [apply Hb | intros _; exact IH].
Qed.

Lemma returns_or_bind {A B} (m : M World A) (k : A -> M World B) :
  frames R m -> (forall a, returns_or R (k a)) -> returns_or R (bind m k).
Proof.
  intros Hm Hk st. unfold bind. specialize (Hm st).
  destruct (m st) as [[a|e|] s1]; simpl in *; auto.
  destruct (Hk a s1) as [Hd | Hr]; [now left | right].
  eapply R_trans; [exact Hm | exact Hr].
Qed.

Lemma returns_or_frames {A} (m : M World A) : frames R m -> returns_or R m.
Proof. intros Hm st. right. apply Hm. Qed.

End FrameFacts.

Section FilesFrames.

Context {World : Type} {remote : RemoteApi World}.

Variable R : State World -> State World -> Prop.
Hypothesis R_files : forall st st', same_files st st' -> R st st'.

Lemma frames_log_msg m : frames R (@log_msg World m).
Proof. intros st. apply R_files. repeat split. Qed.

Lemma frames_emit ev : frames R (@emit World ev).
Proof. intros st. apply R_files. repeat split. Qed.

Lemma frames_call {A} (op : World -> A * World) : frames R (call op).
Proof.
  intros st. unfold call. destruct (op (world st)). apply R_files. repeat split.
Qed.

Lemma frames_call_out {A} (op : World -> Outcome A * World) : frames R (call_out op).
Proof.
  intros st. unfold call_out. destruct (op (world st)). apply R_files. repeat split.
Qed.

Lemma frames_submit_command fuel cid ec_id cmd :
  frames R (submit_command fuel cid ec_id cmd).
Proof.
  intros st. apply R_files. apply (submit_command_frame fuel cid ec_id cmd st).
Qed.

Lemma frames_get_execution_context cid : frames R (get_execution_context cid).
Proof.
  intros st. apply R_files.
  destruct (get_execution_context cid st) as [o st'] eqn:E.
  apply (get_execution_context_quiet _ _ _ _ E).
Qed.

Lemma frames_edit_cluster cfg cid role : frames R (edit_cluster cfg cid role).
Proof.
  intros st. apply R_files.
  destruct (edit_cluster cfg cid role st) as [o st'] eqn:E.
  apply (edit_cluster_quiet _ _ _ _ _ _ E).
Qed.

Lemma frames_get_num_of_lines : frames R (@get_num_of_lines World).
Proof.
  intros st. rewrite get_num_of_lines_run. apply R_files. repeat split.
Qed.

Lemma frames_read_table db t : frames R (@read_table World db t).
Proof.
  intros st. apply R_files. unfold read_table, bind, emit. simpl.
  destruct (metastore st !! db) as [[c|files]|]; simpl; [repeat split | | repeat split].
  destruct (files !! t); repeat split.
Qed.

End FilesFrames.

Section ImportFrames.

Context {World : Type} {remote : RemoteApi World}.

Lemma sf_id (st st' : State World) : same_files st st' -> same_files st st'.
Proof. auto. Qed.

Lemma import_entry_same_files fuel ec_id cid db :
  frames same_files (import_entry (World := World) fuel ec_id cid db).
Proof.
  pose proof (@same_files_refl World) as Hr. pose proof (@same_files_trans World) as Ht.
  pose proof sf_id as Hf.
  unfold import_entry, create_database_db, apply_table_ddl.
  apply frames_bind; [exact Ht | apply frames_submit_command; exact Hf |].
  intros _ st. destruct (metastore st !! db) as [[c|files]|].
  - apply frames_log_msg; exact Hf.
  - apply frames_for_each; [exact Hr | exact Ht |]. intros x.
    apply frames_bind; [exact Ht | apply frames_log_msg; exact Hf |].
    intros _. apply frames_bind; [exact Ht | | intros r; apply frames_log_msg; exact Hf].
    apply frames_bind; [exact Ht | apply frames_read_table; exact Hf |].
    intros ddl. apply frames_submit_command; exact Hf.
  - apply frames_log_msg; exact Hf.
Qed.

End ImportFrames.

(** X4: the import only reads the export directory: however a run of
    [import_hive_metastore] ends, [metastore/] and the two logs are exactly
    as before. *)
Theorem X4_import_reads_only {World : Type} {remote : RemoteApi World}
    (fuel : nat) (st : State World) :
  same_files st (snd (import_hive_metastore fuel st)).
Proof.
  revert st. change (frames same_files (import_hive_metastore (World := World) fuel)).
  unfold import_hive_metastore, launch_cluster.
  pose proof (@same_files_refl World) as Hr. pose proof (@same_files_trans World) as Ht.
  pose proof (@sf_id World) as Hf.
  apply frames_bind; [exact Ht | apply frames_call_out; exact Hf |].
  intros cid. apply frames_bind; [exact Ht | apply frames_get_execution_context; exact Hf |].
  intros ec_id. apply frames_bind; [exact Ht | intros st; apply Hr |].
  intros db_list. apply frames_for_each; [exact Hr | exact Ht |].
  intros db. apply import_entry_same_files.
Qed.

Section RetryFrames.

Context {World : Type} {remote : RemoteApi World}.

Lemma kf_refl (st : State World) : keeps_failed_log st st.
Proof. reflexivity. Qed.

Lemma kf_trans (s1 s2 s3 : State World) :
  keeps_failed_log s1 s2 -> keeps_failed_log s2 s3 -> keeps_failed_log s1 s3.
Proof. unfold keeps_failed_log. congruence. Qed.

Lemma kf_files (st st' : State World) : same_files st st' -> keeps_failed_log st st'.
Proof. intros (_ & H & _). exact H. Qed.

Lemma frames_open_table_w db t : frames keeps_failed_log (@open_table_w World db t).
Proof.
  intros st. unfold open_table_w, bind, emit. simpl.
  destruct (metastore st !! db) as [[c|files]|]; reflexivity.
Qed.

Lemma frames_write_table db t d : frames keeps_failed_log (@write_table World db t d).
Proof.
  intros st. unfold write_table. destruct (metastore st !! db) as [[c|files]|]; reflexivity.
Qed.

Lemma retry_table_keeps_log fuel cid ec_id role line l :
  frames keeps_failed_log (retry_table (World := World) fuel cid ec_id role line l).
Proof.
  pose proof kf_refl as Hr. pose proof kf_trans as Ht. pose proof kf_files as Hf.
  unfold retry_table.
  apply frames_bind; [exact Ht | apply frames_get_key; exact Hr |].
  intros name. apply frames_bind; [exact Ht | apply frames_index; exact Hr |].
  intros db. apply frames_bind; [exact Ht | apply frames_index; exact Hr |].
  intros tb. apply frames_bind; [exact Ht | apply frames_submit_command; exact Hf |].
  intros r. apply frames_bind; [exact Ht | apply frames_emit; exact Hf |].
  intros _. apply frames_bind; [exact Ht | apply frames_get_key; exact Hr |].
  intros rt. destruct (String.eqb rt "text").
  - apply frames_bind; [exact Ht | apply frames_open_table_w |].
    intros _. apply frames_bind; [exact Ht | apply frames_get_key; exact Hr |].
    intros d. apply frames_bind; [exact Ht | apply frames_write_table |].
    intros _. apply frames_ret; exact Hr.
  - apply frames_bind; [exact Ht | apply frames_log_msg; exact Hf |].
    intros _. apply frames_ret; exact Hr.
Qed.

Lemma retry_tables_keeps_log fuel cid ec_id role n :
  forall i l, frames keeps_failed_log (retry_tables (World := World) n fuel cid ec_id role i l).
Proof.
  induction n as [|n IH]; intros i l; simpl; destruct (l !! i); try (intros st; reflexivity).
  apply frames_bind; [exact kf_trans | apply retry_table_keeps_log | intros l'; apply IH].
Qed.

Lemma retry_roles_keeps_log fuel cfg cid roles :
  forall l, frames keeps_failed_log (retry_roles (World := World) fuel cfg cid roles l).
Proof.
  pose proof kf_refl as Hr. pose proof kf_trans as Ht. pose proof kf_files as Hf.
  induction roles as [|role roles IH]; intros l; simpl; [intros st; reflexivity|].
  apply frames_bind; [exact Ht | apply frames_get_key; exact Hr |].
  intros iam. apply frames_bind; [exact Ht | apply frames_edit_cluster; exact Hf |].
  intros _. apply frames_bind; [exact Ht | apply frames_get_execution_context; exact Hf |].
  intros ec. apply frames_bind; [exact Ht | apply retry_tables_keeps_log | intros l'; apply IH].
Qed.

Lemma check_profiles_keeps_log :
  frames keeps_failed_log (check_if_instance_profiles_exists (World := World)).
Proof.
  intros st. unfold check_if_instance_profiles_exists, bind, call, emit, ret. simpl.
  destruct (instance_profiles_list (world st)) as [[[|p ps]|] w1]; reflexivity.
Qed.

Lemma read_failed_log_keeps_log : frames keeps_failed_log (@read_failed_log World).
Proof.
  intros st. unfold read_failed_log, bind, emit, keeps_failed_log. simpl.
  destruct (failed_log st) eqn:E; simpl; congruence.
Qed.

Lemma read_profiles_log_keeps_log : frames keeps_failed_log (@read_profiles_log World).
Proof.
  intros st. unfold read_profiles_log, bind, emit. simpl.
  destruct (profiles_log st); reflexivity.
Qed.

(** The retry either returns or leaves the failure log as it was. *)
Lemma retry_returns_or_keeps_log fuel cfg cid :
  returns_or keeps_failed_log (retry_failed_metastore_export (World := World) fuel cfg cid).
Proof.
  pose proof kf_refl as Hr. pose proof kf_trans as Ht. pose proof kf_files as Hf.
  unfold retry_failed_metastore_export.
  apply returns_or_bind; [exact Ht | |].
  { destruct (is_aws cfg); [|apply frames_ret; exact Hr].
    apply frames_bind;
      [exact Ht | apply check_profiles_keeps_log | intros b; apply frames_ret; exact Hr]. }
  intros flag. apply returns_or_bind; [exact Ht | apply frames_get_num_of_lines; exact Hf |].
  intros total. destruct flag as [[|]|].
  - apply returns_or_bind; [exact Ht | apply frames_log_msg; exact Hf |].
    intros _. apply returns_or_bind; [exact Ht | apply read_failed_log_keeps_log |].
    intros lines. apply returns_or_bind; [exact Ht | apply read_profiles_log_keeps_log |].
    intros roles. apply returns_or_bind; [exact Ht | apply retry_roles_keeps_log |].
    intros l' st. unfold rewrite_failed_log, bind, emit, get_num_of_lines, log_msg, ret.
    simpl. destruct (failed_log st); simpl; [left; eauto | right; reflexivity].
  - apply returns_or_frames. apply frames_log_msg; exact Hf.
  - apply returns_or_frames. apply frames_raise; exact Hr.
Qed.

End RetryFrames.

(** X5: the failure log is rewritten only by a retry that runs to its end:
    when [retry_failed_metastore_export] raises, whether before the pass, in
    the middle of it (a profile without ARN, a session that cannot be opened,
    an answer without result type, a missing database directory) or because
    the log itself is missing, [failed_metastore.log] is exactly as it was,
    even for the tables whose DDL the pass has already written. *)
Theorem X5_retry_keeps_log_unless_complete {World : Type} {remote : RemoteApi World}
    (fuel : nat) (cfg : Config) (cid : string) (st : State World)
    (Hnot : fst (retry_failed_metastore_export fuel cfg cid st) <> Returned tt) :
  failed_log (snd (retry_failed_metastore_export fuel cfg cid st)) = failed_log st.
Proof.
  destruct (retry_returns_or_keeps_log fuel cfg cid st) as [[[] Hd] | Hk].
  - contradiction.
  - exact Hk.
Qed.

(** X5 on a pass whose first profile has no ARN. *)
Lemma X5_retry_keeps_log_unless_complete_witness :
  let st := Script.start Examples.one_db (Some [Examples.failed_line "d.t1"]) None in
  failed_log (snd (retry_failed_metastore_export
                     (remote := Script.api MoreExamples2.profile_without_arn) 3
                     (mkConfig true false) "cid-1" st))
  = Some [Examples.failed_line "d.t1"].
Proof.
  intros st.
  apply (X5_retry_keeps_log_unless_complete
           (remote := Script.api MoreExamples2.profile_without_arn) 3
           (mkConfig true false) "cid-1" st).
  vm_compute. discriminate.
Defined.

(** ** The failing list during a pass, for any log *)

Section PassInvariant.

Context {World : Type} {remote : RemoteApi World}.

Variable I : list Results -> list (string * Results * Results) -> Prop.
Hypothesis I_step : forall l att role line r l',
  I l att -> In line l ->
  (is_text r /\ l' = remove_first line l) \/ (~ is_text r /\ l' = l) ->
  I l' (att ++ [(role, line, r)]).

Lemma retry_tables_invariant fuel cid ec_id role n :
  forall i l (st : State World) l' st' att,
    retry_tables n fuel cid ec_id role i l st = (Returned l', st') ->
    I l att ->
    exists t, trace st' = trace st ++ t /\ I l' (att ++ retries t).
Proof.
  induction n as [|n IH]; intros i l st l' st' att Hrun Hok; simpl in Hrun;
    destruct (l !! i) as [line|] eqn:Ei.
  - discriminate Hrun.
  - injection Hrun as <- <-. exists []. now rewrite !app_nil_r.
  - apply bind_returned in Hrun as (l1 & s1 & Hbody & Hrun).
    apply retry_table_returned in Hbody as (r & t1 & Ht1 & Hr1 & Hcase).
    assert (Hin : In line l) by (apply list_elem_of_In; eapply list_elem_of_lookup_2, Ei).
    pose proof (I_step l att role line r l1 Hok Hin Hcase) as Hok1.
    destruct (IH _ _ _ _ _ _ Hrun Hok1) as (t2 & Ht2 & Hok2).
    exists (t1 ++ t2). rewrite Ht2, Ht1, <- app_assoc. split; [reflexivity|].
    now rewrite retries_app, Hr1, app_assoc.
  - injection Hrun as <- <-. exists []. now rewrite !app_nil_r.
Qed.

Lemma retry_roles_invariant fuel cfg cid roles :
  forall l (st : State World) l' st' att,
    retry_roles fuel cfg cid roles l st = (Returned l', st') ->
    I l att ->
    exists t, trace st' = trace st ++ t /\ I l' (att ++ retries t).
Proof.
  induction roles as [|role roles IH]; intros l st l' st' att Hrun Hok; simpl in Hrun.
  - injection Hrun as <- <-. exists []. now rewrite !app_nil_r.
  - apply bind_returned in Hrun as (iam & s1 & H1 & Hrun).
    apply get_key_returned in H1 as [_ ->].
    apply bind_returned in Hrun as ([] & s2 & He & Hrun).
    apply edit_cluster_quiet in He as (_ & t1 & Ht1 & Hq1).
    apply bind_returned in Hrun as (ec & s3 & Hc & Hrun).
    apply get_execution_context_quiet in Hc as (_ & Ht3).
    apply bind_returned in Hrun as (l1 & s4 & Hloop & Hrun).
    destruct (retry_tables_invariant _ _ _ _ _ _ _ _ _ _ att Hloop Hok) as (t2 & Ht2 & Hok2).
    destruct (IH _ _ _ _ _ Hrun Hok2) as (t3 & Ht4 & Hok3).
    exists (t1 ++ t2 ++ t3). rewrite Ht4, Ht2, Ht3, Ht1, <- !app_assoc.
    split; [reflexivity|].
    rewrite !retries_app, (quiet_retries _ Hq1). simpl. now rewrite app_assoc.
Qed.

(** A returning retry leaves a log that the invariant relates to the
    attempts of the run. *)
Lemma retry_pass_invariant fuel cfg cid (st st' : State World) pre :
  failed_log st = Some pre -> I pre [] ->
  retry_failed_metastore_export fuel cfg cid st = (Returned tt, st') ->
  exists post t,
    failed_log st' = Some post /\ trace st' = trace st ++ t /\ I post (retries t).
Proof.
  intros Hpre Hstart Hrun. unfold retry_failed_metastore_export in Hrun.
  apply bind_returned in Hrun as (flag & s1 & Hflag & Hrun).
  destruct (is_aws cfg).
  2:{ injection Hflag as <- <-. rewrite (bind_run _ _ _ _ _ (get_num_of_lines_run st)) in Hrun.
      discriminate Hrun. }
  apply bind_returned in Hflag as (b & s0 & Hchk & Hret). injection Hret as <- <-.
  apply check_profiles_returned in Hchk as (Hf0 & t0 & Ht0 & Hq0).
  rewrite (bind_run _ _ _ _ _ (get_num_of_lines_run s0)) in Hrun.
  destruct b.
  - apply bind_returned in Hrun as ([] & s2 & Hl & Hrun). unfold log_msg in Hl.
    injection Hl as <-.
    apply bind_returned in Hrun as (lines & s3 & Hread & Hrun).
    apply read_failed_log_returned in Hread as (Hlines & Ht3). simpl in Hlines, Ht3.
    assert (lines = pre) as -> by congruence.
    apply bind_returned in Hrun as (roles & s4 & Hp & Hrun).
    apply read_profiles_log_returned in Hp as Ht4.
    apply bind_returned in Hrun as (post & s5 & Hroles & Hrun).
    destruct (retry_roles_invariant _ _ _ _ _ _ _ _ [] Hroles Hstart) as (t5 & Ht5 & Hok).
    apply bind_returned in Hrun as ([] & s6 & Hw & Hrun).
    apply rewrite_failed_log_returned in Hw as (Hpost & Ht6).
    rewrite (bind_run _ _ _ _ _ (get_num_of_lines_run s6)) in Hrun.
    unfold log_msg in Hrun. injection Hrun as <-. simpl.
    exists post. eexists. split; [exact Hpost|]. split.
    + rewrite Ht6, Ht5, Ht4, Ht3, Ht0, <- !app_assoc. reflexivity.
    + simpl in Hok.
      rewrite !retries_app, (quiet_retries _ Hq0), (quiet_retries _ (count_opens_quiet s0)),
        (quiet_retries _ (count_opens_quiet s6)).
      simpl. rewrite app_nil_r. exact Hok.
  - unfold log_msg in Hrun. injection Hrun as <-. simpl.
    exists pre, (t0 ++ count_opens s0). split; [congruence|].
    split; [now rewrite Ht0, <- app_assoc|].
    now rewrite retries_app, (quiet_retries _ Hq0), (quiet_retries _ (count_opens_quiet s0)).
Qed.

End PassInvariant.

Section ShrinkFacts.

Lemma is_text_b_spec (r : Results) : is_text_b r = true <-> is_text r.
Proof.
  unfold is_text_b, is_text, opt_is. destruct (resultType r) as [s|].
  - rewrite String.eqb_eq. split; [intros ->; reflexivity | intros [= ->]; reflexivity].
  - split; discriminate.
Qed.

Lemma count_text_snoc att role line r :
  count_text (att ++ [(role, line, r)])
  = (count_text att + (if is_text_b r then 1 else 0))%nat.
Proof.
  unfold count_text. rewrite List.filter_app, length_app. simpl.
  destruct (is_text_b r); reflexivity.
Qed.

Lemma remove_first_sublist (y : Results) l : sublist (remove_first y l) l.
Proof.
  induction l as [|z l IH]; simpl; [constructor|].
  destruct (decide (y = z)); [apply sublist_cons; reflexivity | now apply sublist_skip].
Qed.

Lemma remove_first_length_in (y : Results) l :
  In y l -> S (length (remove_first y l)) = length l.
Proof.
  induction l as [|z l IH]; simpl; [contradiction|].
  destruct (decide (y = z)); [reflexivity|].
  intros [-> | Hin]; [congruence|]. simpl. now rewrite IH.
Qed.

End ShrinkFacts.

(** X6: for any failure log, repeated lines included, a retry that returns
    leaves a log that is the old one with some lines taken out: no line is
    added, changed or moved, and exactly one line is taken out for every
    attempt of the pass that got a text result. *)
Theorem X6_retry_log_shrinks {World : Type} {remote : RemoteApi World}
    (fuel : nat) (cfg : Config) (cid : string) (st st' : State World) (pre : list Results)
    (Hpre : failed_log st = Some pre)
    (Hrun : retry_failed_metastore_export fuel cfg cid st = (Returned tt, st')) :
  exists post t,
    failed_log st' = Some post /\ trace st' = trace st ++ t /\
    sublist post pre /\
    length pre = (length post + count_text (retries t))%nat.
Proof.
  edestruct (retry_pass_invariant
               (fun l att => sublist l pre /\ length pre = (length l + count_text att)%nat))
    as (post & t & Hpost & Ht & Hs & Hlen); [| exact Hpre | | exact Hrun |].
  - intros l att role line r l' [Hs Hlen] Hin [[Hr ->] | [Hr ->]].
    + split; [etransitivity; [apply remove_first_sublist | exact Hs]|].
      rewrite count_text_snoc. apply is_text_b_spec in Hr. rewrite Hr.
      pose proof (remove_first_length_in line l Hin) as Hrem.
      rewrite Hlen, <- Hrem. simpl. now rewrite Nat.add_1_r, Nat.add_succ_r.
    + split; [exact Hs|]. rewrite count_text_snoc.
      destruct (is_text_b r) eqn:E; [apply is_text_b_spec in E; contradiction | lia].
  - split; [reflexivity | unfold count_text; simpl; lia].
  - exists post, t. auto.
Qed.

(** X6 on the log that holds one line twice. *)
Lemma X6_retry_log_shrinks_witness :
  let pre := [Examples.failed_line "d.t1"; Examples.failed_line "d.t1"] in
  let st := Script.start Examples.one_db (Some pre) None in
  let run := retry_failed_metastore_export (remote := Script.api Examples.all_ok) 3
               (mkConfig true false) "cid-1" st in
  exists post t,
    failed_log (snd run) = Some post /\ trace (snd run) = trace st ++ t /\
    sublist post pre /\
    length pre = (length post + count_text (retries t))%nat.
Proof.
  intros pre st run.
  apply (X6_retry_log_shrinks (remote := Script.api Examples.all_ok) 3
           (mkConfig true false) "cid-1" st (snd run) pre).
  - reflexivity.
  - vm_compute. reflexivity.
Defined.

(** X7: on an AWS deployment with a registered instance profile, a retry
    started when [failed_metastore.log] does not exist writes
    [instance_profiles.log] and then raises [FileNotFoundError] on opening
    the failure log: no cluster is edited, no statement is submitted, and no
    failure log is created. *)
Theorem X7_retry_without_log {World : Type} {remote : RemoteApi World}
    (fuel : nat) (cfg : Config) (cid : string) (st : State World)
    (p : Profile) (ps : list Profile) (w1 : World)
    (Haws : is_aws cfg = true)
    (Hips : instance_profiles_list (world st) = (Some (p :: ps), w1))
    (Hnone : failed_log st = None) :
  exists st',
    retry_failed_metastore_export fuel cfg cid st
    = (Raised (FileNotFoundError "failed_metastore.log"), st') /\
    world st' = w1 /\ metastore st' = metastore st /\ failed_log st' = None /\
    profiles_log st' = Some (p :: ps) /\
    log st' = log st ++ [InfoProfilesExist] /\
    trace st' = trace st ++ [EvOpen PProfilesLog ModeW; EvOpen PFailedLog ModeR].
Proof.
  unfold retry_failed_metastore_export, check_if_instance_profiles_exists, get_num_of_lines,
    read_failed_log, bind, call, emit, log_msg, ret, raise.
  rewrite Haws. simpl. rewrite Hips. simpl. rewrite ?Hnone. simpl. rewrite ?Hnone.
  eexists. split; [reflexivity|]. simpl. rewrite <- app_assoc. repeat split; auto.
Qed.

(** X7 on the scripted service with one profile and no failure log. *)
Lemma X7_retry_without_log_witness :
  fst (retry_failed_metastore_export (remote := Script.api Examples.all_ok) 3
         (mkConfig true false) "cid-1" (Script.start Examples.one_db None None))
  = Raised (FileNotFoundError "failed_metastore.log").
Proof.
  edestruct (X7_retry_without_log (remote := Script.api Examples.all_ok) 3
               (mkConfig true false) "cid-1" (Script.start Examples.one_db None None))
    as (st' & Hrun & _); [reflexivity | reflexivity | reflexivity |].
  rewrite Hrun. reflexivity.
Defined.

(** ** The lines the crawl writes to the failure log *)

Section FailureLines.

Context {World : Type} {remote : RemoteApi World} {py : PyLib}.

Lemma failed_lines_snoc es db tb r :
  failed_lines (es ++ [(db, tb, r)])
  = failed_lines es ++ (if is_text_b r then [] else [with_table r db tb]).
Proof.
  unfold failed_lines. rewrite List.filter_app, List.map_app. simpl.
  destruct (is_text_b r); reflexivity.
Qed.

Lemma logged_extract fuel db cid ec_id tb st0 base (st st' : State World) :
  logged db st0 base st ->
  extract_table fuel db cid ec_id tb st = (Returned tt, st') ->
  logged db st0 base st'.
Proof.
  intros (t & Ht & Hf & Hdb) Hrun.
  apply extract_table_returned in Hrun
    as (r & t1 & files & files' & Ht1 & Hex & _ & _ & _ & Hcase).
  exists (t ++ t1). split; [now rewrite Ht1, Ht, app_assoc|].
  rewrite extracts_app, Hex, failed_lines_snoc. split.
  - destruct Hcase as [(Hr & _ & Hfl) | (Hr & _ & Hfl)].
    + apply is_text_b_spec in Hr. rewrite Hr, app_nil_r. congruence.
    + destruct (is_text_b r) eqn:E; [apply is_text_b_spec in E; contradiction|].
      rewrite Hfl, Hf. simpl. now rewrite app_assoc.
  - apply Forall_app. split; [exact Hdb | repeat constructor].
Qed.

Lemma logged_bucket fuel db cid ec_id m st0 base (st st' : State World) :
  logged db st0 base st ->
  table_bucket fuel db cid ec_id m st = (Returned tt, st') ->
  logged db st0 base st'.
Proof.
  intros Hl Hrun. unfold table_bucket in Hrun.
  destruct (Pagination.slice_bounds m) as [lo hi].
  apply bind_returned in Hrun as (r & s1 & Hsub & Hrun).
  apply submit_command_quiet in Hsub as ((_ & Hf1 & _) & t1 & Ht1 & Hq1).
  apply bind_returned in Hrun as (names & s2 & Hn & Hrun).
  apply eval_names_returned in Hn as ->.
  eapply (for_each_invariant (logged db st0 base)); [| | exact Hrun].
  - intros tb s s' _ Hs Hbody. eapply logged_extract; eauto.
  - destruct Hl as (t & Ht & Hf & Hdb). exists (t ++ t1).
    split; [now rewrite Ht1, Ht, app_assoc|].
    rewrite extracts_app, (quiet_extracts _ Hq1), app_nil_r. split; [congruence | exact Hdb].
Qed.

End FailureLines.

(** X8: a run of [log_all_tables] that returns only appends to the failure
    log, and what it appends is exactly one line per answer that is not a
    text result, in the order of the answers, each carrying the answer and
    the name [db.table]; a text answer adds no line, and every answer of the
    run is for the database being crawled. *)
Theorem X8_failure_log_lines {World : Type} {remote : RemoteApi World} {py : PyLib}
    (fuel : nat) (db cid ec_id : string) (st st' : State World)
    (Hrun : log_all_tables fuel db cid ec_id st = (Returned true, st')) :
  exists t,
    trace st' = trace st ++ t /\
    failed_log st' = Some (default [] (failed_log st) ++ failed_lines (extracts t)) /\
    Forall (fun e => fst (fst e) = db) (extracts t).
Proof.
  unfold log_all_tables in Hrun.
  apply bind_returned in Hrun as (r1 & s1 & Hsub1 & Hrun).
  apply submit_command_quiet in Hsub1 as ((_ & Hf1 & _) & t1 & Ht1 & Hq1).
  apply bind_returned in Hrun as (r2 & s2 & Hsub2 & Hrun).
  apply submit_command_quiet in Hsub2 as ((_ & Hf2 & _) & t2 & Ht2 & Hq2).
  apply bind_returned in Hrun as (n & s3 & Hn & Hrun). apply eval_int_returned in Hn as ->.
  apply bind_returned in Hrun as ([] & s4 & Ho & Hrun).
  unfold open_failed_log_a, bind, emit in Ho. simpl in Ho. injection Ho as <-.
  apply bind_returned in Hrun as ([] & s5 & Hloop & Hrun). injection Hrun as <-.
  eapply (for_each_invariant (logged db st (default [] (failed_log st))) _ _
            (fun m s s' _ Hl Hb => logged_bucket fuel db cid ec_id m st _ s s' Hl Hb));
    [| exact Hloop].
  exists (t1 ++ t2 ++ [EvOpen PFailedLog ModeA]). simpl. split.
  - now rewrite Ht2, Ht1, <- !app_assoc.
  - rewrite !extracts_app, (quiet_extracts _ Hq1), (quiet_extracts _ Hq2). simpl.
    rewrite app_nil_r. split; [|constructor]. do 2 f_equal. congruence.
Qed.

(** X8 on the database [d] whose only table cannot be extracted. *)
Lemma X8_failure_log_lines_witness :
  let st := Script.start Examples.one_db None None in
  let run := log_all_tables (remote := Script.api Examples.ddl_denied) (py := Script.pylib)
               3 "d" "cid-1" "ctx-1" st in
  exists t,
    trace (snd run) = trace st ++ t /\
    failed_log (snd run) = Some (default [] (failed_log st) ++ failed_lines (extracts t)) /\
    Forall (fun e => fst (fst e) = "d") (extracts t).
Proof.
  intros st run.
  apply (X8_failure_log_lines (remote := Script.api Examples.ddl_denied)
           (py := Script.pylib) 3 "d" "cid-1" "ctx-1" st (snd run)).
  vm_compute. reflexivity.
Defined.

(** ** The statements of an import *)

Section ImportFacts.

Context {World : Type} {remote : RemoteApi World}.

Lemma submitted_app (t1 t2 : list Event) :
  submitted (t1 ++ t2) = submitted t1 ++ submitted t2.
Proof.
  induction t1 as [|[] t1 IH]; simpl; rewrite ?IH; reflexivity.
Qed.

Lemma submitted_polls (t : list Event) : Forall is_poll t -> submitted t = [].
Proof.
  induction 1 as [|[] t Hp _ IH]; simpl in *; auto; contradiction.
Qed.

(** A run of [submit_command] submits its statement and nothing else. *)
Lemma submit_command_submitted fuel cid ec_id cmd (st : State World) o st' :
  submit_command fuel cid ec_id cmd st = (o, st') ->
  same_files st st' /\ exists t, trace st' = trace st ++ t /\ submitted t = [cmd].
Proof.
  intros Hrun.
  destruct (submit_command_frame fuel cid ec_id cmd st) as (Hf & _ & t & Ht & Hp).
  rewrite Hrun in Hf, Ht. simpl in Hf, Ht. split; [exact Hf|].
  eexists. split; [exact Ht|]. simpl. now rewrite (submitted_polls _ Hp).
Qed.

(** A loop whose body, when it returns, keeps [P] and submits [f x]
    submits the statements of all its elements in order. *)
Lemma for_each_submitted {A} (P : State World -> Prop) (f : A -> list string)
    (body : A -> M World unit) l :
  (forall x s s', P s -> body x s = (Returned tt, s') ->
     P s' /\ exists t, trace s' = trace s ++ t /\ submitted t = f x) ->
  forall s s', P s -> for_each l body s = (Returned tt, s') ->
    P s' /\ exists t, trace s' = trace s ++ t /\ submitted t = concat (List.map f l).
Proof.
  intros Hbody. induction l as [|x l IH]; intros s s' HP Hrun; simpl in Hrun.
  - injection Hrun as <-. split; [exact HP|]. exists []. now rewrite app_nil_r.
  - apply bind_returned in Hrun as ([] & s1 & Hx & Hrest).
    destruct (Hbody x s s1 HP Hx) as (HP1 & t1 & Ht1 & Hs1).
    destruct (IH s1 s' HP1 Hrest) as (HP' & t2 & Ht2 & Hs2).
    split; [exact HP'|]. exists (t1 ++ t2).
    rewrite Ht2, Ht1, <- app_assoc, submitted_app, Hs1, Hs2. auto.
Qed.

Lemma import_entry_submitted fuel ec_id cid db m (s s' : State World) :
  metastore s = m ->
  import_entry fuel ec_id cid db s = (Returned tt, s') ->
  metastore s' = m /\
  exists t, trace s' = trace s ++ t /\ submitted t = entry_statements m db.
Proof.
  intros Hm Hrun. unfold import_entry, create_database_db in Hrun.
  apply bind_returned in Hrun as (r & s1 & Hsub & Hrun).
  apply submit_command_submitted in Hsub as ((Hm1 & _) & t1 & Ht1 & Hs1).
  unfold entry_statements. rewrite <- Hm, <- Hm1.
  destruct (metastore s1 !! db) as [[c|files]|] eqn:E.
  - unfold log_msg in Hrun. injection Hrun as <-. simpl. split; [congruence|].
    exists t1. auto.
  - edestruct (for_each_submitted (fun st => metastore st = metastore s1)
                 (fun x => [Stmt.get_spark_ddl (default EmptyString (files !! x))]))
      as (Hm' & t2 & Ht2 & Hs2); [| reflexivity | exact Hrun |].
    { intros x a b Ha Hb. simpl in Ha.
      apply bind_returned in Hb as ([] & a1 & Hl & Hb). unfold log_msg in Hl.
      injection Hl as <-.
      apply bind_returned in Hb as (res & a2 & Happ & Hb). unfold log_msg in Hb.
      injection Hb as <-. simpl.
      unfold apply_table_ddl in Happ.
      apply bind_returned in Happ as (ddl & a3 & Hread & Hsub).
      unfold read_table, bind, emit in Hread. simpl in Hread. rewrite Ha, E in Hread.
      destruct (files !! x) as [text|] eqn:Ex; [|discriminate Hread].
      injection Hread as <- <-.
      apply submit_command_submitted in Hsub as ((Hm3 & _) & t3 & Ht3 & Hs3).
      simpl in Hm3, Ht3. split; [congruence|].
      exists (EvOpen (PTable db x) ModeR :: t3).
      rewrite Ht3, <- app_assoc. split; [reflexivity|]. simpl. exact Hs3. }
    split; [congruence|]. exists (t1 ++ t2).
    rewrite Ht2, Ht1, <- app_assoc, submitted_app, Hs1, Hs2. split; [reflexivity|].
    simpl. f_equal. clear. induction (listdir files) as [|x l IH]; simpl; congruence.
  - unfold log_msg in Hrun. injection Hrun as <-. simpl. split; [congruence|].
    exists t1. auto.
Qed.

End ImportFacts.

(** X9: an import that returns has submitted, in the order of the
    directory listing, for every entry of [metastore/] (directory or file)
    the statement CREATE DATABASE IF NOT EXISTS of its name, followed for a
    directory by one statement per file in it: the stored text between
    triple quotes inside [spark.sql(...)].  Nothing else is submitted. *)
Theorem X9_import_statements {World : Type} {remote : RemoteApi World}
    (fuel : nat) (st st' : State World)
    (Hrun : import_hive_metastore fuel st = (Returned tt, st')) :
  exists t, trace st' = trace st ++ t /\ submitted t = import_statements (metastore st).
Proof.
  unfold import_hive_metastore, launch_cluster in Hrun.
  apply bind_returned in Hrun as (cid & s1 & Hl & Hrun).
  unfold call_out in Hl. destruct (launch_cluster_op (world st)) as [o w1].
  injection Hl as -> <-.
  apply bind_returned in Hrun as (ec & s2 & Hc & Hrun).
  apply get_execution_context_quiet in Hc as ((Hm2 & _) & Ht2). simpl in Hm2, Ht2.
  apply bind_returned in Hrun as (dbs & s3 & Hd & Hrun). injection Hd as <- <-.
  edestruct (for_each_submitted (fun s : State World => metastore s = metastore st)
               (entry_statements (metastore st))) as (_ & t & Ht & Hs);
    [| exact Hm2 | exact Hrun |].
  - intros db a b Ha Hb. apply (import_entry_submitted fuel ec cid db _ a b Ha Hb).
  - exists t. rewrite Ht, Ht2. split; [reflexivity|].
    unfold import_statements. now rewrite Hs, Hm2.
Qed.

(** X9 on an export directory with a stray file and one database. *)
Lemma X9_import_statements_witness :
  let st := Script.start Examples.with_stray_file None None in
  let run := import_hive_metastore (remote := Script.api Examples.all_ok) 3 st in
  exists t, trace (snd run) = trace st ++ t /\
            submitted t = import_statements Examples.with_stray_file.
Proof.
  intros st run.
  apply (X9_import_statements (remote := Script.api Examples.all_ok) 3 st (snd run)).
  vm_compute. reflexivity.
Defined.

(** ** From the crawl to the import *)



(** ** The table name of a failure-log line *)

Section SplitFacts.

Local Arguments String.append !s1 s2 : simpl nomatch.

Lemma split_on_nonempty sep s : split_on sep s <> [].
Proof.
  destruct s as [|c s]; simpl; [discriminate|].
  destruct (Ascii.eqb c sep); [discriminate|]. destruct (split_on sep s); discriminate.
Qed.

Lemma split_on_no_dot a : no_dot a -> split_on "." a = [a].
Proof.
  induction a as [|c a IH]; intros Ha; [reflexivity|].
  inversion Ha as [|? ? Hc Ha']; subst. simpl.
  destruct (Ascii.eqb c ".") eqn:E; [apply Ascii.eqb_eq in E; contradiction|].
  now rewrite IH.
Qed.

Lemma split_on_first a rest :
  no_dot a -> split_on "." (a +++ "." +++ rest) = a :: split_on "." rest.
Proof.
  induction a as [|c a IH]; intros Ha; [reflexivity|].
  inversion Ha as [|? ? Hc Ha']; subst. specialize (IH Ha'). simpl in IH |- *.
  destruct (Ascii.eqb c ".") eqn:E; [apply Ascii.eqb_eq in E; contradiction|].
  now rewrite IH.
Qed.

(** The two names the retry reads off the key [db.table]. *)
Lemma split_table_key db a tb :
  no_dot db -> no_dot a -> tb = a \/ (exists rest, tb = a +++ "." +++ rest) ->
  split_on "." (db +++ "." +++ tb) !! 0%nat = Some db /\
  split_on "." (db +++ "." +++ tb) !! 1%nat = Some a.
Proof.
  intros Hdb Ha Htb. rewrite split_on_first by exact Hdb. split; [reflexivity|].
  change (split_on "." tb !! 0%nat = Some a).
  destruct Htb as [-> | (rest & ->)].
  - now rewrite split_on_no_dot.
  - now rewrite split_on_first.
Qed.

End SplitFacts.

Section GrowFacts.

Context {World : Type} {remote : RemoteApi World}.

Lemma grows_refl (st : State World) : grows st st.
Proof. exists []. now rewrite app_nil_r. Qed.

Lemma grows_trans (s1 s2 s3 : State World) : grows s1 s2 -> grows s2 s3 -> grows s1 s3.
Proof. intros (t1 & H1) (t2 & H2). exists (t1 ++ t2). now rewrite H2, H1, app_assoc. Qed.

Lemma grows_emit ev : frames grows (@emit World ev).
Proof. intros st. now exists [ev]. Qed.

Lemma grows_log_msg m : frames grows (@log_msg World m).
Proof. intros st. exists []. simpl. now rewrite app_nil_r. Qed.

Lemma grows_open_table_w db t : frames grows (@open_table_w World db t).
Proof.
  intros st. unfold open_table_w, bind, emit. simpl.
  destruct (metastore st !! db) as [[c|files]|]; now exists [EvOpen (PTable db t) ModeW].
Qed.

Lemma grows_write_table db t d : frames grows (@write_table World db t d).
Proof.
  intros st. unfold write_table.
  destruct (metastore st !! db) as [[c|files]|]; exists []; simpl; now rewrite app_nil_r.
Qed.

End GrowFacts.

(** X11: the retry reads the database and the table off the key
    [db.table] of a failure-log line by splitting at the dots and taking the
    first two parts.  For a database name without dot it submits the
    statement of the crawl again when the table name has no dot either; for
    a table name with a dot it submits the statement for the part of the
    name before that dot. *)
Theorem X11_retry_statement {World : Type} {remote : RemoteApi World}
    (fuel : nat) (cid ec_id role db a tb : string) (line : Results)
    (l : list Results) (st : State World)
    (Hkey : table line = Some (db +++ "." +++ tb))
    (Hdb : no_dot db) (Ha : no_dot a)
    (Htb : tb = a \/ exists rest, tb = a +++ "." +++ rest) :
  exists t,
    trace (snd (retry_table fuel cid ec_id role line l st))
    = trace st ++ EvSubmit cid ec_id (Stmt.ddl_stmt db a) :: t.
Proof.
  destruct (split_table_key db a tb Hdb Ha Htb) as [H0 H1].
  pose proof (@grows_refl World) as Hr. pose proof (@grows_trans World) as Ht.
  unfold retry_table. rewrite Hkey.
  rewrite (bind_run (get_key "table" (Some (db +++ "." +++ tb))) _ st _ st eq_refl).
  unfold index. rewrite H0.
  rewrite (bind_run (ret db) _ st _ st eq_refl). rewrite H1.
  rewrite (bind_run (ret a) _ st _ st eq_refl).
  destruct (submit_command_frame fuel cid ec_id (Stmt.ddl_stmt db a) st)
    as (_ & _ & t & Hsub & _).
  match goal with |- context [bind (submit_command _ _ _ _) ?k st] =>
    assert (Hk : forall r, frames grows (k r))
  end.
  { intros r. apply frames_bind; [exact Ht | apply grows_emit |].
    intros _. apply frames_bind; [exact Ht | apply frames_get_key; exact Hr |].
    intros rt. destruct (String.eqb rt "text").
    - apply frames_bind; [exact Ht | apply grows_open_table_w |].
      intros _. apply frames_bind; [exact Ht | apply frames_get_key; exact Hr |].
      intros d. apply frames_bind; [exact Ht | apply grows_write_table |].
      intros _. apply frames_ret; exact Hr.
    - apply frames_bind; [exact Ht | apply grows_log_msg |].
      intros _. apply frames_ret; exact Hr. }
  unfold bind at 1.
  destruct (submit_command fuel cid ec_id (Stmt.ddl_stmt db a) st) as [[r|e|] s1];
    simpl in Hsub; simpl.
  - destruct (Hk r s1) as (t' & Ht'). eexists. rewrite Ht', Hsub, <- app_assoc. reflexivity.
  - eexists. exact Hsub.
  - eexists. exact Hsub.
Qed.

(** X11 on the key [d.a.b]: the table retried is [d.a]. *)
Lemma X11_retry_statement_witness :
  exists t,
    trace (snd (retry_table (remote := Script.api Examples.all_ok) 3 "cid-1" "ctx-1" "r"
                  (Examples.failed_line "d.a.b") [Examples.failed_line "d.a.b"]
                  (Script.start Examples.one_db None None)))
    = [] ++ EvSubmit "cid-1" "ctx-1" (Stmt.ddl_stmt "d" "a") :: t.
Proof.
  apply (X11_retry_statement (remote := Script.api Examples.all_ok) 3 "cid-1" "ctx-1" "r"
           "d" "a" "a.b" (Examples.failed_line "d.a.b") [Examples.failed_line "d.a.b"]
           (Script.start Examples.one_db None None)).
  - reflexivity.
  - repeat constructor; discriminate.
  - repeat constructor; discriminate.
  - right. exists "b". reflexivity.
Defined.

(** ** When the counts cannot be read *)

Lemma submitted_repeat_poll (c : option string) (n : nat) :
  submitted (repeat (EvPoll c) n) = [].
Proof. induction n; simpl; auto. Qed.

(** X12: when the statement that counts the databases ends with a result
    that is not text, [log_all_databases] logs the result and raises
    [ValueError]: no slice is asked for, no directory is created, and the
    local files are as before. *)
Theorem X12_database_count_not_text
    {World : Type} {remote : RemoteApi World} {py : PyLib}
    (fuel k : nat) (cid ec_id : string) (st : State World)
    (com_id : option string) (w1 : World) (r : Results) (w2 : World) (rt : string)
    (Hexec : commands_execute cid ec_id Stmt.all_dbs_cmd (world st) = (com_id, w1))
    (Hterm : terminal_in cid ec_id com_id k w1 r w2)
    (Hk : (k <= fuel)%nat)
    (Hrt : resultType r = Some rt)
    (Hne : String.eqb rt "text" = false) :
  exists st',
    log_all_databases fuel cid ec_id st
    = (Raised (ValueError "Cannot identify number of databases due to the above error"),
       st') /\
    same_files st st' /\
    log st' = log st ++ submit_logs com_id r ++ [InfoResults r] /\
    trace st' = trace st ++ EvSubmit cid ec_id Stmt.all_dbs_cmd
                         :: repeat (EvPoll com_id) (S k).
Proof.
  destruct (submit_command_returns fuel k cid ec_id _ st com_id w1 r w2 Hexec Hterm Hk)
    as (s1 & Hrun & Hw & Hf & Hl & Ht).
  unfold log_all_databases. rewrite (bind_run _ _ _ _ _ Hrun).
  unfold get_key. rewrite Hrt. rewrite (bind_run (ret rt) _ s1 rt s1 eq_refl).
  rewrite Hne. unfold bind, log_msg, raise. simpl.
  eexists. split; [reflexivity|]. simpl.
  split; [exact Hf|]. split; [now rewrite Hl, <- app_assoc | exact Ht].
Qed.

(** X12 on a service that denies every statement. *)
Lemma X12_database_count_not_text_witness :
  fst (log_all_databases (remote := Script.api MoreExamples3.all_denied) (py := Script.pylib)
         3 "cid-1" "ctx-1" (Script.start ∅ None None))
  = Raised (ValueError "Cannot identify number of databases due to the above error").
Proof.
  edestruct (X12_database_count_not_text (remote := Script.api MoreExamples3.all_denied)
               (py := Script.pylib) 3 0 "cid-1" "ctx-1" (Script.start ∅ None None)
               (Some "cmd-1") (Script.mkWorld "default" Stmt.all_dbs_cmd 0)
               (Script.error "denied") (Script.mkWorld "default" Stmt.all_dbs_cmd 1) "error")
    as (st' & Hrun & _).
  - reflexivity.
  - eapply terminal_now; reflexivity.
  - lia.
  - reflexivity.
  - reflexivity.
  - rewrite Hrun. reflexivity.
Defined.

(** X13: [log_all_tables] does not look at the answer to the statement
    that lists the tables, and does not test the result type of the count:
    when the count's answer carries no data (an error result), it raises
    [KeyError('data')] before the failure log is opened, so nothing is
    recorded for the database and the local files are as before. *)
Theorem X13_table_count_without_data
    {World : Type} {remote : RemoteApi World} {py : PyLib}
    (fuel k1 k2 : nat) (db cid ec_id : string) (st : State World)
    (c1 : option string) (w1 : World) (r1 : Results) (w2 : World)
    (c2 : option string) (w3 : World) (r2 : Results) (w4 : World)
    (Hexec1 : commands_execute cid ec_id (Stmt.all_tables_cmd db) (world st) = (c1, w1))
    (Hterm1 : terminal_in cid ec_id c1 k1 w1 r1 w2)
    (Hk1 : (k1 <= fuel)%nat)
    (Hexec2 : commands_execute cid ec_id Stmt.len_tables_cmd w2 = (c2, w3))
    (Hterm2 : terminal_in cid ec_id c2 k2 w3 r2 w4)
    (Hk2 : (k2 <= fuel)%nat)
    (Hnodata : data r2 = None) :
  exists st',
    log_all_tables fuel db cid ec_id st = (Raised (KeyError "data"), st') /\
    same_files st st' /\ world st' = w4 /\
    submitted (drop (length (trace st)) (trace st'))
    = [Stmt.all_tables_cmd db; Stmt.len_tables_cmd].
Proof.
  destruct (submit_command_returns fuel k1 cid ec_id _ st c1 w1 r1 w2 Hexec1 Hterm1 Hk1)
    as (s1 & Hrun1 & Hw1 & Hf1 & Hl1 & Ht1).
  rewrite <- Hw1 in Hexec2.
  destruct (submit_command_returns fuel k2 cid ec_id _ s1 c2 w3 r2 w4 Hexec2 Hterm2 Hk2)
    as (s2 & Hrun2 & Hw2 & Hf2 & Hl2 & Ht2).
  unfold log_all_tables. rewrite (bind_run _ _ _ _ _ Hrun1), (bind_run _ _ _ _ _ Hrun2).
  unfold eval_int, get_key. rewrite Hnodata.
  eexists. split; [reflexivity|]. simpl.
  split; [eapply same_files_trans; eauto|]. split; [exact Hw2|].
  rewrite Ht2, Ht1, <- app_assoc, drop_app_length.
  simpl. rewrite !submitted_app. simpl.
  now rewrite !submitted_repeat_poll.
Qed.

(** X13 on a service that denies every statement. *)
Lemma X13_table_count_without_data_witness :
  fst (log_all_tables (remote := Script.api MoreExamples3.all_denied) (py := Script.pylib)
         3 "d" "cid-1" "ctx-1" (Script.start Examples.one_db None None))
  = Raised (KeyError "data").
Proof.
  edestruct (X13_table_count_without_data (remote := Script.api MoreExamples3.all_denied)
               (py := Script.pylib) 3 0 0 "d" "cid-1" "ctx-1"
               (Script.start Examples.one_db None None)
               (Some "cmd-1") (Script.mkWorld "default" (Stmt.all_tables_cmd "d") 0)
               (Script.error "denied") (Script.mkWorld "default" (Stmt.all_tables_cmd "d") 1)
               (Some "cmd-1") (Script.mkWorld "default" Stmt.len_tables_cmd 0)
               (Script.error "denied") (Script.mkWorld "default" Stmt.len_tables_cmd 1))
    as (st' & Hrun & _).
  - reflexivity.
  - eapply terminal_now; reflexivity.
  - lia.
  - reflexivity.
  - eapply terminal_now; reflexivity.
  - lia.
  - reflexivity.
  - rewrite Hrun. reflexivity.
Defined.

(** ** The databases a crawl finds *)

Section DatabaseFacts.

Context {World : Type} {remote : RemoteApi World} {py : PyLib}.

Lemma bind_assoc_run {A B C} (m : M World A) (k : A -> M World B) (k' : B -> M World C) st :
  bind (bind m k) k' st = bind m (fun a => bind (k a) k') st.
Proof. unfold bind. destruct (m st) as [[a|e|] s1]; reflexivity. Qed.

Lemma py_slice_In {A} (l : list A) a b x : In x (Pagination.py_slice l a b) -> In x l.
Proof.
  unfold Pagination.py_slice. rewrite <- !list_elem_of_In.
  intros H. apply elem_of_take in H as (i & H & _).
  rewrite lookup_drop in H. eapply list_elem_of_lookup_2, H.
Qed.

(** [os.makedirs] for the names of a slice. *)
Lemma makedirs_loop dbs names :
  forall (acc : list string) (s : State World),
    (forall x, In x names -> In x dbs) ->
    no_file_named dbs s -> has_dirs acc s ->
    exists s',
      for_each names (fun db => bind (log_msg (InfoDatabase db)) (fun _ => makedirs db)) s
      = (Returned tt, s') /\
      no_file_named dbs s' /\ has_dirs (acc ++ names) s' /\
      failed_log s' = failed_log s /\ profiles_log s' = profiles_log s.
Proof.
  induction names as [|db names IH]; intros acc s Hsub Hnf Hd; simpl.
  - exists s. rewrite app_nil_r. repeat split; auto.
  - unfold bind at 1 2, log_msg, makedirs. simpl.
    assert (Hdb : In db dbs) by (apply Hsub; now left).
    destruct (metastore s !! db) as [[c|files]|] eqn:E.
    + exfalso. eapply Hnf; eauto.
    + edestruct (IH (acc ++ [db])) as (s' & Hrun & Hnf' & Hd' & Hf' & Hp');
        [| | | exists s'; split; [exact Hrun|]].
      * intros x Hx. apply Hsub. now right.
      * intros x c Hx. simpl. now apply Hnf.
      * intros x Hx. simpl. apply in_app_iff in Hx as [Hx | [<- | []]]; eauto.
      * rewrite <- app_assoc in Hd'. repeat split; auto.
    + edestruct (IH (acc ++ [db])) as (s' & Hrun & Hnf' & Hd' & Hf' & Hp');
        [| | | exists s'; split; [exact Hrun|]].
      * intros x Hx. apply Hsub. now right.
      * intros x c Hx. simpl. destruct (decide (x = db)) as [-> | Hne].
        -- rewrite lookup_insert_eq. discriminate.
        -- rewrite lookup_insert_ne by congruence. now apply Hnf.
      * intros x Hx. simpl. destruct (decide (x = db)) as [-> | Hne].
        -- rewrite lookup_insert_eq. eauto.
        -- rewrite lookup_insert_ne by congruence.
           apply in_app_iff in Hx as [Hx | [<- | []]]; [eauto | congruence].
      * rewrite <- app_assoc in Hd'. repeat split; auto.
Qed.

(** The loop over the buckets, for an honest cluster. *)
Lemma db_buckets_honest fuel cid ec_id dbs ms :
  honest_slices fuel cid ec_id dbs ->
  (forall m, In m ms ->
     In m (Pagination.range (Pagination.num_of_buckets (Z.of_nat (length dbs))))) ->
  forall (acc : list string) (s : State World),
    no_file_named dbs s -> has_dirs acc s ->
    exists s',
      db_buckets fuel cid ec_id acc ms s
      = (Returned (acc ++ concat ((fun m => Pagination.py_slice dbs
                                              (fst (Pagination.slice_bounds m))
                                              (snd (Pagination.slice_bounds m))) <$> ms)),
         s') /\
      no_file_named dbs s' /\
      has_dirs (acc ++ concat ((fun m => Pagination.py_slice dbs
                                            (fst (Pagination.slice_bounds m))
                                            (snd (Pagination.slice_bounds m))) <$> ms)) s' /\
      failed_log s' = failed_log s /\ profiles_log s' = profiles_log s.
Proof.
  intros Hhonest. induction ms as [|m ms IH]; intros Hms acc s Hnf Hd; simpl.
  - exists s. rewrite app_nil_r. repeat split; auto.
  - destruct (Hhonest m s (Hms m (or_introl eq_refl))) as (r & s1 & Hsub & Hev).
    unfold db_bucket.
    destruct (Pagination.slice_bounds m) as [lo hi] eqn:Eb. cbn [fst snd] in Hsub, Hev |- *.
    rewrite bind_assoc_run, (bind_run _ _ _ _ _ Hsub).
    rewrite bind_assoc_run, (bind_run _ _ _ _ _ Hev).
    apply submit_command_quiet in Hsub as ((Hm1 & Hf1 & Hp1) & _).
    destruct (makedirs_loop dbs (Pagination.py_slice dbs lo hi) acc s1)
      as (s2 & Hloop & Hnf2 & Hd2 & Hf2 & Hp2).
    + intros x. apply py_slice_In.
    + intros x c Hx. rewrite Hm1. now apply Hnf.
    + intros x Hx. rewrite Hm1. now apply Hd.
    + rewrite bind_assoc_run, (bind_run _ _ _ _ _ Hloop).
      rewrite (bind_run (ret _) _ s2 _ s2 eq_refl).
      destruct (IH (fun x Hx => Hms x (or_intror Hx)) _ s2 Hnf2 Hd2)
        as (s' & Hrun & Hnf' & Hd' & Hf' & Hp').
      exists s'. unfold Pagination.slice_bounds in Eb. injection Eb as <- <-.
      rewrite <- !app_assoc in *.
      split; [exact Hrun|]. split; [exact Hnf'|]. split; [exact Hd'|]. split; congruence.
Qed.

End DatabaseFacts.

(** X14: when the count statement answers with the number of names of a
    list, every slice statement is answered with the matching slice of that
    list, and no stray file of [metastore/] has the name of a database,
    [log_all_databases] returns exactly that list, in order and without
    repetition of a slice, and afterwards every database has its directory;
    the two logs are untouched. *)
Theorem X14_all_databases_found {World : Type} {remote : RemoteApi World} {py : PyLib}
    (fuel : nat) (cid ec_id : string) (dbs : list string) (st : State World)
    (r0 : Results) (s0 : State World)
    (Hcount : submit_command fuel cid ec_id Stmt.all_dbs_cmd st = (Returned r0, s0))
    (Htext : resultType r0 = Some "text")
    (Hnum : eval_int r0 s0 = (Returned (Z.of_nat (length dbs)), s0))
    (Hhonest : honest_slices fuel cid ec_id dbs)
    (Hnf : no_file_named dbs st) :
  exists st',
    log_all_databases fuel cid ec_id st = (Returned dbs, st') /\
    has_dirs dbs st' /\
    failed_log st' = failed_log st /\ profiles_log st' = profiles_log st.
Proof.
  unfold log_all_databases. rewrite (bind_run _ _ _ _ _ Hcount).
  unfold get_key at 1. rewrite Htext.
  rewrite (bind_run (ret "text") _ s0 _ s0 eq_refl). rewrite String.eqb_refl.
  cbn [negb]. rewrite (bind_run _ _ _ _ _ Hnum).
  apply submit_command_quiet in Hcount as ((Hm0 & Hf0 & Hp0) & _).
  destruct (db_buckets_honest fuel cid ec_id dbs
              (Pagination.range (Pagination.num_of_buckets (Z.of_nat (length dbs))))
              Hhonest (fun m H => H) [] s0) as (st' & Hrun & _ & Hd & Hf & Hp).
  - intros db c Hdb. rewrite Hm0. now apply Hnf.
  - intros db [].
  - assert (Hall : concat ((fun m => Pagination.py_slice dbs
                                       (fst (Pagination.slice_bounds m))
                                       (snd (Pagination.slice_bounds m)))
                           <$> Pagination.range
                                 (Pagination.num_of_buckets (Z.of_nat (length dbs))))
                   = dbs).
    { transitivity (Pagination.all_slices dbs); [|apply all_slices_id].
      unfold Pagination.all_slices, Pagination.batch_ranges.
      now rewrite <- list_fmap_compose. }
    rewrite Hall in Hrun, Hd. simpl in Hrun, Hd.
    exists st'. split; [exact Hrun|]. split; [exact Hd|]. split; congruence.
Qed.

(** X14 on the scripted service that knows the one database [d]. *)
Lemma X14_all_databases_found_witness :
  exists st',
    log_all_databases (remote := Script.api Examples.all_ok) (py := Script.pylib)
      3 "cid-1" "ctx-1" (Script.start ∅ None None) = (Returned ["d"], st') /\
    has_dirs ["d"] st'.
Proof.
  set (st := Script.start ∅ None None).
  destruct (X14_all_databases_found (remote := Script.api Examples.all_ok)
              (py := Script.pylib) 3 "cid-1" "ctx-1" ["d"] st (Script.text "1")
              (snd (submit_command (remote := Script.api Examples.all_ok) 3
                      "cid-1" "ctx-1" Stmt.all_dbs_cmd st)))
    as (st' & Hrun & Hd & _).
  - vm_compute. reflexivity.
  - reflexivity.
  - vm_compute. reflexivity.
  - intros m s Hin. vm_compute in Hin. destruct Hin as [<- | []].
    destruct (submit_command_returns (remote := Script.api Examples.all_ok) 3 0
                "cid-1" "ctx-1" (Stmt.db_slice 0 100) s (Some "cmd-1")
                (Script.mkWorld (Script.cur_role (world s)) (Stmt.db_slice 0 100) 0)
                (Script.text "['d']")
                (Script.mkWorld (Script.cur_role (world s)) (Stmt.db_slice 0 100) 1))
      as (s1 & Hsub & _).
    + reflexivity.
    + eapply terminal_now; [reflexivity | reflexivity | reflexivity |].
      vm_compute. reflexivity.
    + lia.
    + exists (Script.text "['d']"), s1. split; [exact Hsub | reflexivity].
  - intros db c Hdb. vm_compute. discriminate.
  - exists st'. split; [exact Hrun | exact Hd].
Defined.

(* ===================================================================== *)
(** ** Dictionaries *)
(* ===================================================================== *)

Lemma get_del_same (k : string) (d : Configs.Dict) :
  Configs.get k (Configs.del k d) = None.
Proof.
  induction d as [|[k' v] d IH]; [reflexivity|].
  unfold Configs.del. simpl. destruct (String.eqb k k') eqn:E; simpl.
  - exact IH.
  - rewrite E. exact IH.
Qed.

Lemma get_del_other (k k' : string) (d : Configs.Dict) :
  k <> k' -> Configs.get k (Configs.del k' d) = Configs.get k d.
Proof.
  intros Hne. induction d as [|[k0 v] d IH]; [reflexivity|].
  unfold Configs.del. simpl. destruct (String.eqb k' k0) eqn:E; simpl.
  - apply String.eqb_eq in E. subst k0.
    destruct (String.eqb k k') eqn:E'; [apply String.eqb_eq in E'; contradiction|].
    exact IH.
  - destruct (String.eqb k k0); [reflexivity | exact IH].
Qed.

Lemma get_set_same (k : string) (v : Configs.Json) (d : Configs.Dict) :
  Configs.get k (Configs.set k v d) = Some v.
Proof.
  induction d as [|[k' v'] d IH]; simpl.
  - now rewrite String.eqb_refl.
  - destruct (String.eqb k k') eqn:E; simpl.
    + now rewrite String.eqb_refl.
    + rewrite E. exact IH.
Qed.

Lemma get_set_other (k k' : string) (v : Configs.Json) (d : Configs.Dict) :
  k <> k' -> Configs.get k (Configs.set k' v d) = Configs.get k d.
Proof.
  intros Hne. apply String.eqb_neq in Hne.
  induction d as [|[k0 v0] d IH]; simpl.
  - now rewrite Hne.
  - destruct (String.eqb k' k0) eqn:E; simpl.
    + apply String.eqb_eq in E. subst k0. now rewrite Hne.
    + destruct (String.eqb k k0); [reflexivity | exact IH].
Qed.

Lemma keys_get (k : string) (d : Configs.Dict) :
  In k (Configs.keys d) <-> Configs.get k d <> None.
Proof.
  induction d as [|[k' v] d IH]; simpl.
  - split; [intros [] | intros H; now apply H].
  - destruct (String.eqb k k') eqn:E.
    + apply String.eqb_eq in E. subst k'. split; [discriminate | now left].
    + apply String.eqb_neq in E. rewrite <- IH. split.
      * intros [H | H]; [congruence | exact H].
      * intros H. now right.
Qed.

Lemma in_list_In (k : string) (l : list string) :
  Configs.in_list k l = true <-> In k l.
Proof.
  unfold Configs.in_list. rewrite existsb_exists. split.
  - intros (x & Hx & E). apply String.eqb_eq in E. now subst x.
  - intros H. exists k. split; [exact H | apply String.eqb_refl].
Qed.

(** Deleting the keys [ps] one by one hides exactly them. *)
Lemma get_fold_del (k : string) (ps : list string) (d : Configs.Dict) :
  Configs.get k (fold_left (fun d p => Configs.del p d) ps d)
  = if Configs.in_list k ps then None else Configs.get k d.
Proof.
  revert d. induction ps as [|p ps IH]; intros d; [reflexivity|].
  simpl. rewrite IH. destruct (String.eqb k p) eqn:E; simpl.
  - apply String.eqb_eq in E. subst p. rewrite get_del_same.
    now destruct (Configs.in_list k ps).
  - apply String.eqb_neq in E. rewrite (get_del_other _ _ _ E). reflexivity.
Qed.

(** What is left after the run-time properties are dropped: the creation
    properties, with their values. *)
Lemma get_drop_run_properties (k : string) (x : Configs.Dict) :
  Configs.get k (Configs.drop_run_properties x)
  = if Configs.in_list k Configs.create_configs then Configs.get k x else None.
Proof.
  unfold Configs.drop_run_properties. rewrite get_fold_del.
  destruct (Configs.in_list k (Configs.run_properties x)) eqn:E.
  - apply in_list_In in E. unfold Configs.run_properties in E.
    apply filter_In in E as [_ E]. apply Bool.negb_true_iff in E. now rewrite E.
  - destruct (Configs.in_list k Configs.create_configs) eqn:Ec; [reflexivity|].
    destruct (Configs.get k x) eqn:G; [|reflexivity].
    exfalso. apply Bool.not_true_iff_false in E. apply E. apply in_list_In.
    unfold Configs.run_properties. apply filter_In. split.
    + apply keys_get. congruence.
    + now rewrite Ec.
Qed.

(* ===================================================================== *)
(** ** The export of the cluster configurations *)
(* ===================================================================== *)

(** The keys of a written line other than [aws_attributes]. *)
Lemma clean_cluster_get (ip_list : option (list Configs.Json)) (x line : Configs.Dict)
    (skipped : list string) (k : string) :
  Configs.clean_cluster ip_list x = Configs.Ok (line, skipped) ->
  k <> "aws_attributes" ->
  Configs.get k line
  = if Configs.in_list k Configs.create_configs then Configs.get k x else None.
Proof.
  intros H Hk. unfold Configs.clean_cluster in H.
  assert (Hset : forall v,
             Configs.get k (Configs.set "aws_attributes" v
                              (Configs.del "aws_attributes"
                                 (Configs.drop_run_properties x)))
             = if Configs.in_list k Configs.create_configs
               then Configs.get k x else None).
  { intros v. rewrite (get_set_other _ _ _ _ Hk), (get_del_other _ _ _ Hk).
    apply get_drop_run_properties. }
  destruct (Configs.get "aws_attributes" (Configs.drop_run_properties x)) as [aws|].
  - destruct aws as [| | | |aws_conf|]; try discriminate. cbv zeta in H.
    destruct (Configs.truthy_json
                (default Configs.JNull (Configs.get "instance_profile_arn" aws_conf))).
    + destruct ip_list as [l|]; [|discriminate].
      destruct (default Configs.JNull (Configs.get "instance_profile_arn" aws_conf))
        as [|b|n|role|f|l0]; try discriminate.
      destruct (Configs.role_in role l); inversion H; subst; apply Hset.
    + inversion H; subst; apply Hset.
  - inversion H; subst. apply get_drop_run_properties.
Qed.

(** The [aws_attributes] of a written line: those of the cluster, without
    the instance profile when the role is not registered. *)
Lemma clean_cluster_aws (ip_list : option (list Configs.Json)) (x line : Configs.Dict)
    (skipped : list string) :
  Configs.clean_cluster ip_list x = Configs.Ok (line, skipped) ->
  match Configs.get "aws_attributes" x with
  | None => Configs.get "aws_attributes" line = None /\ skipped = []
  | Some aws =>
      exists aws_conf, aws = Configs.JObj aws_conf /\
        ((Configs.get "aws_attributes" line = Some (Configs.JObj aws_conf) /\
          skipped = [] /\
          forall v, Configs.get "instance_profile_arn" aws_conf = Some v ->
                    Configs.truthy_json v = true ->
                    exists role l, v = Configs.JStr role /\ ip_list = Some l /\
                                   Configs.role_in role l = true)
         \/
         (exists role l,
             Configs.get "instance_profile_arn" aws_conf = Some (Configs.JStr role) /\
             role <> EmptyString /\
             ip_list = Some l /\ Configs.role_in role l = false /\
             skipped = [role] /\
             Configs.get "aws_attributes" line
             = Some (Configs.JObj (Configs.del "instance_profile_arn" aws_conf))))
  end.
Proof.
  intros H. unfold Configs.clean_cluster in H.
  rewrite get_drop_run_properties in H. simpl in H.
  destruct (Configs.get "aws_attributes" x) as [aws|] eqn:G0.
  - destruct aws as [| | | |aws_conf|]; try discriminate.
    exists aws_conf. split; [reflexivity|].
    cbv zeta in H.
    destruct (Configs.truthy_json
                (default Configs.JNull (Configs.get "instance_profile_arn" aws_conf)))
      eqn:Et.
    + destruct ip_list as [l|]; [|discriminate].
      destruct (Configs.get "instance_profile_arn" aws_conf) as [v|] eqn:G;
        [|discriminate]. simpl in H, Et.
      destruct v as [|b|n|role|f|l0]; try discriminate.
      destruct (Configs.role_in role l) eqn:Ein; inversion H; subst.
      * left. rewrite get_set_same. split; [reflexivity|]. split; [reflexivity|].
        intros v Hv Ht. inversion Hv; subst. exists role, l.
        split; [reflexivity|]. split; [reflexivity | exact Ein].
      * right. exists role, l. rewrite get_set_same.
        apply Bool.negb_true_iff, String.eqb_neq in Et.
        split; [reflexivity|]. split; [exact Et|]. split; [reflexivity|].
        split; [exact Ein|]. split; reflexivity.
    + inversion H; subst. left. rewrite get_set_same.
      split; [reflexivity|]. split; [reflexivity|].
      intros v Hv Ht. rewrite Hv in Et. simpl in Et. congruence.
  - inversion H; subst. rewrite get_drop_run_properties. simpl.
    split; [exact G0 | reflexivity].
Qed.

(** The clusters are written in order, one line each, up to the first one
    that raises. *)
Lemma write_clusters_prefix (P : Configs.Dict -> Configs.Dict -> list string -> Prop)
    (ip_list : option (list Configs.Json)) :
  (forall x line skipped,
      Configs.clean_cluster ip_list x = Configs.Ok (line, skipped) -> P x line skipped) ->
  forall cl lines logs e,
    Configs.write_clusters ip_list cl = (lines, logs, e) ->
    exists written rest,
      cl = written ++ rest /\ (e = None -> rest = []) /\
      Forall2 (fun x line => exists skipped, P x line skipped /\ incl skipped logs)
        written lines.
Proof.
  intros HP cl. induction cl as [|x cl IH]; intros lines logs e H; simpl in H.
  - inversion H; subst. exists [], []. repeat split; constructor.
  - destruct (Configs.clean_cluster ip_list x) as [[line skipped]|err] eqn:Ex.
    + destruct (Configs.write_clusters ip_list cl) as [[lines' logs'] e'] eqn:Ew.
      inversion H; subst.
      destruct (IH _ _ _ eq_refl) as (written & rest & -> & He & HF).
      exists (x :: written), rest. split; [reflexivity|]. split; [exact He|].
      constructor.
      * exists skipped. split; [now apply HP | now apply incl_appl].
      * eapply Forall2_impl; [exact HF|].
        intros a b (sk & Hsk & Hincl). exists sk. split; [exact Hsk|].
        now apply incl_appr.
    + inversion H; subst. exists [], (x :: cl). repeat split; [discriminate | constructor].
Qed.



(** A role found in [ip_list] is the ARN of a listed instance profile. *)
Lemma role_in_registered (ips : option (list Configs.Dict)) (l : list Configs.Json)
    (role : string) :
  Configs.ip_list_of ips = Some l -> Configs.role_in role l = true ->
  exists profiles p,
    ips = Some profiles /\ In p profiles /\
    Configs.get "instance_profile_arn" p = Some (Configs.JStr role).
Proof.
  intros Hl Hin. destruct ips as [[|x profiles]|]; try discriminate.
  unfold Configs.ip_list_of in Hl.
  set (arns := List.map (fun p => default Configs.JNull
                                    (Configs.get "instance_profile_arn" p))
                 (x :: profiles)) in Hl.
  assert (Hl' : l = List.filter Configs.truthy_json arns) by congruence.
  clear Hl. unfold Configs.role_in in Hin.
  apply existsb_exists in Hin. destruct Hin as (v & Hv & E).
  destruct v as [| | |s| |]; try discriminate.
  apply String.eqb_eq in E. subst s. rewrite Hl' in Hv.
  apply filter_In in Hv. destruct Hv as [Hv _]. unfold arns in Hv.
  apply in_map_iff in Hv. destruct Hv as (p & Hp & Hin).
  exists (x :: profiles), p. split; [reflexivity|]. split; [exact Hin|].
  destruct (Configs.get "instance_profile_arn" p) as [v|]; simpl in Hp;
    [now subst v | discriminate].
Qed.

(** X16 (clusters.py 84-107).  An instance profile that appears in a written
    line of [clusters.log] is the ARN of an instance profile registered in
    the workspace. *)
Theorem X16_only_registered_roles (ips : option (list Configs.Dict))
    (cl lines : list Configs.Dict) (logs : list string) (e : option Configs.PyError)
    (line aws : Configs.Dict) (v : Configs.Json) :
  Configs.write_clusters (Configs.ip_list_of ips) cl = (lines, logs, e) ->
  In line lines ->
  Configs.get "aws_attributes" line = Some (Configs.JObj aws) ->
  Configs.get "instance_profile_arn" aws = Some v ->
  Configs.truthy_json v = true ->
  exists role profiles p,
    v = Configs.JStr role /\ ips = Some profiles /\ In p profiles /\
    Configs.get "instance_profile_arn" p = Some (Configs.JStr role).
Proof.
  intros H Hline Haws Hv Ht.
  destruct (write_clusters_prefix
              (fun x line skipped =>
                 Configs.clean_cluster (Configs.ip_list_of ips) x
                 = Configs.Ok (line, skipped))
              _ (fun _ _ _ E => E) cl lines logs e H)
    as (written & rest & _ & _ & HF).
  assert (Hx : exists x skipped,
             Configs.clean_cluster (Configs.ip_list_of ips) x
             = Configs.Ok (line, skipped)).
  { clear -HF Hline. induction HF as [|x l0 xs ls (sk & Hsk & _) _ IH].
    - destruct Hline.
    - destruct Hline as [<- | Hline]; [now exists x, sk | now apply IH]. }
  destruct Hx as (x & skipped & Hc).
  pose proof (clean_cluster_aws _ _ _ _ Hc) as Hcase.
  destruct (Configs.get "aws_attributes" x) as [a|].
  - destruct Hcase as (aws_conf & -> & [(Hl & _ & Hreg) | Hdrop]).
    + rewrite Haws in Hl. injection Hl as <-.
      destruct (Hreg v Hv Ht) as (role & l & -> & Hip & Hin).
      destruct (role_in_registered ips l role Hip Hin) as (profiles & p & Hp).
      exists role, profiles, p. tauto.
    + destruct Hdrop as (role & l & _ & _ & _ & _ & _ & Hl).
      rewrite Haws in Hl. injection Hl as ->.
      rewrite get_del_same in Hv. discriminate.
  - destruct Hcase as [Hnone _]. congruence.
Qed.

(** X16 on the cluster with the registered role [etl]. *)
Lemma X16_only_registered_roles_witness :
  exists role profiles p,
    Configs.JStr "arn:aws:iam::1:instance-profile/etl" = Configs.JStr role /\
    Some ConfigExamples.registered = Some profiles /\ In p profiles /\
    Configs.get "instance_profile_arn" p = Some (Configs.JStr role).
Proof.
  eapply (X16_only_registered_roles (Some ConfigExamples.registered)
            [ConfigExamples.with_role] _ _ _ _
            [("zone_id", Configs.JStr "us-west-2a");
             ("instance_profile_arn",
              Configs.JStr "arn:aws:iam::1:instance-profile/etl")]).
  - vm_compute. reflexivity.
  - left. reflexivity.
  - vm_compute. reflexivity.
  - reflexivity.
  - reflexivity.
Defined.

(** A cluster that raises ends the loop with an error before its line. *)
Lemma write_clusters_error (ip_list : option (list Configs.Json))
    (x : Configs.Dict) (err0 : Configs.PyError) (cl : list Configs.Dict) :
  In x cl -> Configs.clean_cluster ip_list x = Configs.Err err0 ->
  exists lines logs err,
    Configs.write_clusters ip_list cl = (lines, logs, Some err) /\
    (length lines < length cl)%nat.
Proof.
  intros Hin Hx. induction cl as [|y cl IH]; [destruct Hin|].
  simpl. destruct (Configs.clean_cluster ip_list y) as [[line skipped]|err] eqn:Ey.
  - destruct Hin as [-> | Hin]; [congruence|].
    destruct (IH Hin) as (lines & logs & err & -> & Hlen).
    exists (line :: lines), (skipped ++ logs), err. split; [reflexivity|]. simpl. lia.
  - exists [], [], err. split; [reflexivity|]. simpl. lia.
Qed.

(** X17 (clusters.py 84-102).  When the workspace lists no instance profile,
    [ip_list] is never assigned: a cluster that carries an instance profile
    raises [UnboundLocalError], and the export of the clusters ends with an
    error and fewer lines than clusters. *)
Theorem X17_no_profiles_unbound_ip_list (ips : option (list Configs.Dict))
    (cl : list Configs.Dict) (x aws : Configs.Dict) (role : Configs.Json) :
  ips = None \/ ips = Some [] ->
  In x cl ->
  Configs.get "aws_attributes" x = Some (Configs.JObj aws) ->
  Configs.get "instance_profile_arn" aws = Some role ->
  Configs.truthy_json role = true ->
  Configs.clean_cluster (Configs.ip_list_of ips) x
  = Configs.Err (Configs.PyUnboundLocalError "ip_list") /\
  exists lines logs err,
    Configs.write_clusters (Configs.ip_list_of ips) cl = (lines, logs, Some err) /\
    (length lines < length cl)%nat.
Proof.
  intros Hips Hin Haws Hrole Hne.
  assert (Hx : Configs.clean_cluster (Configs.ip_list_of ips) x
               = Configs.Err (Configs.PyUnboundLocalError "ip_list")).
  { unfold Configs.clean_cluster. rewrite get_drop_run_properties. simpl.
    rewrite Haws, Hrole. simpl. rewrite Hne.
    now destruct Hips as [-> | ->]. }
  split; [exact Hx|]. eapply write_clusters_error; eassumption.
Qed.

(** X17 on a workspace without instance profiles: the cluster [plain] is
    written, the cluster with a role raises. *)
Lemma X17_no_profiles_unbound_ip_list_witness :
  Configs.clean_cluster (Configs.ip_list_of None) ConfigExamples.with_role
  = Configs.Err (Configs.PyUnboundLocalError "ip_list") /\
  exists lines logs err,
    Configs.write_clusters (Configs.ip_list_of None)
      [ConfigExamples.plain; ConfigExamples.with_role] = (lines, logs, Some err) /\
    (length lines < 2)%nat.
Proof.
  apply (X17_no_profiles_unbound_ip_list None
           [ConfigExamples.plain; ConfigExamples.with_role] ConfigExamples.with_role
           [("zone_id", Configs.JStr "us-west-2a");
            ("instance_profile_arn",
             Configs.JStr "arn:aws:iam::1:instance-profile/etl")]
           (Configs.JStr "arn:aws:iam::1:instance-profile/etl")).
  - left. reflexivity.
  - right. left. reflexivity.
  - reflexivity.
  - reflexivity.
  - reflexivity.
Defined.

(* ===================================================================== *)
(** ** Instance pools *)
(* ===================================================================== *)

(** The dictionary of the current pools knows exactly their names. *)
Lemma new_pools_of_dom (current : list Configs.Pool) :
  Forall pool_complete current ->
  forall acc, exists m,
    Configs.new_pools_of current acc = Configs.Ok m /\
    forall name,
      m !! name = None <->
      acc !! name = None /\
      ~ In (Some name) (List.map Configs.instance_pool_name current).
Proof.
  induction 1 as [|p current [Hn Hi] _ IH]; intros acc.
  - exists acc. split; [reflexivity|]. intros name. simpl. tauto.
  - destruct p as [[n|] [i|]]; simpl in *; try congruence.
    destruct (IH (<[n := i]> acc)) as (m & -> & Hm).
    exists m. split; [reflexivity|]. intros name. rewrite Hm.
    destruct (decide (n = name)) as [-> | Hne].
    + rewrite lookup_insert_eq. split; [intros [? _]; discriminate|].
      intros [_ Hnot]. exfalso. apply Hnot. now left.
    + rewrite lookup_insert_ne by exact Hne. split.
      * intros [Ha Hnot]. split; [exact Ha|]. intros [E | Hin]; [congruence | tauto].
      * intros [Ha Hnot]. split; [exact Ha|]. intros Hin. apply Hnot. now right.
Qed.

(** With unique names it maps each name to the id of its pool. *)
Lemma new_pools_of_lookup (current : list Configs.Pool) :
  Forall pool_complete current ->
  List.NoDup (List.map Configs.instance_pool_name current) ->
  forall acc, exists m,
    Configs.new_pools_of current acc = Configs.Ok m /\
    (forall name id, In (Configs.mkPool (Some name) (Some id)) current ->
                     m !! name = Some id) /\
    (forall name, ~ In (Some name) (List.map Configs.instance_pool_name current) ->
                  m !! name = acc !! name).
Proof.
  induction 1 as [|p current [Hn Hi] _ IH]; intros Hnd acc.
  - exists acc. split; [reflexivity|]. split; [intros ? ? [] | reflexivity].
  - destruct p as [[n|] [i|]]; simpl in *; try congruence.
    apply List.NoDup_cons_iff in Hnd as [Hfresh Hnd].
    destruct (IH Hnd (<[n := i]> acc)) as (m & -> & Hin & Hout).
    exists m. split; [reflexivity|]. split.
    + intros name id [E | H]; [|now apply Hin].
      injection E as <- <-. rewrite (Hout n Hfresh). apply lookup_insert_eq.
    + intros name Hnot. rewrite Hout by tauto.
      apply lookup_insert_ne. intros ->. apply Hnot. now left.
Qed.

(** The loop over the logged pools, when every name is known. *)
Lemma pool_mapping_lookup (new_pools : gmap string string) (pool_log : list Configs.Pool) :
  Forall (fun p => exists old name new,
              p = Configs.mkPool (Some name) (Some old) /\
              new_pools !! name = Some new) pool_log ->
  List.NoDup (List.map Configs.instance_pool_id pool_log) ->
  forall acc, exists m,
    Configs.pool_mapping new_pools pool_log acc = Configs.Ok m /\
    (forall old name, In (Configs.mkPool (Some name) (Some old)) pool_log ->
                      m !! old = new_pools !! name) /\
    (forall old, ~ In (Some old) (List.map Configs.instance_pool_id pool_log) ->
                 m !! old = acc !! old).
Proof.
  induction 1 as [|p pool_log (o & n & i & -> & Hi) _ IH]; intros Hnd acc.
  - exists acc. split; [reflexivity|]. split; [intros ? ? [] | reflexivity].
  - simpl in *. rewrite Hi. apply List.NoDup_cons_iff in Hnd as [Hfresh Hnd].
    destruct (IH Hnd (<[o := i]> acc)) as (m & -> & Hin & Hout).
    exists m. split; [reflexivity|]. split.
    + intros old name [E | H]; [|now apply Hin].
      injection E as <- <-. rewrite (Hout o Hfresh), Hi. apply lookup_insert_eq.
    + intros old Hnot. rewrite Hout by tauto.
      apply lookup_insert_ne. intros ->. apply Hnot. now left.
Qed.

(** X18 (clusters.py 236-254).  With pools named uniquely in the workspace
    and every exported pool created there, [get_instance_pool_id_mapping]
    maps the id of each exported pool to the id of the pool of the workspace
    that has its name, and maps nothing else. *)
Theorem X18_pool_id_mapping (current pool_log : list Configs.Pool) :
  current <> [] ->
  Forall pool_complete current ->
  List.NoDup (List.map Configs.instance_pool_name current) ->
  Forall (fun p => Configs.instance_pool_id p <> None /\
                   exists name, Configs.instance_pool_name p = Some name /\
                     In (Some name) (List.map Configs.instance_pool_name current))
    pool_log ->
  List.NoDup (List.map Configs.instance_pool_id pool_log) ->
  exists m,
    Configs.get_instance_pool_id_mapping (Some current) (Some pool_log)
    = Configs.Ok (Some m) /\
    (forall old name new,
        In (Configs.mkPool (Some name) (Some old)) pool_log ->
        In (Configs.mkPool (Some name) (Some new)) current ->
        m !! old = Some new) /\
    (forall old, m !! old <> None ->
                 In (Some old) (List.map Configs.instance_pool_id pool_log)).
Proof.
  intros Hne Hcur Hnd Hlog Hndl.
  destruct (new_pools_of_lookup current Hcur Hnd ∅) as (new_pools & Hnew & Hin & _).
  destruct (new_pools_of_dom current Hcur ∅) as (new_pools' & Hnew' & Hdom).
  rewrite Hnew in Hnew'. injection Hnew' as <-.
  assert (Hknown : Forall (fun p => exists old name new,
                              p = Configs.mkPool (Some name) (Some old) /\
                              new_pools !! name = Some new) pool_log).
  { eapply Forall_impl; [exact Hlog|].
    intros [n o] [Ho (name & Hn & Hcurr)]. simpl in *. subst n.
    destruct o as [old|]; [|congruence].
    destruct (new_pools !! name) as [new|] eqn:E.
    - now exists old, name, new.
    - apply Hdom in E as [_ E]. contradiction. }
  destruct (pool_mapping_lookup new_pools pool_log Hknown Hndl ∅)
    as (m & Hm & Hmin & Hmout).
  exists m. split.
  - unfold Configs.get_instance_pool_id_mapping.
    destruct current as [|p ps]; [congruence|]. now rewrite Hnew, Hm.
  - split.
    + intros old name new Hl Hc. rewrite (Hmin old name Hl). now apply Hin.
    + intros old Hsome.
      destruct (decide (Some old ∈ List.map Configs.instance_pool_id pool_log))
        as [H | H]; [now apply list_elem_of_In in H|].
      rewrite Hmout in Hsome; [now rewrite lookup_empty in Hsome|].
      intros Hold. apply H. now apply list_elem_of_In.
Qed.

(** X18 on two exported pools and the two pools created from them. *)
Lemma X18_pool_id_mapping_witness :
  exists m,
    Configs.get_instance_pool_id_mapping (Some ConfigExamples.current_pools)
      (Some ConfigExamples.logged_pools) = Configs.Ok (Some m) /\
    (forall old name new,
        In (Configs.mkPool (Some name) (Some old)) ConfigExamples.logged_pools ->
        In (Configs.mkPool (Some name) (Some new)) ConfigExamples.current_pools ->
        m !! old = Some new) /\
    (forall old, m !! old <> None ->
                 In (Some old)
                   (List.map Configs.instance_pool_id ConfigExamples.logged_pools)).
Proof.
  apply (X18_pool_id_mapping ConfigExamples.current_pools ConfigExamples.logged_pools).
  - discriminate.
  - repeat constructor; discriminate.
  - repeat constructor; simpl; intuition discriminate.
  - repeat constructor; try discriminate.
    + exists "small". split; [reflexivity|]. simpl. tauto.
    + exists "large". split; [reflexivity|]. simpl. tauto.
  - repeat constructor; simpl; intuition discriminate.
Defined.

(** The loop over the logged pools stops at the first unknown name. *)
Lemma pool_mapping_missing (new_pools : gmap string string)
    (pool_log : list Configs.Pool) :
  Forall pool_complete pool_log ->
  (exists p name, In p pool_log /\ Configs.instance_pool_name p = Some name /\
                  new_pools !! name = None) ->
  forall acc, exists name',
    Configs.pool_mapping new_pools pool_log acc
    = Configs.Err (Configs.PyKeyError (Configs.JStr name')) /\
    new_pools !! name' = None /\
    In (Some name') (List.map Configs.instance_pool_name pool_log).
Proof.
  induction 1 as [|q pool_log [Hn Hi] _ IH]; intros (p & name & Hin & Hp & Hnone) acc.
  - destruct Hin.
  - destruct q as [[n|] [o|]]; simpl in *; try congruence.
    destruct (new_pools !! n) as [new|] eqn:E.
    + destruct Hin as [<- | Hin]; [simpl in Hp; congruence|].
      destruct (IH (ex_intro _ p (ex_intro _ name (conj Hin (conj Hp Hnone))))
                  (<[o := new]> acc)) as (name' & -> & Hnone' & Hin').
      exists name'. split; [reflexivity|]. split; [exact Hnone' | now right].
    + exists n. split; [reflexivity|]. split; [exact E | now left].
Qed.

(** X19 (clusters.py 236-254).  An exported pool whose name no pool of the
    workspace has makes [get_instance_pool_id_mapping] raise [KeyError] with
    the name of such a pool. *)
Theorem X19_pool_not_created (current pool_log : list Configs.Pool)
    (p : Configs.Pool) (name : string) :
  current <> [] ->
  Forall pool_complete current -> Forall pool_complete pool_log ->
  In p pool_log -> Configs.instance_pool_name p = Some name ->
  ~ In (Some name) (List.map Configs.instance_pool_name current) ->
  exists name',
    Configs.get_instance_pool_id_mapping (Some current) (Some pool_log)
    = Configs.Err (Configs.PyKeyError (Configs.JStr name')) /\
    ~ In (Some name') (List.map Configs.instance_pool_name current) /\
    In (Some name') (List.map Configs.instance_pool_name pool_log).
Proof.
  intros Hne Hcur Hlog Hin Hp Hnot.
  destruct (new_pools_of_dom current Hcur ∅) as (new_pools & Hnew & Hdom).
  destruct (pool_mapping_missing new_pools pool_log Hlog) with (acc := ∅ : gmap string string)
    as (name' & Hm & Hnone & Hin').
  { exists p, name. split; [exact Hin|]. split; [exact Hp|].
    apply Hdom. split; [apply lookup_empty | exact Hnot]. }
  exists name'. split.
  - unfold Configs.get_instance_pool_id_mapping.
    destruct current as [|c cs]; [congruence|]. now rewrite Hnew, Hm.
  - split; [now apply Hdom in Hnone | exact Hin'].
Qed.

(** X19 when only the pool [large] has been created. *)
Lemma X19_pool_not_created_witness :
  exists name',
    Configs.get_instance_pool_id_mapping
      (Some [Configs.mkPool (Some "large") (Some "new-7")])
      (Some ConfigExamples.logged_pools)
    = Configs.Err (Configs.PyKeyError (Configs.JStr name')) /\
    ~ In (Some name')
        (List.map Configs.instance_pool_name
           [Configs.mkPool (Some "large") (Some "new-7")]) /\
    In (Some name') (List.map Configs.instance_pool_name ConfigExamples.logged_pools).
Proof.
  apply (X19_pool_not_created [Configs.mkPool (Some "large") (Some "new-7")]
           ConfigExamples.logged_pools (Configs.mkPool (Some "small") (Some "old-1"))
           "small").
  - discriminate.
  - repeat constructor; discriminate.
  - repeat constructor; discriminate.
  - left. reflexivity.
  - reflexivity.
  - simpl. intuition discriminate.
Defined.

(* ===================================================================== *)
(** ** The import of the cluster configurations *)
(* ===================================================================== *)

Lemma pop_ok (k : string) (d d' : Configs.Dict) (v : Configs.Json) :
  Configs.pop k d = Configs.Ok (v, d') ->
  Configs.get k d = Some v /\ d' = Configs.del k d.
Proof.
  unfold Configs.pop. destruct (Configs.get k d); [|discriminate].
  intros H. inversion H. split; reflexivity.
Qed.

(** The tag of the creator is set, the other tags and keys stay. *)
Lemma tag_creator_ok (c c' : Configs.Dict) (creator : Configs.Json) :
  Configs.tag_creator c creator = Configs.Ok c' ->
  (forall k, k <> "custom_tags" -> Configs.get k c' = Configs.get k c) /\
  exists tags,
    Configs.get "custom_tags" c' = Some (Configs.JObj tags) /\
    Configs.get "OriginalCreator" tags = Some creator /\
    forall k old_tags,
      k <> "OriginalCreator" ->
      Configs.get "custom_tags" c = Some (Configs.JObj old_tags) ->
      Configs.get k tags = Configs.get k old_tags.
Proof.
  unfold Configs.tag_creator. intros H.
  destruct (Configs.get "custom_tags" c) as [[| | | |tags|]|] eqn:G;
    try discriminate; inversion H; subst; clear H.
  - split; [intros k Hk; now apply get_set_other|].
    exists (Configs.set "OriginalCreator" creator tags).
    split; [apply get_set_same|]. split; [apply get_set_same|].
    intros k old_tags Hk Hold. injection Hold as <-. now apply get_set_other.
  - split; [intros k Hk; now apply get_set_other|].
    exists [("OriginalCreator", creator)].
    split; [apply get_set_same|]. split; [reflexivity|].
    intros k old_tags _ Hold. discriminate.
Qed.

(** The AWS attributes of a pool cluster: dropped when they name an
    instance profile, reduced to an empty instance profile otherwise. *)
Lemma pool_aws_attributes_ok (c c' : Configs.Dict) :
  Configs.pool_aws_attributes c = Configs.Ok c' ->
  (forall k, k <> "aws_attributes" -> Configs.get k c' = Configs.get k c) /\
  match Configs.get "aws_attributes" c with
  | None => Configs.get "aws_attributes" c' = None
  | Some aws =>
      exists aws_conf, aws = Configs.JObj aws_conf /\
        Configs.get "aws_attributes" c'
        = let iam_role :=
            default Configs.JNull (Configs.get "instance_profile_arn" aws_conf) in
          if Configs.truthy_json iam_role then None
          else Some (Configs.JObj [("instance_profile_arn", iam_role)])
  end.
Proof.
  unfold Configs.pool_aws_attributes. intros H.
  destruct (Configs.get "aws_attributes" c) as [[| | | |aws_conf|]|] eqn:G;
    try discriminate.
  - destruct (Configs.truthy_json
                (default Configs.JNull (Configs.get "instance_profile_arn" aws_conf)))
      eqn:Et; simpl in H; inversion H; subst; clear H.
    + split; [intros k Hk; now apply get_del_other|].
      exists aws_conf. split; [reflexivity|]. simpl. rewrite Et. apply get_del_same.
    + split.
      * intros k Hk. rewrite get_set_other by exact Hk. now apply get_del_other.
      * exists aws_conf. split; [reflexivity|]. simpl. rewrite Et. apply get_set_same.
  - inversion H; subst. split; [reflexivity | exact G].
Qed.

(** The steps of a clean-up that returns. *)
Lemma cleanup_ok (mapping : Configs.Result (option (gmap string string)))
    (c c' : Configs.Dict) (creator : Configs.Json) :
  Configs.cleanup_cluster_pool_configs mapping c creator = Configs.Ok c' ->
  exists pool_id_dict c4 c5 old new,
    mapping = Configs.Ok pool_id_dict /\
    Configs.tag_creator
      (Configs.del "enable_elastic_disk"
         (Configs.del "driver_node_type_id" (Configs.del "node_type_id" c)))
      creator = Configs.Ok c4 /\
    Configs.pool_aws_attributes c4 = Configs.Ok c5 /\
    Configs.get "instance_pool_id" c5 = Some old /\
    Configs.lookup_pool pool_id_dict old = Configs.Ok new /\
    c' = Configs.set "instance_pool_id" (Configs.JStr new) c5.
Proof.
  unfold Configs.cleanup_cluster_pool_configs. intros H.
  destruct mapping as [pool_id_dict|]; [|discriminate]. simpl in H.
  destruct (Configs.pop "node_type_id" c) as [[v1 c1]|] eqn:E1; [|discriminate].
  apply pop_ok in E1 as [_ ->]. simpl in H.
  destruct (Configs.pop "driver_node_type_id" _) as [[v2 c2]|] eqn:E2; [|discriminate].
  apply pop_ok in E2 as [_ ->]. simpl in H.
  destruct (Configs.pop "enable_elastic_disk" _) as [[v3 c3]|] eqn:E3; [|discriminate].
  apply pop_ok in E3 as [_ ->]. simpl in H.
  destruct (Configs.tag_creator _ creator) as [c4|] eqn:E4; [|discriminate]. simpl in H.
  destruct (Configs.pool_aws_attributes c4) as [c5|] eqn:E5; [|discriminate]. simpl in H.
  unfold Configs.item in H.
  destruct (Configs.get "instance_pool_id" c5) as [old|] eqn:E6; [|discriminate].
  simpl in H.
  destruct (Configs.lookup_pool pool_id_dict old) as [new|] eqn:E7; [|discriminate].
  simpl in H. inversion H; subst.
  exists pool_id_dict, c4, c5, old, new. auto 10.
Qed.

(** X20 (clusters.py 109-137).  When [cleanup_cluster_pool_configs] returns,
    the node types and [enable_elastic_disk] are gone, the pool id is the one
    the mapping gives for the old pool id, [custom_tags] holds the creator
    under [OriginalCreator] beside the tags the cluster had, and every other
    key but [aws_attributes] is as it was. *)
Theorem X20_pool_cluster_cleanup (mapping : Configs.Result (option (gmap string string)))
    (c c' : Configs.Dict) (creator : Configs.Json) :
  Configs.cleanup_cluster_pool_configs mapping c creator = Configs.Ok c' ->
  (Configs.get "node_type_id" c' = None /\
   Configs.get "driver_node_type_id" c' = None /\
   Configs.get "enable_elastic_disk" c' = None) /\
  (exists m old new,
      mapping = Configs.Ok (Some m) /\
      Configs.get "instance_pool_id" c = Some (Configs.JStr old) /\
      m !! old = Some new /\
      Configs.get "instance_pool_id" c' = Some (Configs.JStr new)) /\
  (exists tags,
      Configs.get "custom_tags" c' = Some (Configs.JObj tags) /\
      Configs.get "OriginalCreator" tags = Some creator /\
      forall k old_tags,
        k <> "OriginalCreator" ->
        Configs.get "custom_tags" c = Some (Configs.JObj old_tags) ->
        Configs.get k tags = Configs.get k old_tags) /\
  (forall k,
      ~ In k ["node_type_id"; "driver_node_type_id"; "enable_elastic_disk";
              "custom_tags"; "aws_attributes"; "instance_pool_id"] ->
      Configs.get k c' = Configs.get k c).
Proof.
  intros H.
  destruct (cleanup_ok _ _ _ _ H)
    as (pool_id_dict & c4 & c5 & old & new & -> & Ht & Ha & Hold & Hl & ->).
  destruct (tag_creator_ok _ _ _ Ht) as (Htk & tags & Htags & Hcr & Hrest).
  destruct (pool_aws_attributes_ok _ _ Ha) as (Hak & _).
  set (c3 := Configs.del "enable_elastic_disk"
               (Configs.del "driver_node_type_id" (Configs.del "node_type_id" c)))
    in *.
  assert (Hc3 : forall k, k <> "node_type_id" -> k <> "driver_node_type_id" ->
                          k <> "enable_elastic_disk" ->
                          Configs.get k c3 = Configs.get k c).
  { intros k H1 H2 H3. unfold c3. now rewrite !get_del_other. }
  assert (Hgone : forall k, k = "node_type_id" \/ k = "driver_node_type_id" \/
                            k = "enable_elastic_disk" ->
                            Configs.get k c3 = None).
  { intros k Hk. unfold c3. destruct Hk as [-> | [-> | ->]].
    - rewrite !get_del_other by discriminate. apply get_del_same.
    - rewrite get_del_other by discriminate. apply get_del_same.
    - apply get_del_same. }
  split; [|split; [|split]].
  - repeat split;
      (rewrite get_set_other by discriminate; rewrite Hak by discriminate;
       rewrite Htk by discriminate; apply Hgone; tauto).
  - rewrite Hak, Htk, Hc3 in Hold by discriminate.
    destruct pool_id_dict as [m|]; [|discriminate].
    destruct old as [| | |s| |]; simpl in Hl; try discriminate.
    destruct (m !! s) as [new'|] eqn:E; [|discriminate]. injection Hl as ->.
    exists m, s, new. split; [reflexivity|]. split; [exact Hold|].
    split; [exact E | apply get_set_same].
  - exists tags. rewrite get_set_other by discriminate.
    rewrite Hak by discriminate. split; [exact Htags|]. split; [exact Hcr|].
    intros k old_tags Hk Hc. apply Hrest; [exact Hk|].
    rewrite Hc3 by discriminate. exact Hc.
  - intros k Hk.
    assert (Hne : forall k', In k' ["node_type_id"; "driver_node_type_id";
                                    "enable_elastic_disk"; "custom_tags";
                                    "aws_attributes"; "instance_pool_id"] ->
                             k <> k').
    { intros k' Hin ->. contradiction. }
    rewrite get_set_other by (apply Hne; simpl; tauto).
    rewrite Hak by (apply Hne; simpl; tauto).
    rewrite Htk by (apply Hne; simpl; tauto).
    apply Hc3; apply Hne; simpl; tauto.
Qed.

(** X20 on the pool cluster of the examples and the mapping of its pool:
    the cluster moves from pool [old-1] to pool [new-8]. *)
Lemma X20_pool_cluster_cleanup_witness :
  let mapping :=
    Configs.get_instance_pool_id_mapping (Some ConfigExamples.current_pools)
      (Some ConfigExamples.logged_pools) in
  let c' :=
    [("cluster_name", Configs.JStr "pooled");
     ("custom_tags",
      Configs.JObj [("team", Configs.JStr "data");
                    ("OriginalCreator", Configs.JStr "ann@example.com")]);
     ("instance_pool_id", Configs.JStr "new-8");
     ("creator_user_name", Configs.JStr "ann@example.com")] in
  (Configs.get "node_type_id" c' = None /\
   Configs.get "driver_node_type_id" c' = None /\
   Configs.get "enable_elastic_disk" c' = None) /\
  (exists m old new,
      mapping = Configs.Ok (Some m) /\
      Configs.get "instance_pool_id" ConfigExamples.pooled = Some (Configs.JStr old) /\
      m !! old = Some new /\
      Configs.get "instance_pool_id" c' = Some (Configs.JStr new)) /\
  (exists tags,
      Configs.get "custom_tags" c' = Some (Configs.JObj tags) /\
      Configs.get "OriginalCreator" tags = Some (Configs.JStr "ann@example.com") /\
      forall k old_tags,
        k <> "OriginalCreator" ->
        Configs.get "custom_tags" ConfigExamples.pooled = Some (Configs.JObj old_tags) ->
        Configs.get k tags = Configs.get k old_tags) /\
  (forall k,
      ~ In k ["node_type_id"; "driver_node_type_id"; "enable_elastic_disk";
              "custom_tags"; "aws_attributes"; "instance_pool_id"] ->
      Configs.get k c' = Configs.get k ConfigExamples.pooled).
Proof.
  intros mapping c'.
  apply (X20_pool_cluster_cleanup mapping ConfigExamples.pooled c'
           (Configs.JStr "ann@example.com")).
  vm_compute. reflexivity.
Defined.

(** X21 (clusters.py 128-133).  A pool cluster that names an instance
    profile is imported without AWS attributes; one whose AWS attributes name
    none keeps only an empty [instance_profile_arn]. *)
Theorem X21_pool_cluster_instance_profile
    (mapping : Configs.Result (option (gmap string string)))
    (c c' aws : Configs.Dict) (creator : Configs.Json) :
  Configs.cleanup_cluster_pool_configs mapping c creator = Configs.Ok c' ->
  Configs.get "aws_attributes" c = Some (Configs.JObj aws) ->
  Configs.get "aws_attributes" c'
  = let iam_role := default Configs.JNull (Configs.get "instance_profile_arn" aws) in
    if Configs.truthy_json iam_role then None
    else Some (Configs.JObj [("instance_profile_arn", iam_role)]).
Proof.
  intros H Haws.
  destruct (cleanup_ok _ _ _ _ H)
    as (pool_id_dict & c4 & c5 & old & new & -> & Ht & Ha & Hold & Hl & ->).
  destruct (tag_creator_ok _ _ _ Ht) as (Htk & _).
  destruct (pool_aws_attributes_ok _ _ Ha) as (_ & Hcase).
  rewrite Htk in Hcase by discriminate.
  rewrite !get_del_other in Hcase by discriminate. rewrite Haws in Hcase.
  destruct Hcase as (aws_conf & E & Hget). injection E as <-.
  rewrite get_set_other by discriminate. exact Hget.
Qed.

(** X21 on the pool cluster of the examples: its instance profile is lost. *)
Lemma X21_pool_cluster_instance_profile_witness :
  Configs.get "aws_attributes"
    [("cluster_name", Configs.JStr "pooled");
     ("custom_tags",
      Configs.JObj [("team", Configs.JStr "data");
                    ("OriginalCreator", Configs.JStr "ann@example.com")]);
     ("instance_pool_id", Configs.JStr "new-8");
     ("creator_user_name", Configs.JStr "ann@example.com")]
  = None.
Proof.
  apply (X21_pool_cluster_instance_profile
           (Configs.get_instance_pool_id_mapping (Some ConfigExamples.current_pools)
              (Some ConfigExamples.logged_pools))
           ConfigExamples.pooled _
           [("zone_id", Configs.JStr "us-west-2a");
            ("instance_profile_arn",
             Configs.JStr "arn:aws:iam::1:instance-profile/etl")]
           (Configs.JStr "ann@example.com")).
  - vm_compute. reflexivity.
  - reflexivity.
Defined.

(** What the clean-up of a pool cluster keeps, and the tag it sets. *)
Lemma cleanup_keeps (mapping : Configs.Result (option (gmap string string)))
    (c c' : Configs.Dict) (creator : Configs.Json) :
  Configs.cleanup_cluster_pool_configs mapping c creator = Configs.Ok c' ->
  (forall k,
      ~ In k ["node_type_id"; "driver_node_type_id"; "enable_elastic_disk";
              "custom_tags"; "aws_attributes"; "instance_pool_id"] ->
      Configs.get k c' = Configs.get k c) /\
  exists tags,
    Configs.get "custom_tags" c' = Some (Configs.JObj tags) /\
    Configs.get "OriginalCreator" tags = Some creator.
Proof.
  intros H.
  destruct (cleanup_ok _ _ _ _ H)
    as (pool_id_dict & c4 & c5 & old & new & -> & Ht & Ha & Hold & Hl & ->).
  destruct (tag_creator_ok _ _ _ Ht) as (Htk & tags & Htags & Hcr & _).
  destruct (pool_aws_attributes_ok _ _ Ha) as (Hak & _).
  split.
  - intros k Hk.
    assert (Hne : forall k', In k' ["node_type_id"; "driver_node_type_id";
                                    "enable_elastic_disk"; "custom_tags";
                                    "aws_attributes"; "instance_pool_id"] ->
                             k <> k').
    { intros k' Hin ->. contradiction. }
    rewrite get_set_other by (apply Hne; simpl; tauto).
    rewrite Hak by (apply Hne; simpl; tauto).
    rewrite Htk by (apply Hne; simpl; tauto).
    rewrite !get_del_other by (apply Hne; simpl; tauto). reflexivity.
  - exists tags. rewrite get_set_other by discriminate.
    rewrite Hak by discriminate. split; [exact Htags | exact Hcr].
Qed.

(** X22 (clusters.py 153-171).  A configuration that the import passes to
    [create_cluster] carries the name of the logged cluster, which no cluster
    of the workspace has, has no [creator_user_name], and holds the logged
    creator under [OriginalCreator] in [custom_tags]. *)
Theorem X22_import_tags_creator (mapping : Configs.Result (option (gmap string string)))
    (current_cluster_names : list (option string)) (cluster_conf c' : Configs.Dict) :
  Configs.new_cluster_conf mapping current_cluster_names cluster_conf
  = Configs.Ok (Some c') ->
  exists name creator tags,
    Configs.get "cluster_name" cluster_conf = Some name /\
    Configs.name_in name current_cluster_names = Configs.Ok false /\
    Configs.get "cluster_name" c' = Some name /\
    Configs.get "creator_user_name" cluster_conf = Some creator /\
    Configs.get "creator_user_name" c' = None /\
    Configs.get "custom_tags" c' = Some (Configs.JObj tags) /\
    Configs.get "OriginalCreator" tags = Some creator.
Proof.
  unfold Configs.new_cluster_conf, Configs.item. intros H.
  destruct (Configs.get "cluster_name" cluster_conf) as [name|] eqn:Hname;
    [|discriminate]. simpl in H.
  destruct (Configs.name_in name current_cluster_names) as [[|]|] eqn:Hin;
    try discriminate. simpl in H.
  destruct (Configs.pop "creator_user_name" cluster_conf) as [[creator conf1]|] eqn:Hpop;
    [|discriminate].
  apply pop_ok in Hpop as [Hcreator ->]. simpl in H.
  exists name, creator.
  destruct (Configs.has "instance_pool_id" _).
  - destruct (Configs.cleanup_cluster_pool_configs mapping _ creator) as [c1|] eqn:Hc;
      [|discriminate]. simpl in H. injection H as ->.
    destruct (cleanup_keeps _ _ _ _ Hc) as (Hkeep & tags & Htags & Hcr).
    exists tags. rewrite !Hkeep by (simpl; intuition discriminate).
    rewrite get_del_other by discriminate. rewrite get_del_same. auto 10.
  - destruct (Configs.tag_creator _ creator) as [c1|] eqn:Hc; [|discriminate].
    simpl in H. injection H as ->.
    destruct (tag_creator_ok _ _ _ Hc) as (Hk & tags & Htags & Hcr & _).
    exists tags. rewrite !Hk by discriminate.
    rewrite get_del_other by discriminate. rewrite get_del_same. auto 10.
Qed.

(** X22 on the pool cluster of the examples, in a workspace that has a
    cluster [etl] only. *)
Lemma X22_import_tags_creator_witness :
  exists name creator tags,
    Configs.get "cluster_name" ConfigExamples.pooled = Some name /\
    Configs.name_in name [Some "etl"] = Configs.Ok false /\
    Configs.get "cluster_name"
      [("cluster_name", Configs.JStr "pooled");
       ("custom_tags",
        Configs.JObj [("team", Configs.JStr "data");
                      ("OriginalCreator", Configs.JStr "ann@example.com")]);
       ("instance_pool_id", Configs.JStr "new-8")] = Some name /\
    Configs.get "creator_user_name" ConfigExamples.pooled = Some creator /\
    Configs.get "creator_user_name"
      [("cluster_name", Configs.JStr "pooled");
       ("custom_tags",
        Configs.JObj [("team", Configs.JStr "data");
                      ("OriginalCreator", Configs.JStr "ann@example.com")]);
       ("instance_pool_id", Configs.JStr "new-8")] = None /\
    Configs.get "custom_tags"
      [("cluster_name", Configs.JStr "pooled");
       ("custom_tags",
        Configs.JObj [("team", Configs.JStr "data");
                      ("OriginalCreator", Configs.JStr "ann@example.com")]);
       ("instance_pool_id", Configs.JStr "new-8")] = Some (Configs.JObj tags) /\
    Configs.get "OriginalCreator" tags = Some creator.
Proof.
  apply (X22_import_tags_creator
           (Configs.get_instance_pool_id_mapping (Some ConfigExamples.current_pools)
              (Some ConfigExamples.logged_pools))
           [Some "etl"] ConfigExamples.pooled).
  vm_compute. reflexivity.
Defined.

(** X23 (clusters.py 116, 136, 160-161, 239-240).  In a workspace without
    instance pools the mapping is [None], so no cluster of the log that is on
    a pool is passed to [create_cluster]: the line is skipped or raises. *)
Theorem X23_pool_cluster_without_pools (current pool_log : option (list Configs.Pool))
    (current_cluster_names : list (option string)) (cluster_conf c' : Configs.Dict) :
  current = None \/ current = Some [] ->
  Configs.get "instance_pool_id" cluster_conf <> None ->
  Configs.new_cluster_conf (Configs.get_instance_pool_id_mapping current pool_log)
    current_cluster_names cluster_conf
  <> Configs.Ok (Some c').
Proof.
  intros Hcur Hpool H.
  assert (Hmap : Configs.get_instance_pool_id_mapping current pool_log
                 = Configs.Ok None) by (now destruct Hcur as [-> | ->]).
  rewrite Hmap in H. clear Hmap Hcur.
  unfold Configs.new_cluster_conf, Configs.item in H.
  set (clean := Configs.cleanup_cluster_pool_configs (Configs.Ok None)) in H.
  destruct (Configs.get "cluster_name" cluster_conf) as [name|]; [|discriminate].
  simpl in H.
  destruct (Configs.name_in name current_cluster_names) as [[|]|]; try discriminate.
  simpl in H.
  destruct (Configs.pop "creator_user_name" cluster_conf) as [[creator conf1]|] eqn:Hpop;
    [|discriminate].
  apply pop_ok in Hpop as [_ ->]. simpl in H.
  unfold Configs.has in H. rewrite get_del_other in H by discriminate.
  destruct (Configs.get "instance_pool_id" cluster_conf) as [old|]; [|congruence].
  destruct (clean (Configs.del "creator_user_name" cluster_conf) creator)
    as [c1|] eqn:Hc; [|discriminate].
  destruct (cleanup_ok _ _ _ _ Hc)
    as (pool_id_dict & c4 & c5 & old' & new & E & _ & _ & _ & Hl & _).
  injection E as <-. discriminate.
Qed.

(** X23 on the pool cluster of the examples. *)
Lemma X23_pool_cluster_without_pools_witness :
  Configs.new_cluster_conf
    (Configs.get_instance_pool_id_mapping (Some []) (Some ConfigExamples.logged_pools))
    [Some "etl"] ConfigExamples.pooled
  <> Configs.Ok (Some ConfigExamples.pooled).
Proof.
  apply (X23_pool_cluster_without_pools (Some []) (Some ConfigExamples.logged_pools)
           [Some "etl"] ConfigExamples.pooled ConfigExamples.pooled).
  - right. reflexivity.
  - discriminate.
Defined.
